(** * PreçoFácil: the establishment-search pipeline, the quiz and the
      local-storage authentication, embedded from the TypeScript sources.

    Conventions of the embedding.
    - A JavaScript string is a sequence of code units; it is modelled by
      [string], one [ascii] standing for one code unit.  The models only use
      concatenation, length, equality and substring tests.
    - A JavaScript number that is stored, compared or printed is an exact
      rational ([Q]); the trigonometry of [calculateDistance] is carried out
      over the real numbers ([R]).  The rounding error of binary64 arithmetic,
      infinities and NaN are outside the model.
    - [Math.random] reads a supply of draws that is threaded through the
      code in call order.
    - The network is a pair of oracles; every request is recorded in a trace,
      so that "no network call" is the empty trace. *)

From Stdlib Require Import List String Ascii Bool Arith ZArith QArith Qround.
From Stdlib Require Import DecimalString.
From Stdlib Require DecimalNat.
From Stdlib Require Import Lia Lqa Lra Reals Permutation Sorted.
Import ListNotations.

Local Open Scope list_scope.
Local Open Scope string_scope.

(* ================================================================== *)
(** * Strings *)

Module JsString.

(** [\d] of a JavaScript regular expression: the ten ASCII digits. *)
Definition is_digit (c : ascii) : bool :=
  let n := nat_of_ascii c in (48 <=? n)%nat && (n <=? 57)%nat.

Fixpoint filter (p : ascii -> bool) (s : string) : string :=
  match s with
  | EmptyString => EmptyString
  | String c s' => if p c then String c (filter p s') else filter p s'
  end.

Fixpoint forallb (p : ascii -> bool) (s : string) : bool :=
  match s with
  | EmptyString => true
  | String c s' => p c && forallb p s'
  end.

(** [s.replace(/\D/g, '')] *)
Definition strip_non_digits (s : string) : string := filter is_digit s.

(** [s.includes(t)] *)
Fixpoint includes (s t : string) : bool :=
  String.prefix t s ||
  match s with
  | EmptyString => false
  | String _ s' => includes s' t
  end.

(** [xs.join(sep)] *)
Fixpoint join (sep : string) (xs : list string) : string :=
  match xs with
  | [] => ""
  | [x] => x
  | x :: rest => x ++ sep ++ join sep rest
  end.

(** A string is truthy when it is not empty. *)
Definition truthy (s : string) : bool :=
  match s with EmptyString => false | _ => true end.

(** [n.toString()] for a natural number. *)
Definition of_nat (n : nat) : string :=
  NilEmpty.string_of_uint (Nat.to_uint n).

End JsString.

(* ================================================================== *)
(** * Object literals used as tables *)

Module JsObject.

(** [obj[key]] on the own keys of an object literal, in the order they are
    written.  The keys a plain object inherits from [Object.prototype] are
    not modelled: the tables below are indexed by category names. *)
Fixpoint get {V} (obj : list (string * V)) (key : string) : option V :=
  match obj with
  | [] => None
  | (k, v) :: rest => if String.eqb k key then Some v else get rest key
  end.

End JsObject.

(* ================================================================== *)
(** * geolocation.ts *)

Module Geolocation.

Record Coordinates := { lat : Q; lng : Q }.

Record AddressInfo := {
  cep : string;
  city : string;
  state : string;
  street : string;
  neighborhood : string;
  coordinates : Coordinates
}.

(** ** The network boundary *)

(** The requests the module sends. *)
Inductive Request :=
| ViaCEP (cleanCEP : string)        (* GET viacep.com.br/ws/<cleanCEP>/json/ *)
| Nominatim (address : string).     (* GET nominatim.../search?q=<address> *)

(** What [fetch] followed by [response.json()] yields. *)
Inductive Fetched (A : Type) :=
| Rejected            (* the promise of fetch or of json() rejects *)
| NotOk               (* response.ok is false *)
| Body (a : A).
Arguments Rejected {A}.
Arguments NotOk {A}.
Arguments Body {A} a.

Record ViaCepData := {
  erro : bool;
  vc_cep : string;
  logradouro : string;
  localidade : string;
  uf : string;
  bairro : string
}.

(** One hit of the geocoder, its coordinates already through [parseFloat]. *)
Record NominatimHit := { hit_lat : Q; hit_lon : Q }.

(** ** Computations that log requests and may throw *)

Inductive Outcome (A : Type) :=
| Throw (message : string)
| Return (a : A).
Arguments Throw {A} message.
Arguments Return {A} a.

Definition IO (A : Type) : Type := (list Request * Outcome A)%type.

Definition ret {A} (a : A) : IO A := ([], Return a).
Definition throw {A} (message : string) : IO A := ([], Throw message).

Definition bind {A B} (m : IO A) (k : A -> IO B) : IO B :=
  match m with
  | (t, Throw e) => (t, Throw e)
  | (t, Return a) => let (t', r) := k a in ((t ++ t')%list, r)
  end.

(** [try { m } catch (error) { return h }] *)
Definition try_catch {A} (m : IO A) (h : A) : IO A :=
  match m with
  | (t, Throw _) => (t, Return h)
  | (t, Return a) => (t, Return a)
  end.

Definition trace {A} (m : IO A) : list Request := fst m.

Notation "x <- m ;; k" := (bind m (fun x => k))
  (at level 61, m at next level, right associativity).

Section Network.

Variable viacep : string -> Fetched ViaCepData.
Variable nominatim : string -> Fetched (list NominatimHit).

(** [await fetch(url)], [if (!response.ok) throw ...], [await response.json()] *)
Definition fetch_json {A} (req : Request) (reply : Fetched A)
           (not_ok : string) : IO A :=
  match reply with
  | Rejected => ([req], Throw "fetch")
  | NotOk => ([req], Throw not_ok)
  | Body a => ([req], Return a)
  end.

Definition getCoordinatesFromAddress (address : string)
  : IO (option Coordinates) :=
  try_catch
    (data <- fetch_json (Nominatim address) (nominatim address)
                        "Erro ao buscar coordenadas" ;;
     match data with
     | [] => ret None
     | h :: _ => ret (Some {| lat := hit_lat h; lng := hit_lon h |})
     end)
    None.

Definition getCoordinatesFromCity (city : string) (state : option string)
  : IO (option Coordinates) :=
  let searchQuery :=
    match state with
    | Some st => if JsString.truthy st
                 then city ++ ", " ++ st ++ ", Brasil"
                 else city ++ ", Brasil"
    | None => city ++ ", Brasil"
    end in
  getCoordinatesFromAddress searchQuery.

(** Fallback: São Paulo *)
Definition fallback_coordinates : Coordinates :=
  {| lat := - (235505 # 10000); lng := - (466333 # 10000) |}.

Definition getAddressFromCEP (cep : string) : IO (option AddressInfo) :=
  try_catch
    (let cleanCEP := JsString.strip_non_digits cep in
     _ <- (if negb (String.length cleanCEP =? 8)%nat
           then throw "CEP inválido" else ret tt) ;;
     data <- fetch_json (ViaCEP cleanCEP) (viacep cleanCEP)
                        "Erro ao buscar CEP" ;;
     _ <- (if erro data then throw "CEP não encontrado" else ret tt) ;;
     coordinates <- getCoordinatesFromAddress
                      (logradouro data ++ ", " ++ localidade data ++ ", "
                         ++ uf data ++ ", Brasil") ;;
     ret (Some {| cep := vc_cep data;
                  city := localidade data;
                  state := uf data;
                  street := logradouro data;
                  neighborhood := bairro data;
                  coordinates :=
                    match coordinates with
                    | Some c => c
                    | None => fallback_coordinates
                    end |}))
    None.

End Network.

(** ** Haversine distance *)

Local Open Scope R_scope.

Definition toRad (degrees : R) : R := degrees * (PI / 180).

(** [Math.round]: the nearest integer, ties towards plus infinity. *)
Definition Math_round (x : R) : Z := Int_part (x + / 2).

(** [Math.atan2(y, x)] *)
Definition Math_atan2 (y x : R) : R :=
  if Rlt_dec 0 x then atan (y / x)
  else if Rlt_dec x 0 then
         if Rle_dec 0 y then atan (y / x) + PI else atan (y / x) - PI
  else if Rlt_dec 0 y then PI / 2
  else if Rlt_dec y 0 then - (PI / 2)
  else 0.

(** The great-circle distance in kilometres, before rounding. *)
Definition haversine (coord1 coord2 : Coordinates) : R :=
  let R := 6371 in
  let dLat := toRad (Q2R (lat coord2) - Q2R (lat coord1)) in
  let dLng := toRad (Q2R (lng coord2) - Q2R (lng coord1)) in
  let a :=
    sin (dLat / 2) * sin (dLat / 2) +
    cos (toRad (Q2R (lat coord1))) *
      cos (toRad (Q2R (lat coord2))) *
      sin (dLng / 2) *
      sin (dLng / 2) in
  let c := 2 * Math_atan2 (sqrt a) (sqrt (1 - a)) in
  R * c.

(** [Math.round(distance * 10) / 10] *)
Definition calculateDistance (coord1 coord2 : Coordinates) : Q :=
  (inject_Z (Math_round (haversine coord1 coord2 * 10)) / 10)%Q.

End Geolocation.

(* ================================================================== *)
(** * places.ts *)

Module Places.

Definition Coordinates := Geolocation.Coordinates.

Record Place := {
  id : string;
  name : string;
  type : string;
  category : string;
  distance : Q;
  address : string;
  coordinates : Coordinates
}.

Inductive Confidence := high | medium | low.

Record Product := {
  p_id : string;
  p_name : string;
  price : Q;
  store : string;
  p_distance : string;
  p_category : string;
  source : option string;
  lastUpdated : option string;
  confidence : option Confidence;
  isReal : option bool
}.

Record SocialMedia := {
  instagram : option string;
  facebook : option string;
  website : option string
}.

(** [StoreWithProducts extends Place]: the fields of the place, copied by
    the object spread, and the two added ones. *)
Record StoreWithProducts := {
  s_id : string;
  s_name : string;
  s_type : string;
  s_category : string;
  s_distance : Q;
  s_address : string;
  s_coordinates : Coordinates;
  products : list Product;
  socialMedia : option SocialMedia
}.

(** [{ ...place, products, socialMedia }] *)
Definition spread (place : Place) (ps : list Product)
           (sm : option SocialMedia) : StoreWithProducts :=
  {| s_id := id place; s_name := name place; s_type := type place;
     s_category := category place; s_distance := distance place;
     s_address := address place; s_coordinates := coordinates place;
     products := ps; socialMedia := sm |}.

(** The [Place] part of a store. *)
Definition place_of (s : StoreWithProducts) : Place :=
  {| id := s_id s; name := s_name s; type := s_type s;
     category := s_category s; distance := s_distance s;
     address := s_address s; coordinates := s_coordinates s |}.

(** ** ai-price-scraper.ts, as far as places.ts reads it *)

Record RealPriceData := {
  productName : string;
  rp_price : Q;
  rp_source : string;
  rp_lastUpdated : string;
  rp_confidence : Confidence
}.

Record StoreWithRealPrices := {
  storeName : string;
  storeType : string;
  rp_address : string;
  rp_socialMedia : SocialMedia;
  prices : list RealPriceData;
  lastScraped : string
}.

(** The settlement of the promise of [fetchRealPricesWithAI]. *)
Inductive AiResult :=
| AiRejects
| AiNull
| AiData (d : StoreWithRealPrices).

(** ** Math.random *)

(** The draws [Math.random] is going to return, in order. *)
Definition Draws := nat -> Q.

Definition valid_draws (d : Draws) : Prop := forall n, 0 <= d n /\ d n < 1.

Definition advance (k : nat) (d : Draws) : Draws := fun n => d (k + n)%nat.

Definition Rand (A : Type) : Type := Draws -> A * Draws.

Definition ret {A} (a : A) : Rand A := fun d => (a, d).

Definition bind {A B} (m : Rand A) (k : A -> Rand B) : Rand B :=
  fun d => let (a, d') := m d in k a d'.

Definition Math_random : Rand Q := fun d => (d 0%nat, advance 1 d).

Notation "x <- m ;; k" := (bind m (fun x => k))
  (at level 61, m at next level, right associativity).

(** [xs.map((item, index) => f item index)] with a callback that draws. *)
Fixpoint map_indexed {A B} (f : A -> nat -> Rand B) (index : nat)
         (xs : list A) : Rand (list B) :=
  match xs with
  | [] => ret []
  | x :: rest =>
      y <- f x index ;;
      ys <- map_indexed f (S index) rest ;;
      ret (y :: ys)
  end.

(** [Math.round] and [Math.floor] on exact rationals. *)
Definition Math_round (x : Q) : Z := Qfloor (x + (1 # 2)).
Definition Math_floor (x : Q) : Z := Qfloor x.

(** ** Arrays *)

(** [xs.slice(i, j)] for [0 <= i <= j] *)
Definition slice {A} (i j : nat) (xs : list A) : list A :=
  firstn (j - i) (skipn i xs).

(** [xs.sort(compareFn)] with a consistent comparator: a stable sort.
    [insert x l] puts [x], which stood before the elements of [l], in
    front of the first element it does not exceed. *)
Fixpoint insert {A} (compareFn : A -> A -> Q) (x : A) (l : list A) : list A :=
  match l with
  | [] => [x]
  | y :: l' =>
      if Qle_bool (compareFn x y) 0 then x :: y :: l'
      else y :: insert compareFn x l'
  end.

Fixpoint Array_sort {A} (compareFn : A -> A -> Q) (xs : list A) : list A :=
  match xs with
  | [] => []
  | x :: rest => insert compareFn x (Array_sort compareFn rest)
  end.

(** ** Category mapping *)

Definition CATEGORY_TAGS : list (string * list string) :=
  [ ("Mercado", ["supermarket"; "convenience"; "grocery"]);
    ("Farmácia", ["pharmacy"; "chemist"]);
    ("Lanchonete", ["fast_food"; "restaurant"]);
    ("Cafeteria", ["cafe"; "coffee_shop"]);
    ("Padaria", ["bakery"]);
    ("Restaurante", ["restaurant"]) ].

(** The [tags] object of an OpenStreetMap element: the string stored under
    a key, when the key is present. *)
Definition Tags := string -> option string.

(** [tagList.includes(v)], [v] being [undefined] when the key is absent. *)
Definition includes (tagList : list string) (v : option string) : bool :=
  match v with
  | Some s => existsb (String.eqb s) tagList
  | None => false
  end.

(** The [for ... of Object.entries(CATEGORY_TAGS)] loop. *)
Fixpoint first_category (entries : list (string * list string))
         (shop amenity : option string) : string :=
  match entries with
  | [] => "Outros"
  | (category, tagList) :: rest =>
      if includes tagList shop || includes tagList amenity then category
      else first_category rest shop amenity
  end.

Definition getCategoryFromTags (tags : Tags) : string :=
  let shop := tags "shop" in
  let amenity := tags "amenity" in
  first_category CATEGORY_TAGS shop amenity.

(** [if (tags[key]) parts.push(tags[key])] *)
Definition push_if_truthy (tags : Tags) (key : string) (parts : list string)
  : list string :=
  match tags key with
  | Some v => if JsString.truthy v then (parts ++ [v])%list else parts
  | None => parts
  end.

Definition formatAddress (tags : Tags) : string :=
  let parts := [] in
  let parts := push_if_truthy tags "addr:street" parts in
  let parts := push_if_truthy tags "addr:housenumber" parts in
  let parts := push_if_truthy tags "addr:neighbourhood" parts in
  let parts := push_if_truthy tags "addr:city" parts in
  if (0 <? List.length parts)%nat then JsString.join ", " parts
  else "Endereço não disponível".

(** ** Mock places *)

Record MockItem := { m_name : string; m_type : string; baseDistance : Q }.

Definition mockData : list MockItem :=
  [ {| m_name := "Supermercado Economia"; m_type := "Mercado"; baseDistance := 5 # 10 |};
    {| m_name := "Farmácia Saúde+"; m_type := "Farmácia"; baseDistance := 8 # 10 |};
    {| m_name := "Lanchonete Sabor & Cia"; m_type := "Lanchonete"; baseDistance := 12 # 10 |};
    {| m_name := "Mercado Preço Bom"; m_type := "Mercado"; baseDistance := 15 # 10 |};
    {| m_name := "Café Aroma"; m_type := "Cafeteria"; baseDistance := 3 # 10 |};
    {| m_name := "Padaria Pão Quente"; m_type := "Padaria"; baseDistance := 6 # 10 |};
    {| m_name := "Farmácia Popular"; m_type := "Farmácia"; baseDistance := 10 # 10 |};
    {| m_name := "Restaurante Bom Sabor"; m_type := "Restaurante"; baseDistance := 9 # 10 |} ].

Definition getMockPlaces (coordinates : Coordinates) : Rand (list Place) :=
  map_indexed
    (fun item index =>
       r1 <- Math_random ;;
       r2 <- Math_random ;;
       ret {| id := "mock-" ++ JsString.of_nat index;
              name := m_name item;
              type := m_type item;
              category := m_type item;
              distance := baseDistance item;
              address := "Rua Exemplo, " ++ JsString.of_nat (100 + index * 50);
              coordinates :=
                {| Geolocation.lat :=
                     Geolocation.lat coordinates + (r1 - (5 # 10)) * (2 # 100);
                   Geolocation.lng :=
                     Geolocation.lng coordinates + (r2 - (5 # 10)) * (2 # 100) |}
           |})
    0%nat mockData.

(** ** Search *)

(** A node of the Overpass reply. *)
Record Element := {
  el_id : Z;
  el_lat : Q;
  el_lon : Q;
  el_tags : option Tags
}.

(** [element.tags?.name], when truthy. *)
Definition element_name (element : Element) : option string :=
  match el_tags element with
  | Some tags =>
      match tags "name" with
      | Some n => if JsString.truthy n then Some n else None
      | None => None
      end
  | None => None
  end.

Definition no_tags : Tags := fun _ => None.

(** The callback of [.map] in [searchNearbyPlaces]; it runs on elements
    that passed the name filter. *)
Definition place_of_element (coordinates : Coordinates) (element : Element)
  : Place :=
  let tags := match el_tags element with Some t => t | None => no_tags end in
  let placeCoords :=
    {| Geolocation.lat := el_lat element; Geolocation.lng := el_lon element |} in
  let distance := Geolocation.calculateDistance coordinates placeCoords in
  let category := getCategoryFromTags tags in
  {| id := NilEmpty.string_of_int (Z.to_int (el_id element));
     name := match tags "name" with Some n => n | None => "" end;
     type := category;
     category := category;
     distance := distance;
     address := formatAddress tags;
     coordinates := placeCoords |}.

(** The [try] block once the reply holds an element list. *)
Definition process_elements (coordinates : Coordinates)
           (elements : list Element) : list Place :=
  slice 0 20
    (Array_sort (fun a b => distance a - distance b)
       (map (place_of_element coordinates)
          (filter (fun element =>
                     match element_name element with
                     | Some _ => true | None => false end)
                  elements))).

(** [reply] is what the Overpass endpoint answers to the query built from
    [coordinates] and [radiusKm]; a rejected fetch, a status that is not ok
    and a body that does not parse all end in the [catch] block. *)
Definition searchNearbyPlaces (coordinates : Coordinates) (radiusKm : Q)
           (reply : Geolocation.Fetched (list Element)) : Rand (list Place) :=
  match reply with
  | Geolocation.Body elements => ret (process_elements coordinates elements)
  | Geolocation.Rejected | Geolocation.NotOk => getMockPlaces coordinates
  end.

(** ** Mock products *)

Record TableEntry := { t_name : string; basePrice : Q }.

Definition table_Mercado : list TableEntry :=
  [
    {| t_name := "Arroz Tipo 1 5kg"; basePrice := 2490 # 100 |};
    {| t_name := "Feijão Carioca 1kg"; basePrice := 850 # 100 |};
    {| t_name := "Óleo de Soja 900ml"; basePrice := 790 # 100 |};
    {| t_name := "Açúcar Cristal 1kg"; basePrice := 490 # 100 |};
    {| t_name := "Café Torrado 500g"; basePrice := 1490 # 100 |};
    {| t_name := "Leite Integral 1L"; basePrice := 550 # 100 |};
    {| t_name := "Macarrão Espaguete 500g"; basePrice := 390 # 100 |};
    {| t_name := "Farinha de Trigo 1kg"; basePrice := 550 # 100 |};
    {| t_name := "Sal Refinado 1kg"; basePrice := 250 # 100 |};
    {| t_name := "Molho de Tomate 340g"; basePrice := 320 # 100 |} ].

Definition table_Farmacia : list TableEntry :=
  [
    {| t_name := "Dipirona Sódica 500mg"; basePrice := 990 # 100 |};
    {| t_name := "Vitamina C 1g"; basePrice := 1850 # 100 |};
    {| t_name := "Protetor Solar FPS 50"; basePrice := 4890 # 100 |};
    {| t_name := "Paracetamol 750mg"; basePrice := 1150 # 100 |};
    {| t_name := "Álcool Gel 70% 500ml"; basePrice := 1490 # 100 |};
    {| t_name := "Ibuprofeno 600mg"; basePrice := 1590 # 100 |};
    {| t_name := "Esmalte Colorido"; basePrice := 790 # 100 |};
    {| t_name := "Shampoo Anticaspa 400ml"; basePrice := 2290 # 100 |};
    {| t_name := "Fralda Descartável M"; basePrice := 4290 # 100 |};
    {| t_name := "Termômetro Digital"; basePrice := 2890 # 100 |} ].

Definition table_Lanchonete : list TableEntry :=
  [
    {| t_name := "X-Burger Artesanal"; basePrice := 2290 # 100 |};
    {| t_name := "Refrigerante Lata 350ml"; basePrice := 650 # 100 |};
    {| t_name := "Batata Frita Grande"; basePrice := 1590 # 100 |};
    {| t_name := "Hot Dog Completo"; basePrice := 1250 # 100 |};
    {| t_name := "Suco Natural 500ml"; basePrice := 1090 # 100 |};
    {| t_name := "X-Salada"; basePrice := 1890 # 100 |};
    {| t_name := "Milk Shake"; basePrice := 1490 # 100 |};
    {| t_name := "Porção de Onion Rings"; basePrice := 1690 # 100 |};
    {| t_name := "Sanduíche Natural"; basePrice := 1190 # 100 |};
    {| t_name := "Açaí 500ml"; basePrice := 1890 # 100 |} ].

Definition table_Cafeteria : list TableEntry :=
  [
    {| t_name := "Café Expresso"; basePrice := 750 # 100 |};
    {| t_name := "Cappuccino Tradicional"; basePrice := 1190 # 100 |};
    {| t_name := "Pão de Queijo"; basePrice := 550 # 100 |};
    {| t_name := "Croissant Recheado"; basePrice := 990 # 100 |};
    {| t_name := "Bolo Caseiro Fatia"; basePrice := 1050 # 100 |};
    {| t_name := "Café com Leite"; basePrice := 890 # 100 |};
    {| t_name := "Brownie"; basePrice := 1290 # 100 |};
    {| t_name := "Torta de Limão"; basePrice := 1490 # 100 |};
    {| t_name := "Cookie Chocolate"; basePrice := 690 # 100 |};
    {| t_name := "Chá Gelado 500ml"; basePrice := 990 # 100 |} ].

Definition table_Padaria : list TableEntry :=
  [
    {| t_name := "Pão Francês (kg)"; basePrice := 1490 # 100 |};
    {| t_name := "Pão de Forma Integral"; basePrice := 950 # 100 |};
    {| t_name := "Bolo de Chocolate"; basePrice := 2890 # 100 |};
    {| t_name := "Sonho Recheado"; basePrice := 650 # 100 |};
    {| t_name := "Empada de Frango"; basePrice := 790 # 100 |};
    {| t_name := "Pão de Queijo"; basePrice := 490 # 100 |};
    {| t_name := "Torta Salgada"; basePrice := 3290 # 100 |};
    {| t_name := "Biscoito Caseiro (kg)"; basePrice := 2490 # 100 |};
    {| t_name := "Croissant"; basePrice := 890 # 100 |};
    {| t_name := "Baguete"; basePrice := 690 # 100 |} ].

Definition productsByCategory : list (string * list TableEntry) :=
  [ ("Mercado", table_Mercado);
    ("Farmácia", table_Farmacia);
    ("Lanchonete", table_Lanchonete);
    ("Cafeteria", table_Cafeteria);
    ("Padaria", table_Padaria) ].

(** [productsByCategory[place.type] || productsByCategory['Mercado']] *)
Definition products_for (type : string) : list TableEntry :=
  match JsObject.get productsByCategory type with
  | Some products => products
  | None => table_Mercado
  end.

Section Engine.

(** [Number.prototype.toString], used by the template literals. *)
Variable Number_toString : Q -> string.

(** [[...products].sort(() => Math.random() - 0.5)]: the comparator
    ignores its arguments, so which list comes out and how many draws
    the comparator calls consume is up to the sorting algorithm of the
    engine.  [engine_sort products d] is that list and that number. *)
Variable engine_sort : list TableEntry -> Draws -> list TableEntry * nat.

Definition shuffle (products : list TableEntry) : Rand (list TableEntry) :=
  fun d => let (shuffled, calls) := engine_sort products d in
           (shuffled, advance calls d).

Definition generateRealisticProducts (place : Place) : Rand (list Product) :=
  let products := products_for (type place) in
  r <- Math_random ;;
  let numProducts := (3 + Math_floor (r * 3))%Z in
  shuffled <- shuffle products ;;
  let selectedProducts := slice 0 (Z.to_nat numProducts) shuffled in
  map_indexed
    (fun product index =>
       r <- Math_random ;;
       let variation := (85 # 100) + r * (4 # 10) in
       let price := basePrice product * variation in
       ret {| p_id := id place ++ "-" ++ JsString.of_nat index;
              p_name := t_name product;
              price := inject_Z (Math_round (price * 100)) / 100;
              store := name place;
              p_distance := Number_toString (distance place) ++ " km";
              p_category := type place;
              source := None;
              lastUpdated := None;
              confidence := None;
              isReal := Some false |})
    0%nat selectedProducts.

(** The settlement of [fetchRealPricesWithAI(name, type, city)] for the
    place at a given position of the input. *)
Variable fetchRealPricesWithAI : nat -> string -> string -> string -> AiResult.

(** The callbacks of a batch run interleaved, and which of them gets
    which draws depends on the order in which the lookups settle.
    [supply i] is the supply of draws the generator finds when it runs
    for the place at position [i]. *)
Variable supply : nat -> Draws.

(** [realPrices.prices.map((priceData, index) => ...)] *)
Fixpoint real_products (place : Place) (index : nat)
         (ps : list RealPriceData) : list Product :=
  match ps with
  | [] => []
  | priceData :: rest =>
      {| p_id := id place ++ "-" ++ JsString.of_nat index;
         p_name := productName priceData;
         price := rp_price priceData;
         store := name place;
         p_distance := Number_toString (distance place) ++ " km";
         p_category := type place;
         source := Some (rp_source priceData);
         lastUpdated := Some (rp_lastUpdated priceData);
         confidence := Some (rp_confidence priceData);
         isReal := Some true |}
      :: real_products place (S index) rest
  end.

(** The [async (place) => ...] callback, for the place at [position]. *)
Definition attach (city : string) (position : nat) (place : Place)
  : StoreWithProducts :=
  match fetchRealPricesWithAI position (name place) (type place) city with
  | AiData realPrices =>
      if (0 <? List.length (prices realPrices))%nat
      then spread place (real_products place 0 (prices realPrices))
                  (Some (rp_socialMedia realPrices))
      else spread place
                  (fst (generateRealisticProducts place (supply position)))
                  None
  | AiNull =>
      spread place (fst (generateRealisticProducts place (supply position)))
             None
  | AiRejects =>
      spread place (fst (generateRealisticProducts place (supply position)))
             None
  end.

(** [batch.map(...)] followed by [Promise.all]: results in input order. *)
Fixpoint attach_batch (city : string) (position : nat) (batch : list Place)
  : list StoreWithProducts :=
  match batch with
  | [] => []
  | place :: rest =>
      attach city position place :: attach_batch city (S position) rest
  end.

Definition batchSize : nat := 5.

(** The [for (let i = 0; i < places.length; i += batchSize)] loop; each
    round consumes one unit of [fuel]. *)
Fixpoint batch_loop (fuel : nat) (city : string) (places : list Place)
         (i : nat) (storesWithProducts : list StoreWithProducts)
  : list StoreWithProducts :=
  match fuel with
  | O => storesWithProducts
  | S fuel' =>
      if (i <? List.length places)%nat then
        let batch := slice i (i + batchSize) places in
        let batchResults := attach_batch city i batch in
        batch_loop fuel' city places (i + batchSize)
                   (storesWithProducts ++ batchResults)%list
      else storesWithProducts
  end.

(** The loop makes at most one round per place. *)
Definition addRealProductsToPlaces (places : list Place) (city : string)
  : list StoreWithProducts :=
  batch_loop (List.length places) city places 0 [].

Definition addMockProductsToPlaces (places : list Place)
  : Rand (list StoreWithProducts) :=
  map_indexed
    (fun place _ =>
       ps <- generateRealisticProducts place ;;
       ret (spread place ps None))
    0%nat places.

End Engine.

(** An engine sort for short arrays: insertion from the right, one
    comparator call, hence one draw, per comparison. *)
Fixpoint coin_insert (x : TableEntry) (l : list TableEntry) (d : Draws)
         (calls : nat) : list TableEntry * nat :=
  match l with
  | [] => ([x], calls)
  | y :: l' =>
      if Qle_bool (d calls - (5 # 10)) 0 then (x :: y :: l', S calls)
      else let (r, calls') := coin_insert x l' d (S calls) in (y :: r, calls')
  end.

Fixpoint coin_sort (l : list TableEntry) (d : Draws) (calls : nat)
  : list TableEntry * nat :=
  match l with
  | [] => ([], calls)
  | x :: rest =>
      let (sorted, calls') := coin_sort rest d calls in
      coin_insert x sorted d calls'
  end.

Definition insertion_engine_sort (l : list TableEntry) (d : Draws)
  : list TableEntry * nat := coin_sort l d 0.

End Places.

(* ================================================================== *)
(** * establishment-quiz.tsx *)

Module Quiz.

Record QuizOption := { text : string; value : string }.

Record QuizQuestion := {
  q_id : nat;
  question : string;
  options : list QuizOption
}.

(** The icon components carry no behaviour and are left out. *)
Record QuizResult := {
  type : string;
  name : string;
  description : string;
  imageUrl : option string
}.

Definition quizQuestions : list QuizQuestion :=
  [ {| q_id := 1;
       question := "O que você está procurando?";
       options :=
         [ {| text := "Alimentos e produtos do dia a dia"; value := "food" |};
           {| text := "Medicamentos e produtos de saúde"; value := "health" |};
           {| text := "Comida pronta ou lanches"; value := "meal" |};
           {| text := "Produtos variados"; value := "general" |} ] |};
    {| q_id := 2;
       question := "Qual é a sua prioridade?";
       options :=
         [ {| text := "Variedade de produtos"; value := "variety" |};
           {| text := "Atendimento especializado"; value := "specialized" |};
           {| text := "Rapidez e conveniência"; value := "quick" |};
           {| text := "Preço baixo"; value := "price" |} ] |};
    {| q_id := 3;
       question := "Que tipo de ambiente você prefere?";
       options :=
         [ {| text := "Grande e completo"; value := "large" |};
           {| text := "Profissional e limpo"; value := "professional" |};
           {| text := "Aconchegante e casual"; value := "cozy" |};
           {| text := "Simples e prático"; value := "simple" |} ] |} ].

Definition quizResults : list (string * QuizResult) :=
  [ ("Mercado",
     {| type := "Mercado"; name := "Mercado/Supermercado";
        description := "Estabelecimentos com grande variedade de produtos alimentícios, bebidas, produtos de limpeza e itens do dia a dia.";
        imageUrl := None |});
    ("Farmácia",
     {| type := "Farmácia"; name := "Farmácia/Drogaria";
        description := "Estabelecimentos especializados em medicamentos, produtos de saúde, higiene pessoal e bem-estar.";
        imageUrl := None |});
    ("Lanchonete",
     {| type := "Lanchonete"; name := "Lanchonete/Fast Food";
        description := "Estabelecimentos que servem refeições rápidas, lanches, salgados e bebidas para consumo imediato.";
        imageUrl := None |});
    ("Cafeteria",
     {| type := "Cafeteria"; name := "Cafeteria/Café";
        description := "Estabelecimentos especializados em café, bebidas quentes, doces e ambiente aconchegante.";
        imageUrl := None |});
    ("Padaria",
     {| type := "Padaria"; name := "Padaria/Confeitaria";
        description := "Estabelecimentos que produzem e vendem pães, bolos, doces e produtos de confeitaria.";
        imageUrl := None |});
    ("Restaurante",
     {| type := "Restaurante"; name := "Restaurante";
        description := "Estabelecimentos que servem refeições completas em ambiente mais formal.";
        imageUrl := None |}) ].

(** The result is [None] where the lookup in [quizResults] is [undefined]. *)
Definition determineResult (userAnswers : list string) : option QuizResult :=
  let answerString := JsString.join "-" userAnswers in
  let includes := JsString.includes answerString in
  if includes "food" && (includes "variety" || includes "price")
  then JsObject.get quizResults "Mercado"
  else if includes "health"
  then JsObject.get quizResults "Farmácia"
  else if includes "meal" && includes "cozy"
  then JsObject.get quizResults "Cafeteria"
  else if includes "meal" && includes "quick"
  then JsObject.get quizResults "Lanchonete"
  else if includes "food" && includes "quick"
  then JsObject.get quizResults "Padaria"
  else if includes "meal"
  then JsObject.get quizResults "Restaurante"
  else JsObject.get quizResults "Mercado".

(** The answer sequences [handleAnswer] hands to [determineResult]: one
    option value of each question, in the order of the questions. *)
Definition quiz_answers (userAnswers : list string) : Prop :=
  Forall2 (fun q a => In a (map value (options q))) quizQuestions userAnswers.

End Quiz.

(* ================================================================== *)
(** * auth.ts *)

Module Auth.

Record User := { email : string; name : string }.

Record AuthState := { isAuthenticated : bool; user : option User }.

(** An entry of the stored user list. *)
Record StoredUser := {
  su_email : string;
  su_password : string;
  su_name : string
}.

(** The two keys of [localStorage] the module uses, each holding the value
    its JSON text parses to.  The module is the only writer of both keys,
    so their text always parses, and [setItem] is taken to succeed. *)
Record LocalStorage := {
  precofacil_auth : option AuthState;
  precofacil_users : option (list StoredUser)
}.

Record RegisterResult := { success : bool; error : option string }.

Record LoginResult := {
  l_success : bool;
  l_error : option string;
  l_user : option User
}.

Definition getStoredUsers (ls : LocalStorage) : list StoredUser :=
  match precofacil_users ls with
  | Some stored => stored
  | None => []
  end.

Definition register (email password name : string) (ls : LocalStorage)
  : RegisterResult * LocalStorage :=
  if negb (JsString.truthy email) || negb (JsString.truthy password)
     || negb (JsString.truthy name)
  then ({| success := false; error := Some "Preencha todos os campos" |}, ls)
  else if negb (JsString.includes email "@")
  then ({| success := false; error := Some "Email inválido" |}, ls)
  else if (String.length password <? 6)%nat
  then ({| success := false;
           error := Some "Senha deve ter no mínimo 6 caracteres" |}, ls)
  else
    let users := getStoredUsers ls in
    if existsb (fun u => String.eqb (su_email u) email) users
    then ({| success := false; error := Some "Email já cadastrado" |}, ls)
    else
      let users := (users ++ [ {| su_email := email; su_password := password;
                                  su_name := name |} ])%list in
      ({| success := true; error := None |},
       {| precofacil_auth := precofacil_auth ls;
          precofacil_users := Some users |}).

Definition login (email password : string) (ls : LocalStorage)
  : LoginResult * LocalStorage :=
  if negb (JsString.truthy email) || negb (JsString.truthy password)
  then ({| l_success := false; l_error := Some "Preencha todos os campos";
           l_user := None |}, ls)
  else
    let users := getStoredUsers ls in
    match find (fun u => String.eqb (su_email u) email
                         && String.eqb (su_password u) password) users with
    | None =>
        ({| l_success := false; l_error := Some "Email ou senha incorretos";
            l_user := None |}, ls)
    | Some user =>
        let authState :=
          {| isAuthenticated := true;
             user := Some {| email := su_email user; name := su_name user |} |} in
        ({| l_success := true; l_error := None;
            l_user := Some {| email := su_email user; name := su_name user |} |},
         {| precofacil_auth := Some authState;
            precofacil_users := precofacil_users ls |})
    end.

Definition logout (ls : LocalStorage) : LocalStorage :=
  {| precofacil_auth := None; precofacil_users := precofacil_users ls |}.

Definition getAuthState (ls : LocalStorage) : AuthState :=
  match precofacil_auth ls with
  | None => {| isAuthenticated := false; user := None |}
  | Some authState => authState
  end.

End Auth.

(* ================================================================== *)
(** * ai-price-scraper.ts *)

Module AiPriceScraper.

(** What [openai.chat.completions.create], the read of the content and
    [JSON.parse] come to. *)
Inductive Completion (A : Type) :=
| CompletionRejects     (* the request rejects *)
| NoContent             (* response.choices[0]?.message?.content is falsy *)
| Unparsable            (* JSON.parse throws, or the prices are not an array *)
| Parsed (data : A).
Arguments CompletionRejects {A}.
Arguments NoContent {A}.
Arguments Unparsable {A}.
Arguments Parsed {A} data.

(** [price.confidence === 'high' || price.confidence === 'medium'] *)
Definition high_or_medium (price : Places.RealPriceData) : bool :=
  match Places.rp_confidence price with
  | Places.high => true
  | Places.medium => true
  | Places.low => false
  end.

Section Client.

(** [openai && apiKey]: the key is configured. *)
Variable configured : bool.

(** The answer to the prompt built from the store name, the store type and
    the city. *)
Variable store_completion :
  string -> string -> string -> Completion Places.StoreWithRealPrices.

(** The answer to the prompt built from the product name, the store names
    and the city. *)
Variable product_completion :
  string -> list string -> string -> Completion (list Places.RealPriceData).

(** [new Date().toISOString()] *)
Variable now : string.

(** The result comes with the number of requests sent to the model. *)
Definition fetchRealPricesWithAI (storeName storeType city : string)
  : nat * option Places.StoreWithRealPrices :=
  if negb configured then (0%nat, None)
  else
    match store_completion storeName storeType city with
    | CompletionRejects => (1%nat, None)
    | NoContent => (1%nat, None)
    | Unparsable => (1%nat, None)
    | Parsed data =>
        (1%nat,
         Some {| Places.storeName := Places.storeName data;
                 Places.storeType := Places.storeType data;
                 Places.rp_address := Places.rp_address data;
                 Places.rp_socialMedia := Places.rp_socialMedia data;
                 Places.prices := filter high_or_medium (Places.prices data);
                 Places.lastScraped := now |})
    end.

(** [Promise.allSettled] over the stores, then the fulfilled values that
    are not null, in the order of the stores. *)
Fixpoint settled_values (stores : list (string * string)) (city : string)
  : list Places.StoreWithRealPrices :=
  match stores with
  | [] => []
  | (name, type) :: rest =>
      match snd (fetchRealPricesWithAI name type city) with
      | Some value => value :: settled_values rest city
      | None => settled_values rest city
      end
  end.

Definition fetchMultipleStoresPrices (stores : list (string * string))
           (city : string) : list Places.StoreWithRealPrices :=
  if negb configured then [] else settled_values stores city.

Definition searchSpecificProductPrices (productName : string)
           (storeNames : list string) (city : string)
  : list Places.RealPriceData :=
  if negb configured then []
  else
    match product_completion productName storeNames city with
    | CompletionRejects => []
    | NoContent => []
    | Unparsable => []
    | Parsed prices => filter high_or_medium prices
    end.

Definition isAIConfigured : bool := configured.

(** [fetchRealPricesWithAI] as [places.ts] sees it: a promise that never
    rejects. *)
Definition as_lookup (position : nat) (name type city : string)
  : Places.AiResult :=
  match snd (fetchRealPricesWithAI name type city) with
  | Some data => Places.AiData data
  | None => Places.AiNull
  end.

End Client.

End AiPriceScraper.

(* ================================================================== *)
(** * google-places.ts *)

Module GooglePlaces.

Record PlaceResult := {
  id : string;
  name : string;
  address : string;
  type : string;
  rating : option Q;
  totalRatings : option Q;
  phoneNumber : option string;
  website : option string;
  openNow : option bool;
  priceLevel : option Q;
  photos : list string;
  location : Geolocation.Coordinates
}.

(** An entry of [data.results] of the Nearby Search, or [data.result] of
    the Details request; its geometry is taken to be present. *)
Record RawPlace := {
  place_id : string;
  raw_name : string;
  vicinity : option string;
  formatted_address : option string;
  formatted_phone_number : option string;
  raw_website : option string;
  types : option (list string);
  raw_rating : option Q;
  user_ratings_total : option Q;
  open_now : option bool;
  price_level : option Q;
  raw_photos : option (list string);       (* the photo references *)
  geometry_location : Geolocation.Coordinates
}.

Inductive Request :=
| NearbySearch (lat lng radius : Q) (googleType key : string)
| Details (placeId key : string).

Record NearbyBody := { status : string; results : option (list RawPlace) }.
Record DetailsBody := { d_status : string; result : RawPlace }.

(** What [fetch] and [response.json()] yield. *)
Inductive Reply (A : Type) :=
| Rejects
| Json (body : A).
Arguments Rejects {A}.
Arguments Json {A} body.

Definition mapToGooglePlaceType (ourType : string) : string :=
  let typeMap :=
    [ ("Mercado", "supermarket");
      ("Farmácia", "pharmacy");
      ("Lanchonete", "restaurant");
      ("Cafeteria", "cafe");
      ("Padaria", "bakery");
      ("Restaurante", "restaurant");
      ("Loja", "store");
      ("all", "establishment") ] in
  match JsObject.get typeMap ourType with
  | Some t => t
  | None => "establishment"
  end.

Definition mapGoogleTypeToOurType (googleType : string) : string :=
  let typeMap :=
    [ ("supermarket", "Mercado");
      ("grocery_or_supermarket", "Mercado");
      ("pharmacy", "Farmácia");
      ("drugstore", "Farmácia");
      ("restaurant", "Restaurante");
      ("cafe", "Cafeteria");
      ("bakery", "Padaria");
      ("food", "Lanchonete");
      ("meal_takeaway", "Lanchonete");
      ("store", "Loja") ] in
  match JsObject.get typeMap googleType with
  | Some t => t
  | None => "Loja"
  end.

(** [a || b] on strings that may be undefined. *)
Definition or_else (a : option string) (b : string) : string :=
  match a with
  | Some s => if JsString.truthy s then s else b
  | None => b
  end.

(** [place.types?.[0]] *)
Definition first_type (place : RawPlace) : option string :=
  match types place with
  | Some (t :: _) => Some t
  | _ => None
  end.

Definition photo_url (maxwidth key reference : string) : string :=
  "https://maps.googleapis.com/maps/api/place/photo?maxwidth=" ++ maxwidth
    ++ "&photo_reference=" ++ reference ++ "&key=" ++ key.

(** [place.photos?.map(...) || []] *)
Definition photo_urls (maxwidth key : string) (place : RawPlace) : list string :=
  match raw_photos place with
  | Some references => map (photo_url maxwidth key) references
  | None => []
  end.

Section Client.

(** [process.env.NEXT_PUBLIC_GOOGLE_MAPS_API_KEY] *)
Variable apiKey : option string.

Variable nearby : Request -> Reply NearbyBody.
Variable details : Request -> Reply DetailsBody.

Definition key_configured : option string :=
  match apiKey with
  | Some key => if JsString.truthy key then Some key else None
  | None => None
  end.

Definition nearby_place (key googleType : string) (place : RawPlace)
  : PlaceResult :=
  {| id := place_id place;
     name := raw_name place;
     address := or_else (vicinity place) (or_else (formatted_address place) "");
     type := mapGoogleTypeToOurType (or_else (first_type place) googleType);
     rating := raw_rating place;
     totalRatings := user_ratings_total place;
     phoneNumber := None;
     website := None;
     openNow := open_now place;
     priceLevel := price_level place;
     photos := photo_urls "400" key place;
     location := geometry_location place |}.

(** The requests sent, and the places. *)
Definition searchPlacesWithGoogle (coordinates : Geolocation.Coordinates)
           (type : string) (radius : Q) : list Request * list PlaceResult :=
  match key_configured with
  | None => ([], [])
  | Some key =>
      let googleType := mapToGooglePlaceType type in
      let request :=
        NearbySearch (Geolocation.lat coordinates) (Geolocation.lng coordinates)
                     radius googleType key in
      match nearby request with
      | Rejects => ([request], [])
      | Json data =>
          if negb (String.eqb (status data) "OK")
             && negb (String.eqb (status data) "ZERO_RESULTS")
          then ([request], [])
          else
            match results data with
            | None => ([request], [])
            | Some [] => ([request], [])
            | Some places => ([request], map (nearby_place key googleType) places)
            end
      end
  end.

Definition getPlaceDetails (placeId : string)
  : list Request * option PlaceResult :=
  match key_configured with
  | None => ([], None)
  | Some key =>
      let request := Details placeId key in
      match details request with
      | Rejects => ([request], None)
      | Json data =>
          if negb (String.eqb (d_status data) "OK") then ([request], None)
          else
            let place := result data in
            ([request],
             Some {| id := placeId;
                     name := raw_name place;
                     address := or_else (formatted_address place) "";
                     type := mapGoogleTypeToOurType (or_else (first_type place) "");
                     rating := raw_rating place;
                     totalRatings := user_ratings_total place;
                     phoneNumber := formatted_phone_number place;
                     website := raw_website place;
                     openNow := open_now place;
                     priceLevel := price_level place;
                     photos := photo_urls "800" key place;
                     location := geometry_location place |})
      end
  end.

Definition isGoogleMapsConfigured : bool :=
  match key_configured with Some _ => true | None => false end.

End Client.

End GooglePlaces.

(* ================================================================== *)
(** * city-autocomplete.ts *)

Module CityAutocomplete.

Record CityOption := {
  id : string;
  name : string;
  state : string;
  displayName : string
}.

(** A municipality of the IBGE list; [sigla] is what
    [city.microrregiao?.mesorregiao?.UF?.sigla] reads. *)
Record IBGECity := {
  ibge_id : Z;
  nome : string;
  sigla : option string
}.

Definition to_option (city : IBGECity) : CityOption :=
  let uf := match sigla city with
            | Some s => if JsString.truthy s then s else "BR"
            | None => "BR"
            end in
  {| id := NilEmpty.string_of_int (Z.to_int (ibge_id city));
     name := nome city;
     state := uf;
     displayName := nome city ++ " - " ++ uf |}.

(** [!query || query.length < 2] *)
Definition too_short (query : string) : bool :=
  negb (JsString.truthy query) || (String.length query <? 2)%nat.

Section Client.

(** [str.toLowerCase().normalize('NFD').replace(/[\u0300-\u036f]/g, '')]:
    the case mapping and the canonical decomposition of Unicode are left
    to the runtime. *)
Variable normalizeString : string -> string.

(** The answer of the municipality service. *)
Variable municipios : Geolocation.Fetched (list IBGECity).

(** The result comes with the number of requests sent. *)
Definition searchCities (query : string) : nat * list CityOption :=
  if too_short query then (0%nat, [])
  else
    match municipios with
    | Geolocation.Rejected => (1%nat, [])
    | Geolocation.NotOk => (1%nat, [])
    | Geolocation.Body data =>
        let normalizedQuery := normalizeString query in
        (1%nat,
         map to_option
             (Places.slice 0 10
                (filter (fun city =>
                           JsString.includes (normalizeString (nome city))
                                             normalizedQuery)
                        data)))
    end.

(** The module variable [citiesCache]: [null], or the list it was set to. *)
Definition Cache := option (list CityOption).

(** The number of requests, the cities, and the cache afterwards. *)
Definition searchCitiesWithCache (query : string) (citiesCache : Cache)
  : nat * list CityOption * Cache :=
  if too_short query then (0%nat, [], citiesCache)
  else
    let filtered (cache : list CityOption) :=
      Places.slice 0 10
        (filter (fun city =>
                   JsString.includes (normalizeString (name city))
                                     (normalizeString query))
                cache) in
    match citiesCache with
    | Some cache => (0%nat, filtered cache, citiesCache)
    | None =>
        match municipios with
        | Geolocation.Rejected => (1%nat, [], None)
        | Geolocation.NotOk => (1%nat, [], None)
        | Geolocation.Body data =>
            let cache := map to_option data in
            (1%nat, filtered cache, Some cache)
        end
    end.

End Client.

End CityAutocomplete.

(* ================================================================== *)
(** * establishment-quiz.tsx: the component state *)

Module QuizFlow.

(** What the state variable [result] holds: the object of [quizResults]
    itself, which a later image still changes, or a copy made by the object
    spread. *)
Inductive ResultRef :=
| Shared (key : string)
| Fresh (copy : Quiz.QuizResult).

(** The values of [useState], and what outlives a render: the [imageUrl]
    property of each object of [quizResults], written by [handleAnswer],
    and the keys of the objects whose image request has not settled. *)
Record State := {
  currentQuestion : nat;
  answers : list string;
  isComplete : bool;
  result : option ResultRef;
  isGeneratingImage : bool;
  images : string -> option string;
  pending : list string
}.

Definition initial : State :=
  {| currentQuestion := 0; answers := []; isComplete := false;
     result := None; isGeneratingImage := false;
     images := fun _ => None; pending := [] |}.

(** The object [quizResults[key]] as it is now. *)
Definition stored (images : string -> option string) (key : string)
  : option Quiz.QuizResult :=
  match JsObject.get Quiz.quizResults key with
  | Some r => Some {| Quiz.type := Quiz.type r;
                      Quiz.name := Quiz.name r;
                      Quiz.description := Quiz.description r;
                      Quiz.imageUrl := images key |}
  | None => None
  end.

(** The result the card displays. *)
Definition shown (st : State) : option Quiz.QuizResult :=
  match result st with
  | Some (Shared key) => stored (images st) key
  | Some (Fresh copy) => Some copy
  | None => None
  end.

(** The key of the object [determineResult] returns; every object of
    [quizResults] has its key as its type. *)
Definition determined_key (userAnswers : list string) : option string :=
  option_map Quiz.type (Quiz.determineResult userAnswers).

(** [handleAnswer] up to its [await]; [withGenerator] tells whether the
    property [onGenerateImage] was passed. *)
Definition handleAnswer (withGenerator : bool) (value : string) (st : State)
  : State :=
  let newAnswers := (answers st ++ [value])%list in
  if (currentQuestion st <? List.length Quiz.quizQuestions - 1)%nat
  then {| currentQuestion := currentQuestion st + 1;
          answers := newAnswers;
          isComplete := isComplete st;
          result := result st;
          isGeneratingImage := isGeneratingImage st;
          images := images st;
          pending := pending st |}
  else
    match determined_key newAnswers with
    | Some key =>
        {| currentQuestion := currentQuestion st;
           answers := newAnswers;
           isComplete := true;
           result := Some (Shared key);
           isGeneratingImage :=
             if withGenerator then true else isGeneratingImage st;
           images := images st;
           pending := if withGenerator then key :: pending st else pending st |}
    | None =>
        {| currentQuestion := currentQuestion st;
           answers := newAnswers;
           isComplete := true;
           result := None;
           isGeneratingImage := isGeneratingImage st;
           images := images st;
           pending := pending st |}
    end.

Fixpoint remove_one (key : string) (keys : list string) : list string :=
  match keys with
  | [] => []
  | k :: rest => if String.eqb k key then rest else k :: remove_one key rest
  end.

(** [handleAnswer] after its [await], for the object with this key:
    [imageUrl] is what [onGenerateImage] resolved to. *)
Definition imageSettles (key : string) (imageUrl : option string) (st : State)
  : State :=
  let url := match imageUrl with
             | Some u => if JsString.truthy u then Some u else None
             | None => None
             end in
  match url with
  | Some u =>
      let images' := fun k => if String.eqb k key then Some u else images st k in
      {| currentQuestion := currentQuestion st;
         answers := answers st;
         isComplete := isComplete st;
         result := match stored images' key with
                   | Some copy => Some (Fresh copy)
                   | None => None
                   end;
         isGeneratingImage := false;
         images := images';
         pending := remove_one key (pending st) |}
  | None =>
      {| currentQuestion := currentQuestion st;
         answers := answers st;
         isComplete := isComplete st;
         result := result st;
         isGeneratingImage := false;
         images := images st;
         pending := remove_one key (pending st) |}
  end.

(** The promise of [onGenerateImage] rejects: [handleAnswer] stops at its
    [await], and nothing is set.  (The generator the page passes catches
    its errors and resolves to null.) *)
Definition imageRejects (key : string) (st : State) : State :=
  {| currentQuestion := currentQuestion st;
     answers := answers st;
     isComplete := isComplete st;
     result := result st;
     isGeneratingImage := isGeneratingImage st;
     images := images st;
     pending := remove_one key (pending st) |}.

(** The handler of the button "Voltar". *)
Definition goBack (st : State) : State :=
  {| currentQuestion := currentQuestion st - 1;
     answers := removelast (answers st);
     isComplete := isComplete st;
     result := result st;
     isGeneratingImage := isGeneratingImage st;
     images := images st;
     pending := pending st |}.

Definition resetQuiz (st : State) : State :=
  {| currentQuestion := 0;
     answers := [];
     isComplete := false;
     result := None;
     isGeneratingImage := isGeneratingImage st;
     images := images st;
     pending := pending st |}.

(** [isComplete && result]: the result card is shown, not the question. *)
Definition shows_result (st : State) : bool :=
  isComplete st && match result st with Some _ => true | None => false end.

(** What happens to the component: a click, or an image request settling. *)
Inductive Event :=
| Answer (value : string)
| Back
| Reset
| Image (key : string) (imageUrl : option string)
| ImageFails (key : string).

(** The option buttons of the current question. *)
Definition offered (st : State) : list string :=
  match nth_error Quiz.quizQuestions (currentQuestion st) with
  | Some question => map Quiz.value (Quiz.options question)
  | None => []
  end.

(** One event; [None] when the control is not rendered, or no request for
    that object is outstanding. *)
Definition click (withGenerator : bool) (ev : Event) (st : State)
  : option State :=
  match ev with
  | Answer value =>
      if negb (shows_result st) && existsb (String.eqb value) (offered st)
      then Some (handleAnswer withGenerator value st) else None
  | Back =>
      if negb (shows_result st) && (0 <? currentQuestion st)%nat
      then Some (goBack st) else None
  | Reset =>
      if shows_result st then Some (resetQuiz st) else None
  | Image key imageUrl =>
      if existsb (String.eqb key) (pending st)
      then Some (imageSettles key imageUrl st) else None
  | ImageFails key =>
      if existsb (String.eqb key) (pending st)
      then Some (imageRejects key st) else None
  end.

(** A sequence of events, from a state. *)
Fixpoint clicks (withGenerator : bool) (evs : list Event) (st : State)
  : option State :=
  match evs with
  | [] => Some st
  | ev :: rest =>
      match click withGenerator ev st with
      | Some st' => clicks withGenerator rest st'
      | None => None
      end
  end.

End QuizFlow.

(* ================================================================== *)
(** * page.tsx *)

Module Page.

(** Exactly [n] digits at the head of [s]; what follows them. *)
Fixpoint digits_then (n : nat) (s : string) : option string :=
  match n with
  | O => Some s
  | S n' =>
      match s with
      | String c rest =>
          if JsString.is_digit c then digits_then n' rest else None
      | EmptyString => None
      end
  end.

(** An optional hyphen at the head of [s]. *)
Definition skip_hyphen (s : string) : string :=
  match s with
  | String "-"%char rest => rest
  | _ => s
  end.

(** [/^\d{5}-?\d{3}$/.test(s)] *)
Definition isCEP (s : string) : bool :=
  match digits_then 5 s with
  | Some rest =>
      match digits_then 3 (skip_hyphen rest) with
      | Some EmptyString => true
      | _ => false
      end
  | None => false
  end.

(** [/^\d{5}-?\d{0,3}$/.test(s)] *)
Definition isCEP_prefix (s : string) : bool :=
  match digits_then 5 s with
  | Some rest =>
      let tail := skip_hyphen rest in
      JsString.forallb JsString.is_digit tail && (String.length tail <=? 3)%nat
  | None => false
  end.

(** [selectedCategory === "all" ? searchResults : searchResults.filter(...)] *)
Definition filteredStores (selectedCategory : string)
           (searchResults : list Places.StoreWithProducts)
  : list Places.StoreWithProducts :=
  if String.eqb selectedCategory "all" then searchResults
  else filter (fun store => String.eqb (Places.s_type store) selectedCategory)
              searchResults.

(** [Math.min(...xs)] for at least one argument. *)
Definition Math_min (x : Q) (xs : list Q) : Q :=
  fold_left (fun m y => if Qle_bool m y then m else y) xs x.

Definition findBestPrice (searchResults : list Places.StoreWithProducts)
           (productName : string) : option Q :=
  let allProducts := flat_map Places.products searchResults in
  let sameProducts :=
    filter (fun p => String.eqb (Places.p_name p) productName) allProducts in
  match map Places.price sameProducts with
  | [] => None
  | x :: xs => Some (Math_min x xs)
  end.

(** [product.isReal], as a condition. *)
Definition is_real (product : Places.Product) : bool :=
  match Places.isReal product with
  | Some b => b
  | None => false
  end.

Definition hasRealPrices (searchResults : list Places.StoreWithProducts)
  : bool :=
  existsb (fun store => existsb is_real (Places.products store)) searchResults.

End Page.

(* ================================================================== *)
(** * Example oracles and spec-side predicates *)

(** A postal code is malformed, in the words of the specification, when its
    length is wrong or it is not numeric. *)
Definition malformed (cep : string) : Prop :=
  String.length cep <> 8%nat \/ JsString.forallb JsString.is_digit cep = false.

(** A postal lookup that knows one code, and a geocoder with one hit. *)
Definition viacep_example (cleanCEP : string)
  : Geolocation.Fetched Geolocation.ViaCepData :=
  if String.eqb cleanCEP "01310100"
  then Geolocation.Body
         {| Geolocation.erro := false;
            Geolocation.vc_cep := "01310-100";
            Geolocation.logradouro := "Avenida Paulista";
            Geolocation.localidade := "São Paulo";
            Geolocation.uf := "SP";
            Geolocation.bairro := "Bela Vista" |}
  else Geolocation.Body
         {| Geolocation.erro := true;
            Geolocation.vc_cep := "";
            Geolocation.logradouro := "";
            Geolocation.localidade := "";
            Geolocation.uf := "";
            Geolocation.bairro := "" |}.

Definition nominatim_example (address : string)
  : Geolocation.Fetched (list Geolocation.NominatimHit) :=
  Geolocation.Body
    [ {| Geolocation.hit_lat := - (235614 # 10000);
         Geolocation.hit_lon := - (466559 # 10000) |} ].

(** Every tag of the supported lists, in table order. *)
Definition supported_tags : list string :=
  flat_map snd Places.CATEGORY_TAGS.

(** The category the specification assigns to a tag: the first one, in
    table order, whose tag list holds it. *)
Definition category_of_tag (tag : string) : option string :=
  option_map fst
    (find (fun entry => existsb (String.eqb tag) (snd entry))
          Places.CATEGORY_TAGS).

(** A tags object with the given [shop] and [amenity] values and a name. *)
Definition tags_of (shop amenity : option string) : Places.Tags :=
  fun key =>
    if String.eqb key "shop" then shop
    else if String.eqb key "amenity" then amenity
    else if String.eqb key "name" then Some "Ponto"
    else None.

(** A tag list matches when it holds the [shop] or the [amenity] value. *)
Definition matches (shop amenity : option string) (entry : string * list string)
  : bool :=
  Places.includes (snd entry) shop || Places.includes (snd entry) amenity.

(** A tags object that only has a [shop] key. *)
Definition tags_shop_only (shop : string) : Places.Tags :=
  fun key => if String.eqb key "shop" then Some shop else None.

(** Non-decreasing distance, as a relation on places and as a check on
    the list of distances. *)
Definition by_distance (a b : Places.Place) : Prop :=
  Places.distance a <= Places.distance b.

Fixpoint non_decreasing (ds : list Q) : bool :=
  match ds with
  | [] => true
  | x :: rest =>
      match rest with
      | [] => true
      | y :: _ => Qle_bool x y && non_decreasing rest
      end
  end.

(** The centre of São Paulo, and supplies of draws that are constant. *)
Definition sao_paulo : Geolocation.Coordinates :=
  {| Geolocation.lat := - (235505 # 10000);
     Geolocation.lng := - (466333 # 10000) |}.

Definition draws_zero : Places.Draws := fun _ => 0.
Definition draws_half : Places.Draws := fun _ => 1 # 2.

(** The comparator of the search: [(a, b) => a.distance - b.distance]. *)
Definition distance_order (a b : Places.Place) : Q :=
  Places.distance a - Places.distance b.

(** [round(x, 2)] of the specification: [x] rounded to two decimals. *)
Definition round2 (x : Q) : Q :=
  inject_Z (Places.Math_round (x * 100)) / 100.

(** The fields of a mock place that do not hold coordinates. *)
Definition mock_fixed (p : Places.Place)
  : string * string * string * string * Q * string :=
  (Places.id p, Places.name p, Places.type p, Places.category p,
   Places.distance p, Places.address p).

(** A [Number.prototype.toString] for numbers from 0 to 9.9 with one
    decimal, which is what the distances of the examples are. *)
Definition toString_one_decimal (q : Q) : string :=
  let tenths := Z.to_nat (Qfloor (q * 10)) in
  let whole := JsString.of_nat (tenths / 10) in
  if (tenths mod 10 =? 0)%nat then whole
  else whole ++ "." ++ JsString.of_nat (tenths mod 10).

Definition cafe_aroma : Places.Place :=
  {| Places.id := "mock-4";
     Places.name := "Café Aroma";
     Places.type := "Cafeteria";
     Places.category := "Cafeteria";
     Places.distance := 3 # 10;
     Places.address := "Rua Exemplo, 300";
     Places.coordinates := sao_paulo |}.

(** What [generateRealisticProducts] copies from the place into a product. *)
Definition from_place (Number_toString : Q -> string) (place : Places.Place)
           (product : Places.Product) : Prop :=
  Places.store product = Places.name place
  /\ Places.p_category product = Places.type place
  /\ Places.p_distance product
     = Number_toString (Places.distance place) ++ " km"
  /\ Places.isReal product = Some false
  /\ Places.source product = None
  /\ Places.lastUpdated product = None
  /\ Places.confidence product = None.

(** How a product is priced from the entry of the table it stems from. *)
Definition priced_from (entry : Places.TableEntry) (product : Places.Product)
  : Prop :=
  Places.p_name product = Places.t_name entry
  /\ exists r : Q,
       85 # 100 <= r /\ r <= 125 # 100
       /\ Places.price product = round2 (Places.basePrice entry * r).

(** A price lookup that finds two prices for the first place of the input
    and nothing for the others. *)
Definition ai_example (position : nat) (name type city : string)
  : Places.AiResult :=
  match position with
  | O =>
      Places.AiData
        {| Places.storeName := name;
           Places.storeType := type;
           Places.rp_address := "";
           Places.rp_socialMedia :=
             {| Places.instagram := Some "@loja"; Places.facebook := None;
                Places.website := None |};
           Places.prices :=
             [ {| Places.productName := "Café Expresso";
                  Places.rp_price := 650 # 100;
                  Places.rp_source := "Instagram";
                  Places.rp_lastUpdated := "2024-05-01";
                  Places.rp_confidence := Places.high |};
               {| Places.productName := "Pão de Queijo";
                  Places.rp_price := 500 # 100;
                  Places.rp_source := "Site";
                  Places.rp_lastUpdated := "2024-05-02";
                  Places.rp_confidence := Places.medium |} ];
           Places.lastScraped := "2024-05-03T00:00:00.000Z" |}
  | S O => Places.AiRejects
  | _ => Places.AiNull
  end.

(** A stored user list with one account. *)
Definition store_ana : Auth.LocalStorage :=
  {| Auth.precofacil_auth := None;
     Auth.precofacil_users :=
       Some [ {| Auth.su_email := "ana@mail.com";
                 Auth.su_password := "segredo1";
                 Auth.su_name := "Ana" |} ] |}.

Definition store_empty : Auth.LocalStorage :=
  {| Auth.precofacil_auth := None; Auth.precofacil_users := None |}.

(** No stored account has this email together with this password. *)
Definition wrong_password (email password : string) (ls : Auth.LocalStorage)
  : Prop :=
  forall u, In u (Auth.getStoredUsers ls) ->
            Auth.su_email u = email -> Auth.su_password u <> password.

Definition email_stored (email : string) (ls : Auth.LocalStorage) : Prop :=
  In email (map Auth.su_email (Auth.getStoredUsers ls)).

Definition duplicate_email_error : Auth.RegisterResult :=
  {| Auth.success := false; Auth.error := Some "Email já cadastrado" |}.

(** The type of the quiz result, when there is one. *)
Definition result_type (userAnswers : list string) : option string :=
  option_map Quiz.type (Quiz.determineResult userAnswers).

Definition draws_eighth : Places.Draws := fun _ => 1 # 8.

(** The mock places around São Paulo, with products attached. *)
Definition stores_example : list Places.StoreWithProducts :=
  Places.addRealProductsToPlaces toString_one_decimal
    Places.insertion_engine_sort ai_example (fun _ => draws_eighth)
    (fst (Places.getMockPlaces sao_paulo draws_half)) "São Paulo".

(** A node tagged as a restaurant. *)
Definition element_example : Places.Element :=
  {| Places.el_id := 42;
     Places.el_lat := - (2355 # 100);
     Places.el_lon := - (4663 # 100);
     Places.el_tags := Some (tags_of None (Some "restaurant")) |}.

(** The first mock product of Café Aroma when every draw is 0.125. *)
Definition product_example : Places.Product :=
  {| Places.p_id := "mock-4-0";
     Places.p_name := "Café Expresso";
     Places.price := 675 # 100;
     Places.store := "Café Aroma";
     Places.p_distance := "0.3 km";
     Places.p_category := "Cafeteria";
     Places.source := None;
     Places.lastUpdated := None;
     Places.confidence := None;
     Places.isReal := Some false |}.

(** The argument of the arc tangent in the haversine formula. *)
Definition haversine_a (coord1 coord2 : Geolocation.Coordinates) : R :=
  (let dLat := Geolocation.toRad (Q2R (Geolocation.lat coord2)
                                  - Q2R (Geolocation.lat coord1)) in
   let dLng := Geolocation.toRad (Q2R (Geolocation.lng coord2)
                                  - Q2R (Geolocation.lng coord1)) in
   sin (dLat / 2) * sin (dLat / 2) +
   cos (Geolocation.toRad (Q2R (Geolocation.lat coord1))) *
     cos (Geolocation.toRad (Q2R (Geolocation.lat coord2))) *
     sin (dLng / 2) *
     sin (dLng / 2))%R.

(** A latitude between the poles. *)
Definition valid_latitude (c : Geolocation.Coordinates) : Prop :=
  - (90) <= Geolocation.lat c /\ Geolocation.lat c <= 90.

(** The address the postal lookup is geocoded with. *)
Definition geocoded_address (data : Geolocation.ViaCepData) : string :=
  Geolocation.logradouro data ++ ", " ++ Geolocation.localidade data ++ ", "
    ++ Geolocation.uf data ++ ", Brasil".

(** The coordinates the geocoder gives for an address, or the fallback. *)
Definition geocoded_or_fallback
           (nominatim : string -> Geolocation.Fetched (list Geolocation.NominatimHit))
           (address : string) : Geolocation.Coordinates :=
  match nominatim address with
  | Geolocation.Body (h :: _) =>
      {| Geolocation.lat := Geolocation.hit_lat h;
         Geolocation.lng := Geolocation.hit_lon h |}
  | _ => Geolocation.fallback_coordinates
  end.

(** The places of all the named elements of a reply, before they are
    sorted and cut. *)
Definition named_places (coordinates : Geolocation.Coordinates)
           (elements : list Places.Element) : list Places.Place :=
  map (Places.place_of_element coordinates)
      (filter (fun element =>
                 match Places.element_name element with
                 | Some _ => true | None => false end)
              elements).

(** The categories a place can carry. *)
Definition place_categories : list string :=
  ["Mercado"; "Farmácia"; "Lanchonete"; "Cafeteria"; "Padaria";
   "Restaurante"; "Outros"].

(** Within a hundredth of a degree of a point, in latitude and longitude. *)
Definition near (c p : Geolocation.Coordinates) : Prop :=
  Geolocation.lat c - (1 # 100) <= Geolocation.lat p
  /\ Geolocation.lat p <= Geolocation.lat c + (1 # 100)
  /\ Geolocation.lng c - (1 # 100) <= Geolocation.lng p
  /\ Geolocation.lng p <= Geolocation.lng c + (1 # 100).

(** A tags object with a street and a city only. *)
Definition tags_address : Places.Tags :=
  fun key =>
    if String.eqb key "addr:street" then Some "Rua Augusta"
    else if String.eqb key "addr:city" then Some "São Paulo"
    else None.

(** [xs.map((x, index) => h x index)] for a callback that does not draw. *)
Fixpoint map_with_index {A B} (h : A -> nat -> B) (index : nat) (xs : list A)
  : list B :=
  match xs with
  | [] => []
  | x :: rest => h x index :: map_with_index h (S index) rest
  end.

(** No string occurs twice. *)
Fixpoint distinctb (l : list string) : bool :=
  match l with
  | [] => true
  | x :: rest => negb (existsb (String.eqb x) rest) && distinctb rest
  end.

(** What a store with mock products looks like. *)
Definition mock_store (s : Places.StoreWithProducts) : Prop :=
  (3 <= List.length (Places.products s) <= 5)%nat
  /\ Places.socialMedia s = None
  /\ Forall (fun p => Places.isReal p = Some false) (Places.products s).

(** What a store with real prices looks like. *)
Definition real_store (s : Places.StoreWithProducts) : Prop :=
  Places.products s <> []
  /\ Places.socialMedia s <> None
  /\ Forall (fun p => Places.isReal p = Some true) (Places.products s).

(** Some price lookup of a search found at least one price. *)
Definition lookup_found
           (fetchRealPricesWithAI : nat -> string -> string -> string
                                    -> Places.AiResult)
           (places : list Places.Place) (city : string) : Prop :=
  exists position place data,
    nth_error places position = Some place
    /\ fetchRealPricesWithAI position (Places.name place) (Places.type place)
                             city = Places.AiData data
    /\ Places.prices data <> [].

(** The shape of the store of a place, by what its price lookup gave. *)
Definition store_shape (lookup : Places.AiResult)
           (store : Places.StoreWithProducts) : Prop :=
  match lookup with
  | Places.AiData data =>
      match Places.prices data with
      | [] => mock_store store
      | _ :: _ =>
          real_store store
          /\ List.length (Places.products store)
             = List.length (Places.prices data)
          /\ Places.socialMedia store = Some (Places.rp_socialMedia data)
      end
  | _ => mock_store store
  end.

(** All the products of a list of stores. *)
Definition all_products (stores : list Places.StoreWithProducts)
  : list Places.Product :=
  flat_map Places.products stores.

(** A price of confidence high or medium. *)
Definition trusted (price : Places.RealPriceData) : Prop :=
  Places.rp_confidence price = Places.high
  \/ Places.rp_confidence price = Places.medium.

(** A model answer for one store: three prices, one of low confidence. *)
Definition completion_example (storeName storeType city : string)
  : AiPriceScraper.Completion Places.StoreWithRealPrices :=
  AiPriceScraper.Parsed
    {| Places.storeName := storeName;
       Places.storeType := storeType;
       Places.rp_address := "";
       Places.rp_socialMedia :=
         {| Places.instagram := None; Places.facebook := None;
            Places.website := Some "https://loja.example" |};
       Places.prices :=
         [ {| Places.productName := "Café Expresso";
              Places.rp_price := 650 # 100;
              Places.rp_source := "Instagram";
              Places.rp_lastUpdated := "2024-05-01";
              Places.rp_confidence := Places.high |};
           {| Places.productName := "Brownie";
              Places.rp_price := 900 # 100;
              Places.rp_source := "Facebook";
              Places.rp_lastUpdated := "2024-04-01";
              Places.rp_confidence := Places.low |};
           {| Places.productName := "Pão de Queijo";
              Places.rp_price := 500 # 100;
              Places.rp_source := "Site";
              Places.rp_lastUpdated := "2024-05-02";
              Places.rp_confidence := Places.medium |} ];
       Places.lastScraped := "" |}.

Definition product_completion_example (productName : string)
           (storeNames : list string) (city : string)
  : AiPriceScraper.Completion (list Places.RealPriceData) :=
  AiPriceScraper.NoContent.

(** The categories the places of the commercial API can carry. *)
Definition google_categories : list string :=
  ["Mercado"; "Farmácia"; "Restaurante"; "Cafeteria"; "Padaria";
   "Lanchonete"; "Loja"].

(** The types that survive the way to the commercial API and back. *)
Definition round_trip_types : list string :=
  ["Mercado"; "Farmácia"; "Cafeteria"; "Padaria"; "Restaurante"; "Loja"].

(** A Nearby Search answer with two places, and a raw place. *)
Definition raw_place_example (placeId name firstType : string)
  : GooglePlaces.RawPlace :=
  {| GooglePlaces.place_id := placeId;
     GooglePlaces.raw_name := name;
     GooglePlaces.vicinity := Some "Rua Augusta, 100";
     GooglePlaces.formatted_address := None;
     GooglePlaces.formatted_phone_number := None;
     GooglePlaces.raw_website := None;
     GooglePlaces.types := Some [firstType; "point_of_interest"];
     GooglePlaces.raw_rating := Some (45 # 10);
     GooglePlaces.user_ratings_total := Some 120;
     GooglePlaces.open_now := Some true;
     GooglePlaces.price_level := None;
     GooglePlaces.raw_photos := Some ["ref1"];
     GooglePlaces.geometry_location := sao_paulo |}.

Definition nearby_example (request : GooglePlaces.Request)
  : GooglePlaces.Reply GooglePlaces.NearbyBody :=
  GooglePlaces.Json
    {| GooglePlaces.status := "OK";
       GooglePlaces.results :=
         Some [ raw_place_example "p1" "Padaria Real" "bakery";
                raw_place_example "p2" "Bar do Zé" "bar" ] |}.

(** A normalisation that only folds the case of the ASCII letters, and a
    municipality list of three. *)
Definition lower_ascii (c : ascii) : ascii :=
  let n := nat_of_ascii c in
  if (65 <=? n)%nat && (n <=? 90)%nat then ascii_of_nat (n + 32) else c.

Fixpoint normalize_example (s : string) : string :=
  match s with
  | EmptyString => EmptyString
  | String c rest => String (lower_ascii c) (normalize_example rest)
  end.

Definition municipios_example
  : Geolocation.Fetched (list CityAutocomplete.IBGECity) :=
  Geolocation.Body
    [ {| CityAutocomplete.ibge_id := 3509502;
         CityAutocomplete.nome := "Campinas";
         CityAutocomplete.sigla := Some "SP" |};
      {| CityAutocomplete.ibge_id := 3550308;
         CityAutocomplete.nome := "Santos";
         CityAutocomplete.sigla := Some "SP" |};
      {| CityAutocomplete.ibge_id := 5002704;
         CityAutocomplete.nome := "Campo Grande";
         CityAutocomplete.sigla := None |} ].

(** The result types of the quiz. *)
Definition quiz_types : list string :=
  ["Mercado"; "Farmácia"; "Lanchonete"; "Cafeteria"; "Padaria"; "Restaurante"].

(** The states of the quiz a sequence of events can lead to. *)
Definition reachable (withGenerator : bool) (st : QuizFlow.State) : Prop :=
  exists evs, QuizFlow.clicks withGenerator evs QuizFlow.initial = Some st.

(** The answers given so far are option values of the questions passed. *)
Definition answers_so_far (st : QuizFlow.State) : Prop :=
  Forall2 (fun q a => In a (map Quiz.value (Quiz.options q)))
          (firstn (QuizFlow.currentQuestion st) Quiz.quizQuestions)
          (QuizFlow.answers st).

(** A result the state may hold. *)
Definition result_ok (ref : QuizFlow.ResultRef) : Prop :=
  match ref with
  | QuizFlow.Shared key => In key quiz_types
  | QuizFlow.Fresh copy => In (Quiz.type copy) quiz_types
  end.

(** What holds of every state of the quiz. *)
Definition quiz_invariant (withGenerator : bool) (st : QuizFlow.State) : Prop :=
  (QuizFlow.currentQuestion st < 3)%nat
  /\ (QuizFlow.isComplete st = false -> answers_so_far st)
  /\ (QuizFlow.isComplete st = true ->
      QuizFlow.currentQuestion st = 2%nat
      /\ Quiz.quiz_answers (QuizFlow.answers st)
      /\ QuizFlow.result st <> None)
  /\ (forall ref, QuizFlow.result st = Some ref -> result_ok ref)
  /\ Forall (fun key => In key quiz_types) (QuizFlow.pending st)
  /\ (withGenerator = false ->
      QuizFlow.pending st = []
      /\ QuizFlow.result st
         = if QuizFlow.isComplete st
           then option_map QuizFlow.Shared
                  (QuizFlow.determined_key (QuizFlow.answers st))
           else None).

(* ================================================================== *)
(** * geolocation.ts: the postal-code check *)

Section PostalCode.

Import Geolocation.

Variable viacep : string -> Fetched ViaCepData.
Variable nominatim : string -> Fetched (list NominatimHit).

Lemma strip_non_digits_digits (s : string) :
  JsString.forallb JsString.is_digit (JsString.strip_non_digits s) = true.
Proof.
  unfold JsString.strip_non_digits.
  induction s as [|c s IH]; simpl; [reflexivity|].
  destruct (JsString.is_digit c) eqn:E; simpl; [rewrite E|]; exact IH.
Qed.

Lemma strip_non_digits_fixes (s : string) :
  JsString.forallb JsString.is_digit s = true ->
  JsString.strip_non_digits s = s.
Proof.
  unfold JsString.strip_non_digits.
  induction s as [|c s IH]; simpl; [reflexivity|].
  intros H. apply andb_prop in H. destruct H as [Hc Hs].
  rewrite Hc, (IH Hs). reflexivity.
Qed.

Lemma getCoordinatesFromAddress_trace (address : string) :
  trace (getCoordinatesFromAddress nominatim address) = [Nominatim address].
Proof.
  unfold getCoordinatesFromAddress, fetch_json.
  destruct (nominatim address) as [| |[|h t]]; reflexivity.
Qed.

Lemma getCoordinatesFromAddress_returns (address : string) :
  exists r, getCoordinatesFromAddress nominatim address
            = ([Nominatim address], Return r).
Proof.
  unfold getCoordinatesFromAddress, fetch_json.
  destruct (nominatim address) as [| |[|h t]]; eexists; reflexivity.
Qed.

(** What the function does when fewer or more than 8 digits remain. *)
Lemma getAddressFromCEP_rejects (cep : string) :
  String.length (JsString.strip_non_digits cep) <> 8%nat ->
  getAddressFromCEP viacep nominatim cep = ([], Return None).
Proof.
  intros H. unfold getAddressFromCEP.
  apply Nat.eqb_neq in H. rewrite H. reflexivity.
Qed.

(** What the function does when exactly 8 digits remain. *)
Lemma getAddressFromCEP_looks_up (cep : string) :
  String.length (JsString.strip_non_digits cep) = 8%nat ->
  exists rest,
    trace (getAddressFromCEP viacep nominatim cep)
    = ViaCEP (JsString.strip_non_digits cep) :: rest
    /\ forall code, In (ViaCEP code) rest -> False.
Proof.
  intros H. unfold getAddressFromCEP.
  apply Nat.eqb_eq in H. rewrite H. cbn [negb].
  unfold fetch_json.
  destruct (viacep (JsString.strip_non_digits cep)) as [| |data].
  - exists []. split; [reflexivity|]. intros code [].
  - exists []. split; [reflexivity|]. intros code [].
  - unfold bind at 1. cbn [ret app]. unfold bind at 1. cbn [app].
    destruct (erro data) eqn:E.
    + exists []. split; [reflexivity|]. intros code [].
    + destruct (getCoordinatesFromAddress_returns
                  (logradouro data ++ ", " ++ localidade data ++ ", "
                     ++ uf data ++ ", Brasil")) as [r Hr].
      exists [Nominatim (logradouro data ++ ", " ++ localidade data ++ ", "
                           ++ uf data ++ ", Brasil")].
      unfold bind at 1. cbn [ret app]. unfold bind. rewrite Hr.
      split; [reflexivity|].
      intros code [Hc|[]]. discriminate Hc.
Qed.

End PostalCode.

(** C3, as stated, fails: the code 01310-100 has 9 characters, one of them
    not a digit, and yet the postal lookup is called and an address comes
    back. *)
Lemma getAddressFromCEP_accepts_formatted_code :
  malformed "01310-100"
  /\ Geolocation.trace
       (Geolocation.getAddressFromCEP viacep_example nominatim_example "01310-100")
     = [ Geolocation.ViaCEP "01310100";
         Geolocation.Nominatim "Avenida Paulista, São Paulo, SP, Brasil" ]
  /\ exists info,
       snd (Geolocation.getAddressFromCEP viacep_example nominatim_example
              "01310-100")
       = Geolocation.Return (Some info).
Proof.
  split; [left; cbn; lia|].
  split; [reflexivity|].
  eexists. reflexivity.
Qed.

(** C3, amended: [getAddressFromCEP] first deletes every character that is
    not a digit.  It returns null without any network call exactly when the
    digits that remain are not 8 in number; otherwise its first request is
    the postal lookup of those 8 digits, and no other code is ever looked
    up.  A code that is already 8 digits is looked up unchanged. *)
Theorem getAddressFromCEP_eight_digits
        (viacep : string -> Geolocation.Fetched Geolocation.ViaCepData)
        (nominatim : string -> Geolocation.Fetched (list Geolocation.NominatimHit))
        (cep : string) :
  let cleanCEP := JsString.strip_non_digits cep in
  let run := Geolocation.getAddressFromCEP viacep nominatim cep in
  JsString.forallb JsString.is_digit cleanCEP = true
  /\ (String.length cleanCEP <> 8%nat ->
      run = ([], Geolocation.Return None))
  /\ (String.length cleanCEP = 8%nat ->
      exists rest, Geolocation.trace run = Geolocation.ViaCEP cleanCEP :: rest)
  /\ (forall code, In (Geolocation.ViaCEP code) (Geolocation.trace run) ->
      code = cleanCEP /\ String.length code = 8%nat)
  /\ (JsString.forallb JsString.is_digit cep = true -> cleanCEP = cep).
Proof.
  intros cleanCEP run.
  split; [apply strip_non_digits_digits|].
  split; [apply getAddressFromCEP_rejects|].
  split.
  { intros H. destruct (getAddressFromCEP_looks_up viacep nominatim cep H)
      as [rest [Ht _]]. exists rest. exact Ht. }
  split; [|apply strip_non_digits_fixes].
  intros code Hin.
  destruct (Nat.eq_dec (String.length cleanCEP) 8) as [H8|H8].
  - destruct (getAddressFromCEP_looks_up viacep nominatim cep H8)
      as [rest [Ht Hrest]].
    unfold run in Hin. rewrite Ht in Hin. destruct Hin as [Heq|Hin].
    + injection Heq as <-. split; [reflexivity|exact H8].
    + destruct (Hrest code Hin).
  - unfold run in Hin.
    rewrite (getAddressFromCEP_rejects viacep nominatim cep H8) in Hin.
    destruct Hin.
Qed.

Lemma getAddressFromCEP_eight_digits_witness :
  Geolocation.getAddressFromCEP viacep_example nominatim_example "1310-100"
  = ([], Geolocation.Return None)
  /\ exists rest,
       Geolocation.trace
         (Geolocation.getAddressFromCEP viacep_example nominatim_example
            "01310-100")
       = Geolocation.ViaCEP "01310100" :: rest.
Proof.
  split.
  - apply (getAddressFromCEP_eight_digits viacep_example nominatim_example
             "1310-100"). vm_compute. lia.
  - apply (getAddressFromCEP_eight_digits viacep_example nominatim_example
             "01310-100"). reflexivity.
Defined.

(* ================================================================== *)
(** * geolocation.ts: the haversine distance *)

Section Haversine.

Import Geolocation.
Local Open Scope R_scope.

(** The squared sine of half an angle difference does not see the order of
    the two angles. *)
Lemma sin_half_sq_swap (x y : R) :
  sin (toRad (x - y) / 2) * sin (toRad (x - y) / 2)
  = sin (toRad (y - x) / 2) * sin (toRad (y - x) / 2).
Proof.
  replace (toRad (x - y) / 2) with (- (toRad (y - x) / 2))
    by (unfold toRad; field).
  rewrite sin_neg. ring.
Qed.

Lemma haversine_sym (A B : Coordinates) : haversine A B = haversine B A.
Proof.
  unfold haversine. cbv zeta.
  rewrite (sin_half_sq_swap (Q2R (lat B)) (Q2R (lat A))).
  replace (cos (toRad (Q2R (lat A))) * cos (toRad (Q2R (lat B))) *
             sin (toRad (Q2R (lng B) - Q2R (lng A)) / 2) *
             sin (toRad (Q2R (lng B) - Q2R (lng A)) / 2))
    with (cos (toRad (Q2R (lat B))) * cos (toRad (Q2R (lat A))) *
            (sin (toRad (Q2R (lng B) - Q2R (lng A)) / 2) *
             sin (toRad (Q2R (lng B) - Q2R (lng A)) / 2))) by ring.
  rewrite (sin_half_sq_swap (Q2R (lng B)) (Q2R (lng A))).
  replace (cos (toRad (Q2R (lat B))) * cos (toRad (Q2R (lat A))) *
             sin (toRad (Q2R (lng A) - Q2R (lng B)) / 2) *
             sin (toRad (Q2R (lng A) - Q2R (lng B)) / 2))
    with (cos (toRad (Q2R (lat B))) * cos (toRad (Q2R (lat A))) *
            (sin (toRad (Q2R (lng A) - Q2R (lng B)) / 2) *
             sin (toRad (Q2R (lng A) - Q2R (lng B)) / 2))) by ring.
  reflexivity.
Qed.

Lemma Math_atan2_0_1 : Math_atan2 0 1 = 0.
Proof.
  unfold Math_atan2.
  destruct (Rlt_dec 0 1) as [_|H]; [|exfalso; apply H; lra].
  replace (0 / 1) with 0 by field. apply atan_0.
Qed.

Lemma haversine_self (A : Coordinates) : haversine A A = 0.
Proof.
  unfold haversine. cbv zeta.
  assert (Hz : forall x : R, toRad (x - x) / 2 = 0)
    by (intros x; unfold toRad; field).
  rewrite !Hz, sin_0.
  replace (0 * 0 +
           cos (toRad (Q2R (lat A))) * cos (toRad (Q2R (lat A))) * 0 * 0)
    with 0 by ring.
  replace (1 - 0) with 1 by ring.
  rewrite sqrt_0, sqrt_1, Math_atan2_0_1. ring.
Qed.

Lemma Math_round_0 : Math_round 0 = 0%Z.
Proof.
  unfold Math_round. symmetry. apply Int_part_spec. simpl. lra.
Qed.

End Haversine.


(* ================================================================== *)
(** * places.ts: the category mapping *)

Section Category.

Import Places.

(** The loop returns the category of the first entry that matches, and
    "Outros" when none does. *)
Lemma first_category_spec (entries : list (string * list string))
      (shop amenity : option string) :
  (exists pre category tagList post,
      entries = (pre ++ (category, tagList) :: post)%list
      /\ forallb (fun e => negb (matches shop amenity e)) pre = true
      /\ matches shop amenity (category, tagList) = true
      /\ first_category entries shop amenity = category)
  \/ (forallb (fun e => negb (matches shop amenity e)) entries = true
      /\ first_category entries shop amenity = "Outros").
Proof.
  induction entries as [|[category tagList] rest IH].
  - right. split; reflexivity.
  - simpl. destruct (includes tagList shop || includes tagList amenity) eqn:E.
    + left. exists [], category, tagList, rest.
      repeat split. exact E.
    + destruct IH as [(pre & c & l & post & Heq & Hpre & Hm & Hr)|[Hall Hr]].
      * left. exists ((category, tagList) :: pre), c, l, post.
        subst rest. repeat split; try assumption.
        simpl. unfold matches at 1. simpl. rewrite E. exact Hpre.
      * right. split; [|exact Hr].
        unfold matches at 1. simpl. rewrite E. exact Hall.
Qed.

Lemma includes_app (l1 l2 : list string) (v : option string) :
  includes (l1 ++ l2) v = includes l1 v || includes l2 v.
Proof.
  destruct v as [s|]; simpl; [apply existsb_app|reflexivity].
Qed.

(** A value outside every tag list matches no entry. *)
Lemma first_category_unrecognized (entries : list (string * list string))
      (shop amenity : option string) :
  includes (flat_map snd entries) shop = false ->
  includes (flat_map snd entries) amenity = false ->
  first_category entries shop amenity = "Outros".
Proof.
  induction entries as [|[category tagList] rest IH]; intros Hs Ha.
  - reflexivity.
  - simpl in Hs, Ha. rewrite includes_app in Hs, Ha.
    apply orb_false_iff in Hs. apply orb_false_iff in Ha.
    destruct Hs as [Hs1 Hs2]. destruct Ha as [Ha1 Ha2].
    simpl. rewrite Hs1, Ha1. simpl. apply IH; assumption.
Qed.

Lemma supported_tags_cases (tag : string) :
  In tag supported_tags ->
  tag = "supermarket" \/ tag = "convenience" \/ tag = "grocery"
  \/ tag = "pharmacy" \/ tag = "chemist" \/ tag = "fast_food"
  \/ tag = "restaurant" \/ tag = "cafe" \/ tag = "coffee_shop"
  \/ tag = "bakery".
Proof.
  unfold supported_tags. simpl. intuition auto.
Qed.

Lemma includes_restaurant (v : option string) :
  includes ["restaurant"] v = true ->
  includes ["fast_food"; "restaurant"] v = true.
Proof.
  destruct v as [s|]; simpl; [|discriminate].
  rewrite orb_false_r. intros ->. apply orb_true_r.
Qed.

Lemma first_category_not_Restaurante (shop amenity : option string) :
  first_category CATEGORY_TAGS shop amenity <> "Restaurante".
Proof.
  unfold CATEGORY_TAGS. cbn [first_category].
  destruct (includes ["supermarket"; "convenience"; "grocery"] shop
            || includes ["supermarket"; "convenience"; "grocery"] amenity);
    [discriminate|].
  destruct (includes ["pharmacy"; "chemist"] shop
            || includes ["pharmacy"; "chemist"] amenity); [discriminate|].
  destruct (includes ["fast_food"; "restaurant"] shop
            || includes ["fast_food"; "restaurant"] amenity) eqn:L;
    [discriminate|].
  destruct (includes ["cafe"; "coffee_shop"] shop
            || includes ["cafe"; "coffee_shop"] amenity); [discriminate|].
  destruct (includes ["bakery"] shop || includes ["bakery"] amenity);
    [discriminate|].
  destruct (includes ["restaurant"] shop || includes ["restaurant"] amenity)
    eqn:R; [|discriminate].
  exfalso. apply orb_false_iff in L. destruct L as [L1 L2].
  apply orb_true_iff in R. destruct R as [R|R];
    apply includes_restaurant in R; congruence.
Qed.

End Category.

(** C5: the category is a function of the [shop] and [amenity] values only;
    it is the category of the first table entry, in the order Mercado,
    Farmácia, Lanchonete, Cafeteria, Padaria, Restaurante, whose tag list
    holds one of the two values; a supported tag standing alone is mapped to
    the first category that lists it; values outside every list give
    "Outros". *)
Theorem getCategoryFromTags_first_match :
  map fst Places.CATEGORY_TAGS
  = ["Mercado"; "Farmácia"; "Lanchonete"; "Cafeteria"; "Padaria"; "Restaurante"]
  /\ (forall tags1 tags2 : Places.Tags,
         tags1 "shop" = tags2 "shop" -> tags1 "amenity" = tags2 "amenity" ->
         Places.getCategoryFromTags tags1 = Places.getCategoryFromTags tags2)
  /\ (forall tags : Places.Tags,
         (exists pre category tagList post,
             Places.CATEGORY_TAGS = (pre ++ (category, tagList) :: post)%list
             /\ forallb (fun e => negb (matches (tags "shop") (tags "amenity") e))
                        pre = true
             /\ matches (tags "shop") (tags "amenity") (category, tagList) = true
             /\ Places.getCategoryFromTags tags = category)
         \/ (forallb (fun e => negb (matches (tags "shop") (tags "amenity") e))
                     Places.CATEGORY_TAGS = true
             /\ Places.getCategoryFromTags tags = "Outros"))
  /\ (forall (tags : Places.Tags) (tag : string),
         In tag supported_tags ->
         (tags "shop" = Some tag /\ tags "amenity" = None)
         \/ (tags "shop" = None /\ tags "amenity" = Some tag) ->
         Some (Places.getCategoryFromTags tags) = category_of_tag tag)
  /\ (forall tags : Places.Tags,
         Places.includes supported_tags (tags "shop") = false ->
         Places.includes supported_tags (tags "amenity") = false ->
         Places.getCategoryFromTags tags = "Outros").
Proof.
  split; [reflexivity|].
  split.
  { intros tags1 tags2 Hs Ha. unfold Places.getCategoryFromTags.
    rewrite Hs, Ha. reflexivity. }
  split.
  { intros tags. unfold Places.getCategoryFromTags.
    apply first_category_spec. }
  split.
  { intros tags tag Hin Htags. unfold Places.getCategoryFromTags.
    apply supported_tags_cases in Hin.
    destruct Htags as [[-> ->]|[-> ->]];
      repeat (destruct Hin as [->|Hin]; [reflexivity|]);
      subst tag; reflexivity. }
  intros tags Hs Ha. unfold Places.getCategoryFromTags.
  apply first_category_unrecognized; assumption.
Qed.

Lemma getCategoryFromTags_first_match_witness :
  Places.getCategoryFromTags (tags_of (Some "bakery") None)
  = Places.getCategoryFromTags (tags_shop_only "bakery")
  /\ Some (Places.getCategoryFromTags (tags_of None (Some "restaurant")))
     = category_of_tag "restaurant"
  /\ category_of_tag "restaurant" = Some "Lanchonete"
  /\ Places.getCategoryFromTags (tags_of (Some "florist") None) = "Outros".
Proof.
  split.
  - apply (proj1 (proj2 getCategoryFromTags_first_match)); reflexivity.
  - split.
    + apply (proj1 (proj2 (proj2 (proj2 getCategoryFromTags_first_match)))).
      * vm_compute. tauto.
      * right. split; reflexivity.
    + split; [reflexivity|].
      apply (proj2 (proj2 (proj2 (proj2 getCategoryFromTags_first_match))));
        reflexivity.
Defined.

Example getCategoryFromTags_examples :
  Places.getCategoryFromTags (tags_of (Some "bakery") (Some "cafe")) = "Cafeteria"
  /\ Places.getCategoryFromTags (tags_of (Some "supermarket") (Some "restaurant"))
     = "Mercado"
  /\ Places.getCategoryFromTags (tags_of None None) = "Outros"
  /\ Places.formatAddress (tags_of None None) = "Endereço não disponível".
Proof.
  repeat split.
Qed.

(* ================================================================== *)
(** * places.ts: the search *)

Section Search.

Import Places.

Lemma insert_perm {A} (f : A -> A -> Q) (x : A) (l : list A) :
  Permutation (insert f x l) (x :: l).
Proof.
  induction l as [|y l IH]; simpl.
  - apply Permutation_refl.
  - destruct (Qle_bool (f x y) 0).
    + apply Permutation_refl.
    + apply perm_trans with (y :: x :: l).
      * apply perm_skip. exact IH.
      * apply perm_swap.
Qed.

Lemma Array_sort_perm {A} (f : A -> A -> Q) (l : list A) :
  Permutation (Array_sort f l) l.
Proof.
  induction l as [|x l IH]; simpl.
  - apply perm_nil.
  - apply perm_trans with (x :: Array_sort f l).
    + apply insert_perm.
    + apply perm_skip. exact IH.
Qed.

Lemma distance_order_le (a b : Place) :
  Qle_bool (distance_order a b) 0 = true -> by_distance a b.
Proof.
  unfold distance_order, by_distance. intros H.
  apply Qle_bool_iff in H. Lqa.lra.
Qed.

Lemma distance_order_gt (a b : Place) :
  Qle_bool (distance_order a b) 0 = false -> by_distance b a.
Proof.
  unfold distance_order, by_distance. intros H.
  destruct (Qlt_le_dec 0 (distance a - distance b)) as [Hlt|Hle].
  - Lqa.lra.
  - apply Qle_bool_iff in Hle. congruence.
Qed.

Lemma insert_HdRel (y x : Place) (l : list Place) :
  by_distance y x -> HdRel by_distance y l ->
  HdRel by_distance y (insert distance_order x l).
Proof.
  intros Hyx Hl. destruct l as [|z l]; simpl.
  - constructor. exact Hyx.
  - destruct (Qle_bool (distance_order x z) 0).
    + constructor. exact Hyx.
    + constructor. inversion Hl. assumption.
Qed.

Lemma insert_sorted (x : Place) (l : list Place) :
  Sorted by_distance l -> Sorted by_distance (insert distance_order x l).
Proof.
  induction 1 as [|y l Hs IH Hhd]; simpl.
  - repeat constructor.
  - destruct (Qle_bool (distance_order x y) 0) eqn:E.
    + constructor.
      * constructor; assumption.
      * constructor. apply distance_order_le. exact E.
    + constructor.
      * exact IH.
      * apply insert_HdRel; [apply distance_order_gt; exact E|exact Hhd].
Qed.

Lemma Array_sort_sorted (l : list Place) :
  Sorted by_distance (Array_sort distance_order l).
Proof.
  induction l as [|x l IH]; simpl.
  - constructor.
  - apply insert_sorted. exact IH.
Qed.

Lemma firstn_sorted {A} (R : A -> A -> Prop) (n : nat) (l : list A) :
  Sorted R l -> Sorted R (firstn n l).
Proof.
  intros H. revert n. induction H as [|x l Hs IH Hhd]; intros n.
  - rewrite firstn_nil. constructor.
  - destruct n as [|n]; simpl; [constructor|].
    constructor; [apply IH|].
    destruct Hhd as [|y l' Hxy]; destruct n; simpl; constructor. exact Hxy.
Qed.

Lemma Sorted_non_decreasing (l : list Place) :
  Sorted by_distance l -> non_decreasing (map distance l) = true.
Proof.
  induction 1 as [|x l Hs IH Hhd]; [reflexivity|].
  destruct Hhd as [|y l' Hxy]; [reflexivity|].
  change (Qle_bool (distance x) (distance y)
          && non_decreasing (map distance (y :: l')) = true).
  rewrite IH, andb_true_r. apply Qle_bool_iff. exact Hxy.
Qed.

Lemma firstn_member {A} (n : nat) (l : list A) (x : A) :
  In x (firstn n l) -> In x l.
Proof.
  intros H. rewrite <- (firstn_skipn n l). apply in_or_app. left. exact H.
Qed.

(** The path through the [try] block: sorted, and capped at 20. *)
Lemma process_elements_sorted_capped (coordinates : Coordinates)
      (elements : list Element) :
  Sorted by_distance (process_elements coordinates elements)
  /\ (List.length (process_elements coordinates elements) <= 20)%nat.
Proof.
  unfold process_elements, slice. simpl skipn. split.
  - apply firstn_sorted. apply (Array_sort_sorted _).
  - apply firstn_le_length.
Qed.

(** Every place of the [try] path stems from an element of the reply. *)
Lemma process_elements_In (coordinates : Coordinates)
      (elements : list Element) (place : Place) :
  In place (process_elements coordinates elements) ->
  exists element, In element elements
                  /\ place = place_of_element coordinates element.
Proof.
  unfold process_elements, slice. simpl skipn. intros H.
  apply firstn_member in H.
  apply (Permutation_in _ (Array_sort_perm _ _)) in H.
  apply in_map_iff in H. destruct H as [element [Heq Hin]].
  apply filter_In in Hin. exists element. split; [tauto|congruence].
Qed.

Lemma getMockPlaces_distances (coordinates : Coordinates) (d : Draws) :
  map distance (fst (getMockPlaces coordinates d))
  = [5 # 10; 8 # 10; 12 # 10; 15 # 10; 3 # 10; 6 # 10; 10 # 10; 9 # 10].
Proof. reflexivity. Qed.

End Search.

(** C1, on the transport-failure path: whatever the coordinates, the radius
    and the draws, the result has 8 entries, within the cap of 20, and their
    distances are 0.5, 0.8, 1.2, 1.5, 0.3, 0.6, 1.0, 0.9 in this order,
    which is not non-decreasing. *)
Theorem searchNearbyPlaces_fallback_not_sorted
        (coordinates : Geolocation.Coordinates) (radiusKm : Q)
        (d : Places.Draws) :
  let places :=
    fst (Places.searchNearbyPlaces coordinates radiusKm Geolocation.Rejected d) in
  (List.length places <= 20)%nat
  /\ map Places.distance places
     = [5 # 10; 8 # 10; 12 # 10; 15 # 10; 3 # 10; 6 # 10; 10 # 10; 9 # 10]
  /\ ~ Sorted by_distance places.
Proof.
  intros places. split; [|split].
  - unfold places. simpl. lia.
  - reflexivity.
  - intros H. apply Sorted_non_decreasing in H.
    unfold places in H. simpl Places.searchNearbyPlaces in H.
    rewrite getMockPlaces_distances in H. discriminate H.
Qed.

(** The same search with a reply that parses: at most 20 places, in
    non-decreasing distance. *)
Lemma searchNearbyPlaces_body_sorted_capped
      (coordinates : Geolocation.Coordinates) (radiusKm : Q)
      (elements : list Places.Element) (d : Places.Draws) :
  let places :=
    fst (Places.searchNearbyPlaces coordinates radiusKm
           (Geolocation.Body elements) d) in
  Sorted by_distance places /\ (List.length places <= 20)%nat.
Proof.
  apply process_elements_sorted_capped.
Qed.

(** C9: [getCategoryFromTags] never returns "Restaurante", so no place of
    the [try] path of the search has that category.  The tag list of
    "Restaurante" is ["restaurant"], that tag is also in the list of
    "Lanchonete", which stands earlier in the table, and a tags object whose
    only recognised value is "restaurant" is classified as "Lanchonete". *)
Theorem getCategoryFromTags_never_Restaurante :
  (forall tags : Places.Tags,
      Places.getCategoryFromTags tags <> "Restaurante")
  /\ (forall (coordinates : Geolocation.Coordinates) (radiusKm : Q)
             (elements : list Places.Element) (d : Places.Draws)
             (place : Places.Place),
         In place (fst (Places.searchNearbyPlaces coordinates radiusKm
                          (Geolocation.Body elements) d)) ->
         Places.category place <> "Restaurante"
         /\ Places.type place <> "Restaurante")
  /\ JsObject.get Places.CATEGORY_TAGS "Restaurante" = Some ["restaurant"]
  /\ category_of_tag "restaurant" = Some "Lanchonete"
  /\ Places.getCategoryFromTags (tags_of (Some "restaurant") None) = "Lanchonete"
  /\ Places.getCategoryFromTags (tags_of None (Some "restaurant")) = "Lanchonete".
Proof.
  assert (Hnever : forall tags : Places.Tags,
             Places.getCategoryFromTags tags <> "Restaurante").
  { intros tags. unfold Places.getCategoryFromTags.
    apply first_category_not_Restaurante. }
  split; [exact Hnever|].
  split; [|repeat split].
  intros coordinates radiusKm elements d place Hin.
  apply process_elements_In in Hin. destruct Hin as [element [_ ->]].
  split; apply Hnever.
Qed.

Lemma getCategoryFromTags_never_Restaurante_witness :
  Places.category (Places.place_of_element sao_paulo element_example)
  <> "Restaurante".
Proof.
  apply (proj1 (proj2 getCategoryFromTags_never_Restaurante)
           sao_paulo 5 [element_example] draws_zero
           (Places.place_of_element sao_paulo element_example)).
  left. reflexivity.
Defined.

(* ================================================================== *)
(** * places.ts: the draws and the mock substitutes *)

Section Draws.

Import Places.

Lemma valid_advance (k : nat) (d : Draws) :
  valid_draws d -> valid_draws (advance k d).
Proof.
  intros H n. apply H.
Qed.

Lemma draws_zero_valid : valid_draws draws_zero.
Proof.
  intros n. unfold draws_zero. split; Lqa.lra.
Qed.

Lemma draws_half_valid : valid_draws draws_half.
Proof.
  intros n. unfold draws_half. split; Lqa.lra.
Qed.

Lemma draws_eighth_valid : valid_draws draws_eighth.
Proof.
  intros n. unfold draws_eighth. split; Lqa.lra.
Qed.

(** A callback that relates each item to its image and keeps an invariant
    of the supply does so along the whole array. *)
Lemma map_indexed_Forall2 {A B} (f : A -> nat -> Rand B)
      (P : A -> B -> Prop) (I : Draws -> Prop) :
  (forall x i d, I d -> P x (fst (f x i d)) /\ I (snd (f x i d))) ->
  forall xs i d, I d ->
    Forall2 P xs (fst (map_indexed f i xs d))
    /\ I (snd (map_indexed f i xs d)).
Proof.
  intros Hf xs. induction xs as [|x xs IH]; intros i d Hd.
  - simpl. split; [constructor|exact Hd].
  - simpl. unfold bind.
    destruct (Hf x i d Hd) as [HP HI].
    destruct (f x i d) as [y d1]. simpl in HP, HI.
    destruct (IH (S i) d1 HI) as [HF HI2].
    destruct (map_indexed f (S i) xs d1) as [ys d2]. simpl in HF, HI2.
    simpl. split; [constructor; assumption|exact HI2].
Qed.

Lemma Forall2_In_r {A B} (P : A -> B -> Prop) (xs : list A) (ys : list B) :
  Forall2 P xs ys ->
  forall y, In y ys -> exists x, In x xs /\ P x y.
Proof.
  induction 1 as [|x y xs ys HP HF IH]; intros z Hz.
  - destruct Hz.
  - destruct Hz as [<-|Hz].
    + exists x. split; [left; reflexivity|exact HP].
    + destruct (IH z Hz) as [x' [Hx' HP']].
      exists x'. split; [right; exact Hx'|exact HP'].
Qed.

End Draws.

(** C2, as stated, fails: with the same coordinates and the same place, two
    supplies of draws give different mock places (every latitude is
    -23.5605 when the draws are 0 and -23.5505 when they are 0.5) and
    different mock products (3 of them against 4). *)
Lemma mock_substitute_depends_on_draws :
  Places.valid_draws draws_zero /\ Places.valid_draws draws_half
  /\ map (fun p => Qred (Geolocation.lat (Places.coordinates p)))
         (fst (Places.getMockPlaces sao_paulo draws_zero))
     = repeat (Qred (- (235605 # 10000))) 8
  /\ map (fun p => Qred (Geolocation.lat (Places.coordinates p)))
         (fst (Places.getMockPlaces sao_paulo draws_half))
     = repeat (Qred (- (235505 # 10000))) 8
  /\ fst (Places.getMockPlaces sao_paulo draws_zero)
     <> fst (Places.getMockPlaces sao_paulo draws_half)
  /\ List.length
       (fst (Places.generateRealisticProducts toString_one_decimal
               Places.insertion_engine_sort cafe_aroma draws_zero)) = 3%nat
  /\ List.length
       (fst (Places.generateRealisticProducts toString_one_decimal
               Places.insertion_engine_sort cafe_aroma draws_half)) = 4%nat.
Proof.
  split; [exact draws_zero_valid|].
  split; [exact draws_half_valid|].
  split; [vm_compute; reflexivity|].
  split; [vm_compute; reflexivity|].
  split; [|split; vm_compute; reflexivity].
  intros H.
  apply (f_equal (map (fun p => Qred (Geolocation.lat (Places.coordinates p)))))
    in H.
  vm_compute in H. discriminate H.
Qed.

(* ================================================================== *)
(** * places.ts: the mock products *)

Section MockProducts.

Import Places.

Variable Number_toString : Q -> string.
Variable engine_sort : list TableEntry -> Draws -> list TableEntry * nat.

Lemma generateRealisticProducts_unfold (place : Place) (d : Draws) :
  exists selected d',
    selected
    = slice 0 (Z.to_nat (3 + Math_floor (d 0%nat * 3)))
            (fst (engine_sort (products_for (type place)) (advance 1 d)))
    /\ d' = advance (snd (engine_sort (products_for (type place)) (advance 1 d)))
                    (advance 1 d)
    /\ generateRealisticProducts Number_toString engine_sort place d
       = map_indexed
           (fun product index =>
              r <- Math_random ;;
              ret {| p_id := id place ++ "-" ++ JsString.of_nat index;
                     p_name := t_name product;
                     price :=
                       inject_Z
                         (Math_round
                            (basePrice product * ((85 # 100) + r * (4 # 10))
                             * 100)) / 100;
                     store := name place;
                     p_distance := Number_toString (distance place) ++ " km";
                     p_category := type place;
                     source := None;
                     lastUpdated := None;
                     confidence := None;
                     isReal := Some false |})
           0%nat selected d'.
Proof.
  eexists. eexists. split; [reflexivity|]. split; [reflexivity|].
  unfold generateRealisticProducts, bind at 1, Math_random at 1.
  unfold bind at 1, shuffle.
  destruct (engine_sort (products_for (type place)) (advance 1 d))
    as [shuffled calls].
  reflexivity.
Qed.

Lemma generated_from_place (place : Place) (d : Draws) (product : Product) :
  In product
     (fst (generateRealisticProducts Number_toString engine_sort place d)) ->
  from_place Number_toString place product.
Proof.
  destruct (generateRealisticProducts_unfold place d)
    as (selected & d' & _ & _ & ->).
  intros Hin.
  match goal with
  | H : In _ (fst (map_indexed ?f _ _ _)) |- _ =>
      destruct (map_indexed_Forall2 f (fun _ p => from_place Number_toString place p)
                  (fun _ => True)) with (xs := selected) (i := 0%nat) (d := d')
        as [HF _]
  end.
  - intros x i d0 _. split; [|exact I]. repeat split.
  - exact I.
  - destruct (Forall2_In_r _ _ _ HF product Hin) as [_ [_ H]]. exact H.
Qed.

Lemma floor_of_draw (r : Q) :
  0 <= r -> r < 1 -> (0 <= Math_floor (r * 3) <= 2)%Z.
Proof.
  intros H0 H1. unfold Math_floor. split.
  - rewrite <- (Qfloor_Z 0). apply Qfloor_resp_le.
    change (0 <= r * 3). Lqa.lra.
  - assert (H : inject_Z (Qfloor (r * 3)) < inject_Z 3).
    { apply Qle_lt_trans with (r * 3); [apply Qfloor_le|].
      change (inject_Z 3) with 3. Lqa.lra. }
    rewrite <- Zlt_Qlt in H. lia.
Qed.

Lemma products_for_length (t : string) :
  List.length (products_for t) = 10%nat.
Proof.
  unfold products_for, productsByCategory, JsObject.get.
  repeat match goal with
         | |- context [if ?b then _ else _] => destruct b
         end; reflexivity.
Qed.

Lemma products_for_positive (t : string) (entry : TableEntry) :
  In entry (products_for t) -> 0 < basePrice entry.
Proof.
  assert (Hall : forall table,
             In table [table_Mercado; table_Farmacia; table_Lanchonete;
                       table_Cafeteria; table_Padaria] ->
             Forall (fun e => 0 < basePrice e) table).
  { intros table Hin. simpl in Hin.
    repeat (destruct Hin as [<-|Hin]; [repeat constructor|]).
    destruct Hin. }
  intros Hin.
  assert (Htable : In (products_for t)
                      [table_Mercado; table_Farmacia; table_Lanchonete;
                       table_Cafeteria; table_Padaria]).
  { unfold products_for, productsByCategory, JsObject.get.
    repeat match goal with
           | |- context [if ?b then _ else _] => destruct b
           end; simpl; tauto. }
  apply (proj1 (Forall_forall _ _) (Hall _ Htable)). exact Hin.
Qed.

Lemma Math_round_nonneg (x : Q) : 0 <= x -> (0 <= Math_round x)%Z.
Proof.
  intros H. unfold Math_round. rewrite <- (Qfloor_Z 0).
  apply Qfloor_resp_le. change (0 <= x + (1 # 2)). Lqa.lra.
Qed.

Lemma round2_nonneg (x : Q) : 0 <= x -> 0 <= round2 x.
Proof.
  intros H. unfold round2.
  assert (Hz : (0 <= Math_round (x * 100))%Z)
    by (apply Math_round_nonneg; Lqa.lra).
  apply Qle_shift_div_l; [reflexivity|].
  rewrite Qmult_0_l. rewrite Zle_Qle in Hz. exact Hz.
Qed.

Hypothesis engine_sort_perm :
  forall products d, Permutation (fst (engine_sort products d)) products.

Lemma generated_count (place : Place) (d : Draws) :
  valid_draws d ->
  (3 <= List.length
          (fst (generateRealisticProducts Number_toString engine_sort place d))
   <= 5)%nat.
Proof.
  intros Hd.
  destruct (generateRealisticProducts_unfold place d)
    as (selected & d' & Hsel & _ & ->).
  match goal with
  | |- context [map_indexed ?f _ _ _] =>
      destruct (map_indexed_Forall2 f (fun _ _ => True) (fun _ => True))
        with (xs := selected) (i := 0%nat) (d := d') as [HF _];
      [intros; split; exact I|exact I|]
  end.
  apply Forall2_length in HF. rewrite <- HF, Hsel.
  unfold slice. simpl skipn. rewrite length_firstn.
  rewrite (Permutation_length (engine_sort_perm _ _)), products_for_length.
  destruct (Hd 0%nat) as [H0 H1].
  pose proof (floor_of_draw (d 0%nat) H0 H1) as Hf.
  lia.
Qed.

Lemma generated_prices (place : Place) (d : Draws) (product : Product) :
  valid_draws d ->
  In product
     (fst (generateRealisticProducts Number_toString engine_sort place d)) ->
  exists entry, In entry (products_for (type place))
                /\ priced_from entry product.
Proof.
  intros Hd.
  destruct (generateRealisticProducts_unfold place d)
    as (selected & d' & Hsel & Hd' & ->).
  intros Hin.
  match goal with
  | H : In _ (fst (map_indexed ?f _ _ _)) |- _ =>
      destruct (map_indexed_Forall2 f priced_from valid_draws)
        with (xs := selected) (i := 0%nat) (d := d') as [HF _]
  end.
  - intros x i d0 Hd0. unfold bind, Math_random, ret. simpl. split.
    + split; [reflexivity|].
      exists ((85 # 100) + d0 0%nat * (4 # 10)).
      destruct (Hd0 0%nat) as [H0 H1].
      split; [Lqa.lra|]. split; [Lqa.lra|]. reflexivity.
    + apply valid_advance. exact Hd0.
  - rewrite Hd'. apply valid_advance. apply valid_advance. exact Hd.
  - destruct (Forall2_In_r _ _ _ HF product Hin) as [entry [He HP]].
    exists entry. split; [|exact HP].
    rewrite Hsel in He. unfold slice in He. simpl skipn in He.
    apply firstn_member in He.
    apply (Permutation_in _ (engine_sort_perm _ _)) in He. exact He.
Qed.

End MockProducts.

Lemma coin_insert_perm (x : Places.TableEntry) (l : list Places.TableEntry)
      (d : Places.Draws) (calls : nat) :
  Permutation (fst (Places.coin_insert x l d calls)) (x :: l).
Proof.
  revert calls. induction l as [|y l IH]; intros calls; simpl.
  - apply Permutation_refl.
  - destruct (Qle_bool (d calls - (5 # 10)) 0).
    + apply Permutation_refl.
    + specialize (IH (S calls)).
      destruct (Places.coin_insert x l d (S calls)) as [r calls'].
      simpl in *. apply perm_trans with (y :: x :: l).
      * apply perm_skip. exact IH.
      * apply perm_swap.
Qed.

Lemma coin_sort_perm (l : list Places.TableEntry) (d : Places.Draws)
      (calls : nat) :
  Permutation (fst (Places.coin_sort l d calls)) l.
Proof.
  induction l as [|x l IH]; simpl.
  - apply perm_nil.
  - destruct (Places.coin_sort l d calls) as [sorted calls']. simpl in IH.
    apply perm_trans with (x :: sorted).
    + apply coin_insert_perm.
    + apply perm_skip. exact IH.
Qed.

Lemma insertion_engine_sort_perm (l : list Places.TableEntry)
      (d : Places.Draws) :
  Permutation (fst (Places.insertion_engine_sort l d)) l.
Proof.
  apply coin_sort_perm.
Qed.



(** With every draw equal to 0.125 there are 3 products, the comparator is
    always negative, and every price is 0.9 times the base price. *)
Example generateRealisticProducts_example :
  let result :=
    fst (Places.generateRealisticProducts toString_one_decimal
           Places.insertion_engine_sort cafe_aroma draws_eighth) in
  map Places.p_id result = ["mock-4-0"; "mock-4-1"; "mock-4-2"]
  /\ map Places.p_name result
     = ["Café Expresso"; "Cappuccino Tradicional"; "Pão de Queijo"]
  /\ map (fun p => Qred (Places.price p)) result
     = map Qred [675 # 100; 1071 # 100; 495 # 100]
  /\ map Places.p_distance result = ["0.3 km"; "0.3 km"; "0.3 km"].
Proof.
  vm_compute. repeat split.
Qed.

(** C2, amended: the mock substitutes are functions of the input and of the
    draws of [Math.random].  Of a mock place the id, name, type, category,
    distance and address are the same on every invocation, whatever the
    coordinates and the draws; only the coordinates vary.  Of a mock product
    the store, category, distance text and the flag isReal = false are fixed
    by the place; the number of products, which entries are chosen and the
    prices vary with the draws. *)
Theorem mock_substitute_fixed_part :
  (forall (c c' : Geolocation.Coordinates) (d d' : Places.Draws),
      map mock_fixed (fst (Places.getMockPlaces c d))
      = map mock_fixed (fst (Places.getMockPlaces c' d')))
  /\ (forall (c : Geolocation.Coordinates) (d : Places.Draws),
         map Places.name (fst (Places.getMockPlaces c d))
         = map Places.m_name Places.mockData)
  /\ (forall (Number_toString : Q -> string)
             (engine_sort : list Places.TableEntry -> Places.Draws
                            -> list Places.TableEntry * nat)
             (place : Places.Place) (d : Places.Draws)
             (product : Places.Product),
         In product
            (fst (Places.generateRealisticProducts Number_toString engine_sort
                    place d)) ->
         from_place Number_toString place product).
Proof.
  split; [intros; reflexivity|].
  split; [intros; reflexivity|].
  intros Number_toString engine_sort place d product Hin.
  apply (generated_from_place Number_toString engine_sort place d product Hin).
Qed.

Lemma mock_substitute_fixed_part_witness :
  from_place toString_one_decimal cafe_aroma product_example.
Proof.
  apply (proj2 (proj2 mock_substitute_fixed_part) toString_one_decimal
           Places.insertion_engine_sort cafe_aroma draws_eighth
           product_example).
  vm_compute. left. reflexivity.
Defined.

(* ================================================================== *)
(** * places.ts: attaching products *)

Section Attach.

Import Places.

Variable Number_toString : Q -> string.
Variable engine_sort : list TableEntry -> Draws -> list TableEntry * nat.
Variable fetchRealPricesWithAI : nat -> string -> string -> string -> AiResult.
Variable supply : nat -> Draws.

Lemma place_of_spread (place : Place) (ps : list Product)
      (sm : option SocialMedia) :
  place_of (spread place ps sm) = place.
Proof.
  destruct place. reflexivity.
Qed.

Lemma place_of_attach (city : string) (position : nat) (place : Place) :
  place_of (attach Number_toString engine_sort fetchRealPricesWithAI supply
              city position place) = place.
Proof.
  unfold attach.
  destruct (fetchRealPricesWithAI position (name place) (type place) city)
    as [| |realPrices];
    try apply place_of_spread.
  destruct (0 <? List.length (prices realPrices))%nat; apply place_of_spread.
Qed.

Lemma attach_batch_places (city : string) (batch : list Place) :
  forall position,
    map place_of
        (attach_batch Number_toString engine_sort fetchRealPricesWithAI supply
           city position batch) = batch.
Proof.
  induction batch as [|place rest IH]; intros position; simpl.
  - reflexivity.
  - rewrite place_of_attach, IH. reflexivity.
Qed.

Lemma firstn_then_slice {A} (k : nat) (l : list A) :
  forall i, (firstn i l ++ slice i (i + k) l)%list = firstn (i + k) l.
Proof.
  unfold slice. intros i. replace (i + k - i)%nat with k by lia.
  revert l. induction i as [|i IH]; intros l.
  - reflexivity.
  - destruct l as [|x l]; simpl.
    + rewrite firstn_nil. reflexivity.
    + rewrite IH. reflexivity.
Qed.

(** The loop invariant: the stores collected so far are those of the first
    [i] places, in order; with enough fuel the loop ends with all of them. *)
Lemma batch_loop_places (city : string) (places : list Place) :
  forall fuel i storesWithProducts,
    map place_of storesWithProducts = firstn i places ->
    (List.length places <= i + fuel * batchSize)%nat ->
    map place_of
        (batch_loop Number_toString engine_sort fetchRealPricesWithAI supply
           fuel city places i storesWithProducts) = places.
Proof.
  induction fuel as [|fuel IH]; intros i acc Hacc Hfuel; simpl.
  - rewrite Hacc. apply firstn_all2. lia.
  - destruct (i <? List.length places)%nat eqn:E.
    + apply IH.
      * rewrite map_app, attach_batch_places, Hacc. apply firstn_then_slice.
      * unfold batchSize in *. lia.
    + apply Nat.ltb_ge in E. rewrite Hacc. apply firstn_all2. exact E.
Qed.

(** Fuel beyond what the loop needs does not change its result. *)
Lemma batch_loop_enough_fuel (city : string) (places : list Place) :
  forall fuel1 fuel2 i storesWithProducts,
    (List.length places <= i + fuel1 * batchSize)%nat ->
    (List.length places <= i + fuel2 * batchSize)%nat ->
    batch_loop Number_toString engine_sort fetchRealPricesWithAI supply
      fuel1 city places i storesWithProducts
    = batch_loop Number_toString engine_sort fetchRealPricesWithAI supply
        fuel2 city places i storesWithProducts.
Proof.
  unfold batchSize.
  induction fuel1 as [|fuel1 IH]; intros fuel2 i acc H1 H2.
  - destruct fuel2 as [|fuel2]; simpl; [reflexivity|].
    replace (i <? List.length places)%nat with false
      by (symmetry; apply Nat.ltb_ge; lia).
    reflexivity.
  - destruct fuel2 as [|fuel2]; simpl.
    + replace (i <? List.length places)%nat with false
        by (symmetry; apply Nat.ltb_ge; lia).
      reflexivity.
    + destruct (i <? List.length places)%nat; [|reflexivity].
      apply IH; unfold batchSize; lia.
Qed.

End Attach.


(** The 8 mock places go through two batches, of 5 and of 3; the first
    place gets the two prices the lookup found, the others mock products. *)
Example addRealProductsToPlaces_example :
  map Places.s_name stores_example = map Places.m_name Places.mockData
  /\ map (fun s => List.length (Places.products s)) stores_example
     = [2; 3; 3; 3; 3; 3; 3; 3]%nat
  /\ map (fun s => match Places.socialMedia s with
                   | Some _ => true | None => false end) stores_example
     = [true; false; false; false; false; false; false; false].
Proof.
  vm_compute. repeat split.
Qed.

(* ================================================================== *)
(** * auth.ts *)

Section AuthFacts.

Import Auth.

Lemma existsb_email_stored (email : string) (users : list StoredUser) :
  existsb (fun u => String.eqb (su_email u) email) users = true
  <-> In email (map su_email users).
Proof.
  rewrite existsb_exists, in_map_iff. split.
  - intros [u [Hin He]]. apply String.eqb_eq in He. exists u. tauto.
  - intros [u [He Hin]]. exists u. split; [exact Hin|].
    apply String.eqb_eq. exact He.
Qed.

(** Registration with a stored email never succeeds and never writes. *)
Lemma register_stored_fails (email password name : string)
      (ls : LocalStorage) :
  email_stored email ls ->
  success (fst (register email password name ls)) = false
  /\ snd (register email password name ls) = ls.
Proof.
  intros H. apply existsb_email_stored in H. unfold register.
  destruct (negb (JsString.truthy email) || negb (JsString.truthy password)
            || negb (JsString.truthy name)); [split; reflexivity|].
  destruct (negb (JsString.includes email "@")); [split; reflexivity|].
  destruct (String.length password <? 6)%nat; [split; reflexivity|].
  rewrite H. split; reflexivity.
Qed.

Lemma register_stored_valid (email password name : string)
      (ls : LocalStorage) :
  email_stored email ls ->
  JsString.truthy email = true -> JsString.truthy name = true ->
  JsString.includes email "@" = true ->
  (6 <= String.length password)%nat ->
  fst (register email password name ls) = duplicate_email_error.
Proof.
  intros H He Hn Hat Hlen. apply existsb_email_stored in H. unfold register.
  assert (Hp : JsString.truthy password = true)
    by (destruct password; [simpl in Hlen; lia|reflexivity]).
  rewrite He, Hp, Hn, Hat. simpl.
  apply Nat.ltb_ge in Hlen. rewrite Hlen, H. reflexivity.
Qed.

Lemma register_short_password (email password name : string)
      (ls : LocalStorage) :
  (String.length password < 6)%nat ->
  success (fst (register email password name ls)) = false
  /\ snd (register email password name ls) = ls.
Proof.
  intros H. unfold register.
  destruct (negb (JsString.truthy email) || negb (JsString.truthy password)
            || negb (JsString.truthy name)); [split; reflexivity|].
  destruct (negb (JsString.includes email "@")); [split; reflexivity|].
  apply Nat.ltb_lt in H. rewrite H. split; reflexivity.
Qed.

(** A successful registration stores the email. *)
Lemma register_success_stores (email password name : string)
      (ls : LocalStorage) :
  success (fst (register email password name ls)) = true ->
  email_stored email (snd (register email password name ls))
  /\ JsString.truthy email = true /\ JsString.truthy name = true
  /\ JsString.includes email "@" = true
  /\ (6 <= String.length password)%nat.
Proof.
  unfold register.
  destruct (JsString.truthy email); [|discriminate].
  destruct (JsString.truthy password); [|discriminate].
  destruct (JsString.truthy name); [|discriminate].
  destruct (JsString.includes email "@"); [|discriminate].
  simpl. destruct (String.length password <? 6)%nat eqn:E; [discriminate|].
  destruct (existsb (fun u => String.eqb (su_email u) email)
                    (getStoredUsers ls)); [discriminate|].
  intros _. simpl. apply Nat.ltb_ge in E.
  repeat split; try assumption.
  unfold email_stored, getStoredUsers. simpl.
  rewrite map_app. apply in_or_app. right. left. reflexivity.
Qed.

Lemma find_wrong_password (email password : string) (users : list StoredUser) :
  (forall u, In u users -> su_email u = email -> su_password u <> password) ->
  find (fun u => String.eqb (su_email u) email
                 && String.eqb (su_password u) password) users = None.
Proof.
  intros H. destruct (find _ users) as [u|] eqn:E; [|reflexivity].
  apply find_some in E. destruct E as [Hin Hb].
  apply andb_prop in Hb. destruct Hb as [He Hp].
  apply String.eqb_eq in He. apply String.eqb_eq in Hp.
  destruct (H u Hin He Hp).
Qed.

(** With a wrong password the answer of [login] is decided by the two
    strings alone. *)
Lemma login_wrong_password (email password : string) (ls : LocalStorage) :
  wrong_password email password ls ->
  login email password ls
  = (if negb (JsString.truthy email) || negb (JsString.truthy password)
     then {| l_success := false; l_error := Some "Preencha todos os campos";
             l_user := None |}
     else {| l_success := false; l_error := Some "Email ou senha incorretos";
             l_user := None |},
     ls).
Proof.
  intros H. unfold login.
  destruct (negb (JsString.truthy email) || negb (JsString.truthy password));
    [reflexivity|].
  rewrite (find_wrong_password _ _ _ H). reflexivity.
Qed.

End AuthFacts.



Lemma wrong_password_store_ana : wrong_password "ana@mail.com" "errada" store_ana.
Proof.
  intros u [<-|[]] _. simpl. discriminate.
Qed.

Lemma wrong_password_store_empty :
  wrong_password "ana@mail.com" "errada" store_empty.
Proof.
  intros u [].
Qed.


(* ================================================================== *)
(** * establishment-quiz.tsx *)

Section QuizFacts.

Import Quiz.

(** An answer sequence of the quiz is a triple, one value per question. *)
Lemma quiz_answers_cases (userAnswers : list string) :
  quiz_answers userAnswers ->
  exists a1 a2 a3,
    userAnswers = [a1; a2; a3]
    /\ In a1 ["food"; "health"; "meal"; "general"]
    /\ In a2 ["variety"; "specialized"; "quick"; "price"]
    /\ In a3 ["large"; "professional"; "cozy"; "simple"].
Proof.
  unfold quiz_answers, quizQuestions. intros H.
  inversion H as [|q1 a1 qs1 as1 H1 T1]; subst.
  inversion T1 as [|q2 a2 qs2 as2 H2 T2]; subst.
  inversion T2 as [|q3 a3 qs3 as3 H3 T3]; subst.
  inversion T3; subst.
  exists a1, a2, a3. simpl in H1, H2, H3. simpl. tauto.
Qed.

Lemma meal_cozy_is_Cafeteria (userAnswers : list string) :
  quiz_answers userAnswers ->
  In "meal" userAnswers -> In "cozy" userAnswers ->
  result_type userAnswers = Some "Cafeteria".
Proof.
  intros H Hmeal Hcozy.
  destruct (quiz_answers_cases _ H) as (a1 & a2 & a3 & -> & H1 & H2 & H3).
  simpl in H1, H2, H3.
  repeat match goal with
         | H : _ \/ _ |- _ => destruct H as [<-|H]
         | H : False |- _ => destruct H
         end;
    first [ reflexivity
          | exfalso; simpl in Hmeal; intuition discriminate
          | exfalso; simpl in Hcozy; intuition discriminate ].
Qed.

End QuizFacts.

(** C4: the answers food, variety, large give "Mercado"; the answers
    health, specialized, professional give "Farmácia"; every answer sequence
    of the quiz that contains meal and cozy gives "Cafeteria", also when it
    contains quick, because the rule for meal with cozy is tried before the
    rule for meal with quick. *)
Theorem determineResult_decision_table :
  result_type ["food"; "variety"; "large"] = Some "Mercado"
  /\ result_type ["health"; "specialized"; "professional"] = Some "Farmácia"
  /\ (forall userAnswers,
         Quiz.quiz_answers userAnswers ->
         In "meal" userAnswers -> In "cozy" userAnswers ->
         result_type userAnswers = Some "Cafeteria")
  /\ result_type ["meal"; "quick"; "cozy"] = Some "Cafeteria"
  /\ result_type ["meal"; "quick"; "simple"] = Some "Lanchonete".
Proof.
  split; [reflexivity|].
  split; [reflexivity|].
  split; [exact meal_cozy_is_Cafeteria|].
  split; reflexivity.
Qed.

Lemma determineResult_decision_table_witness :
  Quiz.quiz_answers ["meal"; "quick"; "cozy"]
  /\ result_type ["meal"; "quick"; "cozy"] = Some "Cafeteria".
Proof.
  assert (H : Quiz.quiz_answers ["meal"; "quick"; "cozy"]).
  { unfold Quiz.quiz_answers, Quiz.quizQuestions.
    repeat constructor; simpl; tauto. }
  split; [exact H|].
  apply (proj1 (proj2 (proj2 determineResult_decision_table)) _ H);
    simpl; tauto.
Defined.

(** Outside the quiz the rule order shows: a sequence with health in it is
    a "Farmácia" even when it also holds meal and cozy. *)
Example determineResult_outside_quiz :
  ~ Quiz.quiz_answers ["health"; "meal"; "cozy"]
  /\ result_type ["health"; "meal"; "cozy"] = Some "Farmácia".
Proof.
  split; [|reflexivity].
  intros H. apply quiz_answers_cases in H.
  destruct H as (a1 & a2 & a3 & Heq & _ & H2 & _).
  injection Heq as <- <- <-. simpl in H2. intuition discriminate.
Qed.

(* ================================================================== *)
(** * auth.ts: accounts and sessions *)

Section Accounts.

Import Auth.

Lemma register_success_inv (email password name : string) (ls : LocalStorage) :
  success (fst (register email password name ls)) = true ->
  JsString.truthy email = true /\ JsString.truthy password = true
  /\ ~ email_stored email ls
  /\ register email password name ls
     = ({| success := true; error := None |},
        {| precofacil_auth := precofacil_auth ls;
           precofacil_users :=
             Some (getStoredUsers ls
                     ++ [ {| su_email := email; su_password := password;
                             su_name := name |} ])%list |}).
Proof.
  unfold register.
  destruct (JsString.truthy email); [|discriminate].
  destruct (JsString.truthy password); [|discriminate].
  destruct (JsString.truthy name); [|discriminate].
  destruct (JsString.includes email "@"); [|discriminate].
  simpl. destruct (String.length password <? 6)%nat; [discriminate|].
  destruct (existsb (fun u => String.eqb (su_email u) email)
                    (getStoredUsers ls)) eqn:E; [discriminate|].
  intros _. repeat split.
  intros H. apply existsb_email_stored in H. congruence.
Qed.

Lemma register_failure_keeps (email password name : string)
      (ls : LocalStorage) :
  success (fst (register email password name ls)) = false ->
  snd (register email password name ls) = ls.
Proof.
  unfold register.
  destruct (negb (JsString.truthy email) || negb (JsString.truthy password)
            || negb (JsString.truthy name)); [reflexivity|].
  destruct (negb (JsString.includes email "@")); [reflexivity|].
  destruct (String.length password <? 6)%nat; [reflexivity|].
  destruct (existsb (fun u => String.eqb (su_email u) email)
                    (getStoredUsers ls)); [reflexivity|discriminate].
Qed.

Lemma find_skips (f : StoredUser -> bool) (l1 l2 : list StoredUser) :
  (forall u, In u l1 -> f u = false) ->
  find f (l1 ++ l2) = find f l2.
Proof.
  induction l1 as [|u l1 IH]; intros H; simpl; [reflexivity|].
  rewrite (H u (or_introl eq_refl)). apply IH.
  intros v Hv. apply H. right. exact Hv.
Qed.

Lemma login_spec (email password : string) (ls : LocalStorage) :
  l_success (fst (login email password ls)) = true
  <-> JsString.truthy email = true /\ JsString.truthy password = true
      /\ exists u, In u (getStoredUsers ls)
                   /\ su_email u = email /\ su_password u = password.
Proof.
  unfold login.
  destruct (JsString.truthy email), (JsString.truthy password); simpl;
    try (split; [discriminate|intros [A [B _]]; discriminate]).
  destruct (find _ (getStoredUsers ls)) as [u|] eqn:E; simpl.
  - split; [|reflexivity]. intros _.
    apply find_some in E. destruct E as [Hin Hb].
    apply andb_prop in Hb. destruct Hb as [He Hp].
    apply String.eqb_eq in He. apply String.eqb_eq in Hp.
    repeat split. exists u. tauto.
  - split; [discriminate|]. intros [_ [_ [u [Hin [He Hp]]]]].
    pose proof (find_none _ _ E u Hin) as Hn. simpl in Hn.
    rewrite He, Hp, !String.eqb_refl in Hn. discriminate Hn.
Qed.

End Accounts.

(** X1: an account that has just been registered can log in: after a
    registration that succeeds, [login] with the same email and password
    succeeds, returns the registered email and name, and leaves a session
    that [getAuthState] reports as authenticated for that user. *)
Theorem register_then_login (email password name : string)
        (ls : Auth.LocalStorage) :
  Auth.success (fst (Auth.register email password name ls)) = true ->
  let registered := snd (Auth.register email password name ls) in
  let user := {| Auth.email := email; Auth.name := name |} in
  fst (Auth.login email password registered)
  = {| Auth.l_success := true; Auth.l_error := None;
       Auth.l_user := Some user |}
  /\ Auth.getAuthState (snd (Auth.login email password registered))
     = {| Auth.isAuthenticated := true; Auth.user := Some user |}.
Proof.
  intros H registered user.
  destruct (register_success_inv email password name ls H)
    as (He & Hp & Hnew & Heq).
  assert (Hlogin :
            Auth.login email password registered
            = ({| Auth.l_success := true; Auth.l_error := None;
                  Auth.l_user := Some user |},
               {| Auth.precofacil_auth :=
                    Some {| Auth.isAuthenticated := true;
                            Auth.user := Some user |};
                  Auth.precofacil_users := Auth.precofacil_users registered |})).
  { unfold registered. rewrite Heq. cbn [snd]. unfold Auth.login.
    rewrite He, Hp. cbn [negb orb]. unfold Auth.getStoredUsers at 1.
    cbn [Auth.precofacil_users].
    rewrite find_skips.
    - simpl. rewrite !String.eqb_refl. reflexivity.
    - intros u Hu. apply andb_false_intro1. apply String.eqb_neq.
      intros Hue. apply Hnew. unfold email_stored. rewrite <- Hue.
      apply in_map. exact Hu. }
  rewrite Hlogin. split; reflexivity.
Qed.

Lemma register_then_login_witness :
  fst (Auth.login "eva@mail.com" "segredo9"
         (snd (Auth.register "eva@mail.com" "segredo9" "Eva" store_ana)))
  = {| Auth.l_success := true; Auth.l_error := None;
       Auth.l_user := Some {| Auth.email := "eva@mail.com";
                              Auth.name := "Eva" |} |}.
Proof.
  apply (register_then_login "eva@mail.com" "segredo9" "Eva" store_ana).
  reflexivity.
Defined.

(** X2: [register] keeps the stored emails pairwise distinct, never removes
    or reorders an account (the old list is a prefix of the new one), adds
    at most one account, and never touches the session. *)
Theorem register_keeps_accounts (email password name : string)
        (ls : Auth.LocalStorage) :
  NoDup (map Auth.su_email (Auth.getStoredUsers ls)) ->
  let after := snd (Auth.register email password name ls) in
  NoDup (map Auth.su_email (Auth.getStoredUsers after))
  /\ (exists added,
         Auth.getStoredUsers after = (Auth.getStoredUsers ls ++ added)%list
         /\ (List.length added <= 1)%nat)
  /\ Auth.precofacil_auth after = Auth.precofacil_auth ls.
Proof.
  intros Hnd after.
  destruct (Auth.success (fst (Auth.register email password name ls))) eqn:E.
  - destruct (register_success_inv email password name ls E)
      as (_ & _ & Hnew & Heq).
    unfold after. rewrite Heq. cbn [snd]. unfold Auth.getStoredUsers at 1 3.
    cbn [Auth.precofacil_users Auth.precofacil_auth].
    split; [|split; [eexists; split; [reflexivity|simpl; lia]|reflexivity]].
    rewrite map_app. simpl.
    apply (Permutation_NoDup (l := email :: map Auth.su_email (Auth.getStoredUsers ls))).
    + apply Permutation_cons_append.
    + constructor; assumption.
  - unfold after. rewrite (register_failure_keeps _ _ _ _ E).
    split; [exact Hnd|].
    split; [exists []; split; [symmetry; apply app_nil_r|simpl; lia]|reflexivity].
Qed.

Lemma register_keeps_accounts_witness :
  NoDup (map Auth.su_email
           (Auth.getStoredUsers
              (snd (Auth.register "eva@mail.com" "segredo9" "Eva" store_ana)))).
Proof.
  apply (register_keeps_accounts "eva@mail.com" "segredo9" "Eva" store_ana).
  simpl. repeat constructor. intros [].
Defined.

(** X3: [login] succeeds exactly when both fields are non-empty and some
    stored account has this email and this password; it never changes the
    stored accounts, and a login that fails changes nothing at all. *)
Theorem login_succeeds_iff (email password : string) (ls : Auth.LocalStorage) :
  (Auth.l_success (fst (Auth.login email password ls)) = true
   <-> JsString.truthy email = true /\ JsString.truthy password = true
       /\ exists u, In u (Auth.getStoredUsers ls)
                    /\ Auth.su_email u = email
                    /\ Auth.su_password u = password)
  /\ Auth.precofacil_users (snd (Auth.login email password ls))
     = Auth.precofacil_users ls
  /\ (Auth.l_success (fst (Auth.login email password ls)) = false ->
      snd (Auth.login email password ls) = ls).
Proof.
  split; [apply login_spec|].
  unfold Auth.login.
  destruct (negb (JsString.truthy email) || negb (JsString.truthy password));
    [split; reflexivity|].
  destruct (find _ (Auth.getStoredUsers ls)); simpl.
  - split; [reflexivity|discriminate].
  - split; reflexivity.
Qed.

Lemma login_succeeds_iff_witness :
  snd (Auth.login "ana@mail.com" "errada" store_ana) = store_ana.
Proof.
  apply (login_succeeds_iff "ana@mail.com" "errada" store_ana).
  reflexivity.
Defined.

(** X4: [logout] ends the session and keeps the accounts: after it
    [getAuthState] reports nobody, whoever was logged in, and every login
    attempt is answered as it was before the logout. *)
Theorem logout_ends_session_only (ls : Auth.LocalStorage) :
  Auth.getAuthState (Auth.logout ls)
  = {| Auth.isAuthenticated := false; Auth.user := None |}
  /\ Auth.getStoredUsers (Auth.logout ls) = Auth.getStoredUsers ls
  /\ (forall email password,
         fst (Auth.login email password (Auth.logout ls))
         = fst (Auth.login email password ls))
  /\ (forall email password,
         Auth.logout (snd (Auth.login email password ls)) = Auth.logout ls).
Proof.
  split; [reflexivity|]. split; [reflexivity|]. split.
  - intros email password. unfold Auth.login.
    destruct (negb (JsString.truthy email) || negb (JsString.truthy password));
      [reflexivity|].
    change (Auth.getStoredUsers (Auth.logout ls)) with (Auth.getStoredUsers ls).
    destruct (find _ (Auth.getStoredUsers ls)); reflexivity.
  - intros email password. unfold Auth.login.
    destruct (negb (JsString.truthy email) || negb (JsString.truthy password));
      [reflexivity|].
    destruct (find _ (Auth.getStoredUsers ls)); reflexivity.
Qed.

(* ================================================================== *)
(** * geolocation.ts: the address of a postal code *)

Section Address.

Import Geolocation.

Variable viacep : string -> Fetched ViaCepData.
Variable nominatim : string -> Fetched (list NominatimHit).

Lemma getCoordinatesFromAddress_value (address : string) :
  getCoordinatesFromAddress nominatim address
  = ([Nominatim address],
     Return match nominatim address with
            | Body (h :: _) => Some {| lat := hit_lat h; lng := hit_lon h |}
            | _ => None
            end).
Proof.
  unfold getCoordinatesFromAddress, fetch_json.
  destruct (nominatim address) as [| |[|h t]]; reflexivity.
Qed.

(** The three ways the function ends. *)
Lemma getAddressFromCEP_cases (cep : string) :
  let cleanCEP := JsString.strip_non_digits cep in
  (String.length cleanCEP <> 8%nat
   /\ getAddressFromCEP viacep nominatim cep = ([], Return None))
  \/ (String.length cleanCEP = 8%nat
      /\ (forall data, viacep cleanCEP = Body data -> erro data = true)
      /\ getAddressFromCEP viacep nominatim cep
         = ([ViaCEP cleanCEP], Return None))
  \/ (String.length cleanCEP = 8%nat
      /\ exists data,
           viacep cleanCEP = Body data /\ erro data = false
           /\ getAddressFromCEP viacep nominatim cep
              = ([ViaCEP cleanCEP; Nominatim (geocoded_address data)],
                 Return (Some {| cep := vc_cep data;
                                 city := localidade data;
                                 state := uf data;
                                 street := logradouro data;
                                 neighborhood := bairro data;
                                 coordinates :=
                                   geocoded_or_fallback nominatim
                                     (geocoded_address data)
                              |}))).
Proof.
  intros cleanCEP.
  destruct (Nat.eq_dec (String.length cleanCEP) 8) as [H8|H8].
  - right. unfold getAddressFromCEP. fold cleanCEP.
    rewrite (proj2 (Nat.eqb_eq _ _) H8). cbn [negb].
    unfold fetch_json.
    destruct (viacep cleanCEP) as [| |data] eqn:E.
    + left. split; [exact H8|]. split; [discriminate|reflexivity].
    + left. split; [exact H8|]. split; [discriminate|reflexivity].
    + change (logradouro data ++ ", " ++ localidade data ++ ", "
                ++ uf data ++ ", Brasil") with (geocoded_address data).
      cbn -[getCoordinatesFromAddress geocoded_address].
      destruct (erro data) eqn:Eerro.
      * left. split; [exact H8|]. split; [|reflexivity].
        intros data' Heq. injection Heq as <-. exact Eerro.
      * right. split; [exact H8|]. exists data.
        split; [reflexivity|]. split; [exact Eerro|].
        rewrite getCoordinatesFromAddress_value.
        unfold geocoded_or_fallback, geocoded_address. cbn.
        match goal with
        | |- context [nominatim ?a] =>
            destruct (nominatim a) as [| |[|h t]]
        end; reflexivity.
  - left. split; [exact H8|].
    apply getAddressFromCEP_rejects. exact H8.
Qed.

End Address.

(** X5: [getAddressFromCEP] never throws and sends at most two requests.
    It returns an address exactly when 8 digits remain and the postal
    lookup answers with a record that is not flagged [erro]; the address
    then carries the city, state, street and neighbourhood of that record,
    and the coordinates of the first geocoder hit, or those of São Paulo
    when the geocoder fails or finds nothing. *)
Theorem getAddressFromCEP_result
        (viacep : string -> Geolocation.Fetched Geolocation.ViaCepData)
        (nominatim : string -> Geolocation.Fetched (list Geolocation.NominatimHit))
        (cep : string) :
  let cleanCEP := JsString.strip_non_digits cep in
  let run := Geolocation.getAddressFromCEP viacep nominatim cep in
  (exists r, snd run = Geolocation.Return r)
  /\ (List.length (Geolocation.trace run) <= 2)%nat
  /\ ((exists info, snd run = Geolocation.Return (Some info))
      <-> String.length cleanCEP = 8%nat
          /\ exists data, viacep cleanCEP = Geolocation.Body data
                          /\ Geolocation.erro data = false)
  /\ (forall info data,
         snd run = Geolocation.Return (Some info) ->
         viacep cleanCEP = Geolocation.Body data ->
         Geolocation.city info = Geolocation.localidade data
         /\ Geolocation.state info = Geolocation.uf data
         /\ Geolocation.street info = Geolocation.logradouro data
         /\ Geolocation.neighborhood info = Geolocation.bairro data
         /\ Geolocation.coordinates info
            = geocoded_or_fallback nominatim (geocoded_address data)).
Proof.
  intros cleanCEP run.
  destruct (getAddressFromCEP_cases viacep nominatim cep)
    as [[H8 Hrun]|[[H8 [Herro Hrun]]|[H8 [data [Hv [He Hrun]]]]]];
    fold cleanCEP in H8, Hrun; unfold run; rewrite Hrun; cbn [snd fst Geolocation.trace].
  - split; [eexists; reflexivity|]. split; [simpl; lia|]. split.
    + split; [intros [info Hi]; discriminate Hi|intros [H _]; contradiction].
    + intros info data Hi. discriminate Hi.
  - fold cleanCEP in Herro.
    split; [eexists; reflexivity|]. split; [simpl; lia|]. split.
    + split; [intros [info Hi]; discriminate Hi|].
      intros [_ [data [Hv He]]]. rewrite (Herro data Hv) in He. discriminate He.
    + intros info data Hi. discriminate Hi.
  - split; [eexists; reflexivity|]. split; [simpl; lia|]. split.
    + split; [intros _; split; [exact H8|exists data; tauto]|].
      intros _. eexists. reflexivity.
    + intros info data' Hi Hv'.
      pose proof (eq_trans (eq_sym Hv) Hv') as Hd. injection Hd as <-.
      injection Hi as <-. repeat split.
Qed.

Lemma getAddressFromCEP_result_witness :
  exists info,
    snd (Geolocation.getAddressFromCEP viacep_example nominatim_example
           "01310-100") = Geolocation.Return (Some info).
Proof.
  apply (proj1 (proj2 (proj2 (getAddressFromCEP_result viacep_example
                                nominatim_example "01310-100")))).
  split; [reflexivity|]. eexists. split; reflexivity.
Defined.

(* ================================================================== *)
(** * geolocation.ts: the range of the distance *)

Section DistanceRange.

Import Geolocation.
Local Open Scope R_scope.

Lemma haversine_from_a (A B : Coordinates) :
  haversine A B
  = 6371 * (2 * Math_atan2 (sqrt (haversine_a A B))
                           (sqrt (1 - haversine_a A B))).
Proof. reflexivity. Qed.

Lemma sin_half_sq (x : R) : sin (x / 2) * sin (x / 2) = (1 - cos x) / 2.
Proof.
  replace x with (2 * (x / 2)) at 3 by field.
  rewrite cos_2a_sin. field.
Qed.

Lemma toRad_minus (x y : R) : toRad (x - y) = toRad x - toRad y.
Proof. unfold toRad. ring. Qed.

Lemma toRad_latitude (c : Coordinates) :
  valid_latitude c ->
  - (PI / 2) <= toRad (Q2R (lat c)) <= PI / 2.
Proof.
  intros [Hlo Hhi].
  apply Qreals.Qle_Rle in Hlo. apply Qreals.Qle_Rle in Hhi.
  rewrite Qreals.Q2R_opp in Hlo.
  assert (H90 : Q2R 90 = 90) by (unfold Q2R; simpl; lra).
  rewrite H90 in Hlo, Hhi.
  pose proof PI_RGT_0 as Hpi. unfold toRad. split; nra.
Qed.

(** Between the poles both cosines are non-negative, and the argument of
    the square roots stays between 0 and 1. *)
Lemma haversine_a_range (A B : Coordinates) :
  valid_latitude A -> valid_latitude B ->
  0 <= haversine_a A B <= 1.
Proof.
  intros HA HB. unfold haversine_a. cbv zeta.
  apply toRad_latitude in HA. apply toRad_latitude in HB.
  rewrite toRad_minus.
  set (p1 := toRad (Q2R (lat A))) in *.
  set (p2 := toRad (Q2R (lat B))) in *.
  set (dl := toRad (Q2R (lng B) - Q2R (lng A)) / 2).
  assert (Hc1 : 0 <= cos p1) by (apply cos_ge_0; lra).
  assert (Hc2 : 0 <= cos p2) by (apply cos_ge_0; lra).
  pose proof (SIN_bound dl) as Hs.
  assert (Hs2 : 0 <= sin dl * sin dl <= 1) by nra.
  rewrite sin_half_sq, cos_minus.
  pose proof (COS_bound (p1 + p2)) as Hsum. rewrite cos_plus in Hsum.
  pose proof (COS_bound (p2 - p1)) as Hdiff. rewrite cos_minus in Hdiff.
  assert (Hcc : 0 <= cos p1 * cos p2) by nra.
  replace (cos p1 * cos p2 * sin dl * sin dl)
    with (cos p1 * cos p2 * (sin dl * sin dl)) by ring.
  split; nra.
Qed.

Lemma Math_atan2_quadrant (y x : R) :
  0 <= y -> 0 <= x -> 0 <= Math_atan2 y x <= PI / 2.
Proof.
  intros Hy Hx. pose proof PI_RGT_0 as Hpi. unfold Math_atan2.
  destruct (Rlt_dec 0 x) as [Hpos|Hnpos].
  - pose proof (atan_bound (y / x)) as Hb.
    split; [|lra].
    destruct (Req_dec y 0) as [->|Hy0].
    + replace (0 / x) with 0 by (field; lra). rewrite atan_0. lra.
    + assert (Hq : 0 < y / x) by (apply Rdiv_lt_0_compat; lra).
      apply atan_increasing in Hq. rewrite atan_0 in Hq. lra.
  - destruct (Rlt_dec x 0) as [Hneg|_]; [lra|].
    destruct (Rlt_dec 0 y) as [_|_]; [lra|].
    destruct (Rlt_dec y 0) as [Hyn|_]; lra.
Qed.

Lemma haversine_range (A B : Coordinates) :
  0 <= haversine A B <= 6371 * PI.
Proof.
  rewrite haversine_from_a.
  pose proof (Math_atan2_quadrant _ _ (sqrt_pos (haversine_a A B))
                                  (sqrt_pos (1 - haversine_a A B))) as H.
  split; nra.
Qed.

Lemma Q2R_tenths (z : Z) : Q2R (inject_Z z / 10) = IZR z / 10.
Proof.
  unfold Q2R. simpl. rewrite Z.mul_1_r. reflexivity.
Qed.

(** Rounding to one decimal moves a number by at most 0.05. *)
Lemma round_tenth_error (x : R) :
  x - 1 / 20 < Q2R (inject_Z (Math_round (x * 10)) / 10) <= x + 1 / 20.
Proof.
  rewrite Q2R_tenths. unfold Math_round.
  destruct (base_Int_part (x * 10 + / 2)) as [Hle Hgt].
  split; lra.
Qed.

Lemma round_tenth_nonneg (x : R) :
  0 <= x -> (0 <= inject_Z (Math_round (x * 10)) / 10)%Q.
Proof.
  intros Hx. unfold Math_round.
  destruct (base_Int_part (x * 10 + / 2)) as [_ Hgt].
  assert (Hz : (-1 < Int_part (x * 10 + / 2))%Z) by (apply lt_IZR; lra).
  apply Qle_shift_div_l; [reflexivity|].
  rewrite Qmult_0_l. change 0%Q with (inject_Z 0). rewrite <- Zle_Qle. lia.
Qed.

End DistanceRange.



(* ================================================================== *)
(** * places.ts: addresses and well-formed places *)

Section WellFormed.

Import Places.

Lemma truthy_app (x s : string) :
  JsString.truthy x = true -> JsString.truthy (x ++ s) = true.
Proof.
  destruct x; [discriminate|reflexivity].
Qed.

Lemma join_truthy (sep : string) (parts : list string) :
  parts <> [] -> Forall (fun x => JsString.truthy x = true) parts ->
  JsString.truthy (JsString.join sep parts) = true.
Proof.
  intros Hne Hall. destruct Hall as [|x rest Hx Hrest]; [contradiction|].
  destruct rest as [|y rest]; simpl; [exact Hx|].
  apply truthy_app. exact Hx.
Qed.

Lemma push_if_truthy_all (tags : Tags) (key : string) (parts : list string) :
  Forall (fun x => JsString.truthy x = true) parts ->
  Forall (fun x => JsString.truthy x = true) (push_if_truthy tags key parts).
Proof.
  intros H. unfold push_if_truthy.
  destruct (tags key) as [v|]; [|exact H].
  destruct (JsString.truthy v) eqn:E; [|exact H].
  apply Forall_app. split; [exact H|]. constructor; [exact E|constructor].
Qed.

Lemma push_if_truthy_absent (tags : Tags) (key : string) (parts : list string) :
  (tags key = None \/ tags key = Some "") ->
  push_if_truthy tags key parts = parts.
Proof.
  unfold push_if_truthy. intros [->| ->]; reflexivity.
Qed.

Lemma first_category_closed (entries : list (string * list string))
      (shop amenity : option string) :
  In (first_category entries shop amenity) (map fst entries ++ ["Outros"]).
Proof.
  induction entries as [|[category tagList] rest IH]; simpl.
  - left. reflexivity.
  - destruct (includes tagList shop || includes tagList amenity).
    + left. reflexivity.
    + right. exact IH.
Qed.

Lemma element_name_truthy (element : Element) (n : string) :
  element_name element = Some n ->
  JsString.truthy n = true
  /\ exists tags, el_tags element = Some tags /\ tags "name" = Some n.
Proof.
  unfold element_name. destruct (el_tags element) as [tags|]; [|discriminate].
  destruct (tags "name") as [m|] eqn:E; [|discriminate].
  destruct (JsString.truthy m) eqn:T; [|discriminate].
  intros H. injection H as <-. split; [exact T|]. exists tags. tauto.
Qed.

(** Every place of the [try] path stems from an element that has a name. *)
Lemma process_elements_named (coordinates : Coordinates)
      (elements : list Element) (place : Place) :
  In place (process_elements coordinates elements) ->
  exists element n,
    In element elements /\ element_name element = Some n
    /\ place = place_of_element coordinates element.
Proof.
  unfold process_elements, slice. simpl skipn. intros H.
  apply firstn_member in H.
  apply (Permutation_in _ (Array_sort_perm _ _)) in H.
  apply in_map_iff in H. destruct H as [element [Heq Hin]].
  apply filter_In in Hin. destruct Hin as [Hin Hname].
  destruct (element_name element) as [n|] eqn:E; [|discriminate].
  exists element, n. split; [exact Hin|]. split; [exact E|].
  symmetry. exact Heq.
Qed.

End WellFormed.



Example formatAddress_example :
  Places.formatAddress tags_address = "Rua Augusta, São Paulo".
Proof. reflexivity. Qed.

(** X8: whatever the reply, every place [searchNearbyPlaces] returns has a
    non-empty name, a category from the fixed list, and a type equal to its
    category. *)
Theorem searchNearbyPlaces_places_well_formed
        (coordinates : Geolocation.Coordinates) (radiusKm : Q)
        (reply : Geolocation.Fetched (list Places.Element))
        (d : Places.Draws) :
  Forall (fun place =>
            JsString.truthy (Places.name place) = true
            /\ In (Places.category place) place_categories
            /\ Places.type place = Places.category place)
         (fst (Places.searchNearbyPlaces coordinates radiusKm reply d)).
Proof.
  apply Forall_forall. intros place Hin.
  assert (Hmock : In place (fst (Places.getMockPlaces coordinates d)) ->
                  JsString.truthy (Places.name place) = true
                  /\ In (Places.category place) place_categories
                  /\ Places.type place = Places.category place).
  { clear Hin. intros Hin. cbn in Hin.
    repeat (destruct Hin as [<-|Hin]; [cbn; tauto|]). destruct Hin. }
  destruct reply as [| |elements]; [exact (Hmock Hin)|exact (Hmock Hin)|].
  clear Hmock.
  change (In place (Places.process_elements coordinates elements)) in Hin.
  apply process_elements_named in Hin.
  destruct Hin as (element & n & _ & Hname & ->).
  destruct (element_name_truthy _ _ Hname) as [Ht [tags [Htags Hn]]].
  unfold Places.place_of_element. rewrite Htags.
  cbn [Places.name Places.category Places.type]. rewrite Hn.
  split; [exact Ht|]. split; [|reflexivity].
  unfold Places.getCategoryFromTags.
  pose proof (first_category_closed Places.CATEGORY_TAGS
                (tags "shop") (tags "amenity")) as H.
  cbn [map fst app Places.CATEGORY_TAGS] in H. exact H.
Qed.

(* ================================================================== *)
(** * places.ts: which places the search keeps *)

Section Nearest.

Import Places.

Lemma by_distance_trans : Relations_1.Transitive by_distance.
Proof.
  intros a b c Hab Hbc. unfold by_distance in *. Lqa.lra.
Qed.

Lemma StronglySorted_split {A} (R : A -> A -> Prop) (l1 l2 : list A) :
  StronglySorted R (l1 ++ l2) ->
  forall x y, In x l1 -> In y l2 -> R x y.
Proof.
  induction l1 as [|a l1 IH]; intros H x y Hx Hy; [destruct Hx|].
  simpl in H. inversion H as [|a' l' Hs Hall]; subst.
  destruct Hx as [<-|Hx].
  - apply (proj1 (Forall_forall _ _) Hall). apply in_or_app. right. exact Hy.
  - apply IH; assumption.
Qed.

Lemma process_elements_sorted_prefix (coordinates : Coordinates)
      (elements : list Element) :
  let sorted := Array_sort distance_order (named_places coordinates elements) in
  process_elements coordinates elements = firstn 20 sorted
  /\ StronglySorted by_distance sorted
  /\ Permutation sorted (named_places coordinates elements).
Proof.
  intros sorted. split; [reflexivity|]. split.
  - apply (Sorted_StronglySorted by_distance_trans).
    apply Array_sort_sorted.
  - apply Array_sort_perm.
Qed.

End Nearest.

(** X9: on a reply that parses, [searchNearbyPlaces] keeps the nearest
    named elements: the places it returns together with the ones it drops
    are all the named elements of the reply, no dropped place is nearer
    than a returned one, the number returned is the smaller of 20 and the
    number of named elements, and nothing is dropped when there are at
    most 20. *)
Theorem searchNearbyPlaces_keeps_nearest
        (coordinates : Geolocation.Coordinates) (radiusKm : Q)
        (elements : list Places.Element) (d : Places.Draws) :
  let places :=
    fst (Places.searchNearbyPlaces coordinates radiusKm
           (Geolocation.Body elements) d) in
  let named := named_places coordinates elements in
  exists dropped,
    Permutation (places ++ dropped) named
    /\ (forall p q, In p places -> In q dropped ->
                    Places.distance p <= Places.distance q)
    /\ List.length places = Nat.min 20 (List.length named)
    /\ ((List.length named <= 20)%nat -> dropped = []).
Proof.
  intros places named.
  destruct (process_elements_sorted_prefix coordinates elements)
    as [Hres [Hsorted Hperm]].
  set (sorted := Places.Array_sort distance_order
                   (named_places coordinates elements)) in *.
  change places with (Places.process_elements coordinates elements).
  rewrite Hres. exists (skipn 20 sorted).
  split; [rewrite firstn_skipn; exact Hperm|].
  split.
  - rewrite <- (firstn_skipn 20 sorted) in Hsorted.
    apply (StronglySorted_split _ _ _ Hsorted).
  - split.
    + rewrite length_firstn. rewrite (Permutation_length Hperm). reflexivity.
    + intros Hlen. apply skipn_all2.
      rewrite (Permutation_length Hperm). exact Hlen.
Qed.

Lemma searchNearbyPlaces_keeps_nearest_witness :
  exists dropped,
    Permutation
      (fst (Places.searchNearbyPlaces sao_paulo 5
              (Geolocation.Body [element_example]) draws_zero) ++ dropped)
      (named_places sao_paulo [element_example])
    /\ dropped = [].
Proof.
  destruct (searchNearbyPlaces_keeps_nearest sao_paulo 5 [element_example]
              draws_zero) as [dropped [Hperm [_ [_ Hnone]]]].
  exists dropped. split; [exact Hperm|].
  apply Hnone. cbn. lia.
Defined.



(* ================================================================== *)
(** * places.ts: the products of one store *)

Section StoreProducts.

Import Places.

Lemma map_indexed_project {A B C} (f : A -> nat -> Rand B) (g : B -> C)
      (h : A -> nat -> C) :
  (forall x i d, g (fst (f x i d)) = h x i) ->
  forall xs i d,
    map g (fst (map_indexed f i xs d)) = map_with_index h i xs.
Proof.
  intros Hf xs. induction xs as [|x xs IH]; intros i d; simpl.
  - reflexivity.
  - unfold bind. specialize (Hf x i d).
    destruct (f x i d) as [y d1]. simpl in Hf.
    specialize (IH (S i) d1).
    destruct (map_indexed f (S i) xs d1) as [ys d2]. simpl in IH.
    simpl. rewrite Hf, IH. reflexivity.
Qed.

Lemma map_with_index_item {A B} (h : A -> B) (xs : list A) :
  forall i, map_with_index (fun x _ => h x) i xs = map h xs.
Proof.
  induction xs as [|x xs IH]; intros i; simpl; [reflexivity|].
  rewrite IH. reflexivity.
Qed.

Lemma map_with_index_position {A B} (h : nat -> B) (xs : list A) :
  forall i, map_with_index (fun _ k => h k) i xs
            = map h (seq i (List.length xs)).
Proof.
  induction xs as [|x xs IH]; intros i; simpl; [reflexivity|].
  rewrite IH. reflexivity.
Qed.

Lemma string_app_cancel (s a b : string) : s ++ a = s ++ b -> a = b.
Proof.
  induction s as [|c s IH]; simpl; intros H; [exact H|].
  injection H as H. apply IH. exact H.
Qed.

Lemma of_nat_injective (n m : nat) :
  JsString.of_nat n = JsString.of_nat m -> n = m.
Proof.
  unfold JsString.of_nat. intros H.
  apply (f_equal NilEmpty.uint_of_string) in H.
  rewrite !NilEmpty.usu in H. injection H as H.
  apply (f_equal Nat.of_uint) in H.
  rewrite !DecimalNat.Unsigned.of_to in H. exact H.
Qed.

Lemma distinctb_NoDup (l : list string) : distinctb l = true -> NoDup l.
Proof.
  induction l as [|x l IH]; simpl; intros H; [constructor|].
  apply andb_prop in H. destruct H as [Hx Hl].
  constructor; [|apply IH; exact Hl].
  intros Hin. apply negb_true_iff in Hx.
  assert (Ht : existsb (String.eqb x) l = true).
  { apply existsb_exists. exists x. split; [exact Hin|apply String.eqb_refl]. }
  congruence.
Qed.

Lemma products_for_distinct (t : string) :
  NoDup (map t_name (products_for t)).
Proof.
  apply distinctb_NoDup.
  unfold products_for, productsByCategory, JsObject.get.
  repeat match goal with
         | |- context [if ?b then _ else _] => destruct b
         end; vm_compute; reflexivity.
Qed.

Lemma map_injective_NoDup {A B} (f : A -> B) (l : list A) :
  (forall a b, f a = f b -> a = b) -> NoDup l -> NoDup (map f l).
Proof.
  intros Hf H. induction H as [|x l Hx Hl IH]; simpl; constructor.
  - intros Hin. apply in_map_iff in Hin. destruct Hin as [y [Hy Hin]].
    apply Hf in Hy. subst y. contradiction.
  - exact IH.
Qed.

Lemma firstn_NoDup {A} (n : nat) (l : list A) : NoDup l -> NoDup (firstn n l).
Proof.
  intros H. revert n. induction H as [|x l Hx Hl IH]; intros n.
  - rewrite firstn_nil. constructor.
  - destruct n as [|n]; simpl; [constructor|].
    constructor; [|apply IH].
    intros Hin. apply Hx. apply (firstn_member _ _ _ Hin).
Qed.

Variable Number_toString : Q -> string.
Variable engine_sort : list TableEntry -> Draws -> list TableEntry * nat.

Lemma generated_names (place : Place) (d : Draws) :
  exists n,
    map p_name
        (fst (generateRealisticProducts Number_toString engine_sort place d))
    = map t_name
          (firstn n (fst (engine_sort (products_for (type place))
                                      (advance 1 d)))).
Proof.
  destruct (generateRealisticProducts_unfold Number_toString engine_sort place d)
    as (selected & d' & Hsel & _ & ->).
  exists (Z.to_nat (3 + Math_floor (d 0%nat * 3))).
  rewrite (map_indexed_project _ p_name (fun x _ => t_name x));
    [|intros; reflexivity].
  rewrite map_with_index_item, Hsel. unfold slice.
  rewrite Nat.sub_0_r. reflexivity.
Qed.

Lemma generated_ids (place : Place) (d : Draws) :
  let result :=
    fst (generateRealisticProducts Number_toString engine_sort place d) in
  map p_id result
  = map (fun k => id place ++ "-" ++ JsString.of_nat k)
        (seq 0 (List.length result)).
Proof.
  intros result. unfold result.
  destruct (generateRealisticProducts_unfold Number_toString engine_sort place d)
    as (selected & d' & _ & _ & ->).
  assert (Hlen : List.length
                   (fst (map_indexed
                           (fun product index =>
                              r <- Math_random ;;
                              ret {| p_id := id place ++ "-" ++ JsString.of_nat index;
                                     p_name := t_name product;
                                     price :=
                                       inject_Z
                                         (Math_round
                                            (basePrice product
                                             * ((85 # 100) + r * (4 # 10)) * 100))
                                       / 100;
                                     store := name place;
                                     p_distance :=
                                       Number_toString (distance place) ++ " km";
                                     p_category := type place;
                                     source := None;
                                     lastUpdated := None;
                                     confidence := None;
                                     isReal := Some false |})
                           0%nat selected d'))
                 = List.length selected).
  { match goal with
    | |- List.length (fst (map_indexed ?f _ _ _)) = _ =>
        destruct (map_indexed_Forall2 f (fun _ _ => True) (fun _ => True))
          with (xs := selected) (i := 0%nat) (d := d') as [HF _];
        [intros; split; exact I|exact I|]
    end.
    symmetry. apply (Forall2_length HF). }
  rewrite Hlen.
  rewrite (map_indexed_project _ p_id
             (fun _ k => id place ++ "-" ++ JsString.of_nat k));
    [|intros; reflexivity].
  apply map_with_index_position.
Qed.

End StoreProducts.

(** X11: when the engine's sort returns a permutation of the table, the
    mock products of a store have pairwise distinct names and pairwise
    distinct ids; the id of the product at position k is the id of the
    place, a hyphen and k. *)
Theorem generateRealisticProducts_distinct
        (Number_toString : Q -> string)
        (engine_sort : list Places.TableEntry -> Places.Draws
                       -> list Places.TableEntry * nat)
        (place : Places.Place) (d : Places.Draws) :
  (forall products d0, Permutation (fst (engine_sort products d0)) products) ->
  let result :=
    fst (Places.generateRealisticProducts Number_toString engine_sort place d) in
  NoDup (map Places.p_name result)
  /\ NoDup (map Places.p_id result)
  /\ map Places.p_id result
     = map (fun k => Places.id place ++ "-" ++ JsString.of_nat k)
           (seq 0 (List.length result)).
Proof.
  intros Hperm result. split; [|split].
  - destruct (generated_names Number_toString engine_sort place d) as [n Hn].
    unfold result. rewrite Hn.
    rewrite <- firstn_map. apply firstn_NoDup.
    apply (Permutation_NoDup
             (l := map Places.t_name (Places.products_for (Places.type place)))).
    + apply Permutation_map. apply Permutation_sym. apply Hperm.
    + apply products_for_distinct.
  - unfold result. rewrite generated_ids.
    apply map_injective_NoDup; [|apply seq_NoDup].
    intros a b Hab.
    apply string_app_cancel in Hab. apply string_app_cancel in Hab.
    apply of_nat_injective. exact Hab.
  - apply generated_ids.
Qed.

Lemma generateRealisticProducts_distinct_witness :
  NoDup (map Places.p_name
           (fst (Places.generateRealisticProducts toString_one_decimal
                   Places.insertion_engine_sort cafe_aroma draws_half))).
Proof.
  apply (generateRealisticProducts_distinct toString_one_decimal
           Places.insertion_engine_sort cafe_aroma draws_half
           insertion_engine_sort_perm).
Defined.

(* ================================================================== *)
(** * places.ts: the stores of a search *)

Section Stores.

Import Places.

Variable Number_toString : Q -> string.
Variable engine_sort : list TableEntry -> Draws -> list TableEntry * nat.

Lemma generated_all_mock (place : Place) (d : Draws) :
  Forall (fun p => isReal p = Some false)
         (fst (generateRealisticProducts Number_toString engine_sort place d)).
Proof.
  apply Forall_forall. intros product Hin.
  apply (generated_from_place Number_toString engine_sort place d product Hin).
Qed.

Lemma generated_draws_valid (place : Place) (d : Draws) :
  valid_draws d ->
  valid_draws
    (snd (generateRealisticProducts Number_toString engine_sort place d)).
Proof.
  intros Hd.
  destruct (generateRealisticProducts_unfold Number_toString engine_sort place d)
    as (selected & d' & _ & Hd' & ->).
  match goal with
  | |- valid_draws (snd (map_indexed ?f _ _ _)) =>
      destruct (map_indexed_Forall2 f (fun _ _ => True) valid_draws)
        with (xs := selected) (i := 0%nat) (d := d') as [_ HI]
  end.
  - intros x i d0 Hd0. split; [exact I|].
    unfold bind, Math_random, ret. cbn [snd]. apply valid_advance. exact Hd0.
  - rewrite Hd'. apply valid_advance. apply valid_advance. exact Hd.
  - exact HI.
Qed.

Lemma Forall2_place_of (places : list Place) (stores : list StoreWithProducts)
      (P : StoreWithProducts -> Prop) :
  Forall2 (fun place store => place_of store = place /\ P store) places stores ->
  map place_of stores = places /\ Forall P stores.
Proof.
  induction 1 as [|place store places stores [Hp HP] HF [IHm IHf]]; simpl.
  - split; constructor.
  - rewrite Hp, IHm. split; [reflexivity|constructor; assumption].
Qed.

Lemma real_products_length (place : Place) (ps : list RealPriceData) :
  forall index, List.length (real_products Number_toString place index ps)
                = List.length ps.
Proof.
  induction ps as [|x ps IH]; intros index; simpl; [reflexivity|].
  rewrite IH. reflexivity.
Qed.

Lemma real_products_all_real (place : Place) (ps : list RealPriceData) :
  forall index,
    Forall (fun p => isReal p = Some true
                     /\ exists priceData,
                          In priceData ps
                          /\ confidence p = Some (rp_confidence priceData)
                          /\ price p = rp_price priceData
                          /\ p_name p = productName priceData)
           (real_products Number_toString place index ps).
Proof.
  induction ps as [|x ps IH]; intros index; simpl; constructor.
  - simpl. split; [reflexivity|]. exists x. repeat split. left. reflexivity.
  - apply (Forall_impl _ (P := fun p =>
             isReal p = Some true
             /\ exists priceData,
                  In priceData ps
                  /\ confidence p = Some (rp_confidence priceData)
                  /\ price p = rp_price priceData
                  /\ p_name p = productName priceData)); [|apply IH].
    intros p [Hr [pd [Hin H]]]. split; [exact Hr|].
    exists pd. split; [right; exact Hin|exact H].
Qed.

Variable fetchRealPricesWithAI : nat -> string -> string -> string -> AiResult.
Variable supply : nat -> Draws.

Lemma attach_batch_app (city : string) (l1 l2 : list Place) :
  forall position,
    attach_batch Number_toString engine_sort fetchRealPricesWithAI supply
      city position (l1 ++ l2)
    = (attach_batch Number_toString engine_sort fetchRealPricesWithAI supply
         city position l1
       ++ attach_batch Number_toString engine_sort fetchRealPricesWithAI supply
            city (position + List.length l1) l2)%list.
Proof.
  induction l1 as [|x l1 IH]; intros position; simpl.
  - rewrite Nat.add_0_r. reflexivity.
  - rewrite IH. replace (S position + List.length l1)%nat
      with (position + S (List.length l1))%nat by lia.
    reflexivity.
Qed.

(** The loop invariant: the stores collected so far are the first [i]
    places, each attached at its position in the input. *)
Lemma batch_loop_is_map (city : string) (places : list Place) :
  forall fuel i,
    (List.length places <= i + fuel * batchSize)%nat ->
    batch_loop Number_toString engine_sort fetchRealPricesWithAI supply
      fuel city places i
      (attach_batch Number_toString engine_sort fetchRealPricesWithAI supply
         city 0 (firstn i places))
    = attach_batch Number_toString engine_sort fetchRealPricesWithAI supply
        city 0 places.
Proof.
  unfold batchSize.
  induction fuel as [|fuel IH]; intros i Hfuel; simpl.
  - rewrite firstn_all2 by lia. reflexivity.
  - destruct (i <? List.length places)%nat eqn:E.
    + apply Nat.ltb_lt in E.
      rewrite <- (IH (i + batchSize)%nat) by (unfold batchSize; lia).
      f_equal. rewrite <- (firstn_then_slice batchSize places i).
      rewrite attach_batch_app. rewrite length_firstn.
      rewrite Nat.min_l by lia. reflexivity.
    + apply Nat.ltb_ge in E. rewrite firstn_all2 by lia. reflexivity.
Qed.

Lemma attach_batch_In (city : string) (batch : list Place)
      (store : StoreWithProducts) :
  forall position,
    In store (attach_batch Number_toString engine_sort fetchRealPricesWithAI
                supply city position batch) ->
    exists k place,
      nth_error batch k = Some place
      /\ store = attach Number_toString engine_sort fetchRealPricesWithAI
                   supply city (position + k) place.
Proof.
  induction batch as [|place rest IH]; intros position Hin; [destruct Hin|].
  destruct Hin as [<-|Hin].
  - exists 0%nat, place. rewrite Nat.add_0_r. split; reflexivity.
  - destruct (IH (S position) Hin) as [k [p [Hk Hs]]].
    exists (S k), p. split; [exact Hk|].
    replace (position + S k)%nat with (S position + k)%nat by lia. exact Hs.
Qed.

Lemma attach_batch_nth (city : string) (batch : list Place) :
  forall position k place,
    nth_error batch k = Some place ->
    In (attach Number_toString engine_sort fetchRealPricesWithAI supply
          city (position + k) place)
       (attach_batch Number_toString engine_sort fetchRealPricesWithAI supply
          city position batch).
Proof.
  induction batch as [|p rest IH]; intros position k place Hk.
  - destruct k; discriminate Hk.
  - destruct k as [|k]; simpl in Hk.
    + injection Hk as <-. rewrite Nat.add_0_r. left. reflexivity.
    + right. replace (position + S k)%nat with (S position + k)%nat by lia.
      apply IH. exact Hk.
Qed.

End Stores.

Section StoreShapes.

Import Places.

Variable Number_toString : Q -> string.
Variable engine_sort : list TableEntry -> Draws -> list TableEntry * nat.
Variable fetchRealPricesWithAI : nat -> string -> string -> string -> AiResult.
Variable supply : nat -> Draws.

Hypothesis engine_sort_perm :
  forall products d, Permutation (fst (engine_sort products d)) products.

Lemma generated_mock_store (place : Place) (d : Draws) :
  valid_draws d ->
  mock_store
    (spread place
       (fst (generateRealisticProducts Number_toString engine_sort place d))
       None).
Proof.
  intros Hd. unfold mock_store. cbn [products socialMedia spread].
  split; [apply generated_count; assumption|].
  split; [reflexivity|apply generated_all_mock].
Qed.

Lemma attach_shape (city : string) (position : nat) (place : Place) :
  valid_draws (supply position) ->
  store_shape (fetchRealPricesWithAI position (name place) (type place) city)
              (attach Number_toString engine_sort fetchRealPricesWithAI supply
                 city position place).
Proof.
  intros Hd. unfold attach, store_shape.
  destruct (fetchRealPricesWithAI position (name place) (type place) city)
    as [| |data]; try (apply generated_mock_store; exact Hd).
  destruct (prices data) as [|x ps] eqn:E.
  - apply generated_mock_store. exact Hd.
  - cbn [List.length Nat.ltb Nat.leb]. unfold real_store.
    cbn [products socialMedia spread].
    split; [split; [discriminate|split; [discriminate|]]|].
    + apply (Forall_impl _ (P := fun p =>
               isReal p = Some true
               /\ exists priceData,
                    In priceData (x :: ps)
                    /\ confidence p = Some (rp_confidence priceData)
                    /\ price p = rp_price priceData
                    /\ p_name p = productName priceData));
        [intros p [H _]; exact H|apply real_products_all_real].
    + split; [apply real_products_length|reflexivity].
Qed.

End StoreShapes.



(** The loop over batches gives what one batch holding every place gives. *)
Lemma addRealProductsToPlaces_attach_batch
      (Number_toString : Q -> string)
      (engine_sort : list Places.TableEntry -> Places.Draws
                     -> list Places.TableEntry * nat)
      (fetchRealPricesWithAI : nat -> string -> string -> string
                               -> Places.AiResult)
      (supply : nat -> Places.Draws)
      (places : list Places.Place) (city : string) :
  Places.addRealProductsToPlaces Number_toString engine_sort
    fetchRealPricesWithAI supply places city
  = Places.attach_batch Number_toString engine_sort fetchRealPricesWithAI
      supply city 0 places.
Proof.
  unfold Places.addRealProductsToPlaces.
  apply (batch_loop_is_map Number_toString engine_sort fetchRealPricesWithAI
           supply city places (List.length places) 0).
  unfold Places.batchSize. lia.
Qed.

(** The store at a position is built from the place at that position. *)
Lemma addRealProductsToPlaces_nth_error
      (Number_toString : Q -> string)
      (engine_sort : list Places.TableEntry -> Places.Draws
                     -> list Places.TableEntry * nat)
      (fetchRealPricesWithAI : nat -> string -> string -> string
                               -> Places.AiResult)
      (supply : nat -> Places.Draws)
      (places : list Places.Place) (city : string) (k : nat) :
  nth_error
    (Places.addRealProductsToPlaces Number_toString engine_sort
       fetchRealPricesWithAI supply places city) k
  = option_map
      (Places.attach Number_toString engine_sort fetchRealPricesWithAI
         supply city k)
      (nth_error places k).
Proof.
  rewrite addRealProductsToPlaces_attach_batch.
  assert (G : forall l p j,
             nth_error (Places.attach_batch Number_toString engine_sort
                          fetchRealPricesWithAI supply city p l) j
             = option_map
                 (Places.attach Number_toString engine_sort
                    fetchRealPricesWithAI supply city (p + j))
                 (nth_error l j)).
  { induction l as [|x l IH]; intros p j.
    - destruct j; reflexivity.
    - destruct j as [|j]; simpl.
      + rewrite Nat.add_0_r. reflexivity.
      + rewrite IH. replace (S p + j)%nat with (p + S j)%nat by lia.
        reflexivity. }
  apply (G places 0%nat k).
Qed.

(** X13: the batches of 5 are not observable in the result of
    [addRealProductsToPlaces]: it is the list one batch holding every place
    would give, the store at position k being built from the place at
    position k and the price lookup made for it. *)
Theorem addRealProductsToPlaces_one_batch
        (Number_toString : Q -> string)
        (engine_sort : list Places.TableEntry -> Places.Draws
                       -> list Places.TableEntry * nat)
        (fetchRealPricesWithAI : nat -> string -> string -> string
                                 -> Places.AiResult)
        (supply : nat -> Places.Draws)
        (places : list Places.Place) (city : string) :
  let stores :=
    Places.addRealProductsToPlaces Number_toString engine_sort
      fetchRealPricesWithAI supply places city in
  stores
  = Places.attach_batch Number_toString engine_sort fetchRealPricesWithAI
      supply city 0 places
  /\ forall k,
       nth_error stores k
       = option_map
           (Places.attach Number_toString engine_sort fetchRealPricesWithAI
              supply city k)
           (nth_error places k).
Proof.
  intros stores. split.
  - apply addRealProductsToPlaces_attach_batch.
  - intros k. apply addRealProductsToPlaces_nth_error.
Qed.



(* ================================================================== *)
(** * page.tsx: what the page reads off the stores *)

Section PageFacts.

Import Places.

Lemma real_products_is_real (Number_toString : Q -> string) (place : Place)
      (ps : list RealPriceData) :
  forall index,
    existsb Page.is_real (real_products Number_toString place index ps)
    = match ps with [] => false | _ :: _ => true end.
Proof.
  destruct ps as [|x ps]; intros index; reflexivity.
Qed.

Lemma attach_has_real (Number_toString : Q -> string)
      (engine_sort : list TableEntry -> Draws -> list TableEntry * nat)
      (fetchRealPricesWithAI : nat -> string -> string -> string -> AiResult)
      (supply : nat -> Draws) (city : string) (position : nat) (place : Place) :
  existsb Page.is_real
          (products (attach Number_toString engine_sort fetchRealPricesWithAI
                       supply city position place)) = true
  <-> exists data,
        fetchRealPricesWithAI position (name place) (type place) city
        = AiData data
        /\ prices data <> [].
Proof.
  assert (Hmock : forall d,
             existsb Page.is_real
                     (fst (generateRealisticProducts Number_toString engine_sort
                             place d)) = false).
  { intros d.
    destruct (existsb _ _) eqn:E; [|reflexivity].
    apply existsb_exists in E. destruct E as [p [Hin Hr]].
    pose proof (proj1 (Forall_forall _ _)
                  (generated_all_mock Number_toString engine_sort place d)
                  p Hin) as Hf.
    unfold Page.is_real in Hr. rewrite Hf in Hr. discriminate Hr. }
  unfold attach.
  destruct (fetchRealPricesWithAI position (name place) (type place) city)
    as [| |data]; cbn [products spread].
  - rewrite Hmock. split; [discriminate|intros [data [H _]]; discriminate H].
  - rewrite Hmock. split; [discriminate|intros [data [H _]]; discriminate H].
  - destruct (prices data) as [|x ps] eqn:E; cbn [List.length Nat.ltb Nat.leb
      products spread].
    + rewrite Hmock. split; [discriminate|].
      intros [data' [H Hne]]. injection H as <-. congruence.
    + split; [|reflexivity]. intros _. exists data.
      split; [reflexivity|]. rewrite E. discriminate.
Qed.

(** The lowest of a non-empty list of prices is one of them. *)
Lemma Math_min_spec (xs : list Q) :
  forall x, In (Page.Math_min x xs) (x :: xs)
            /\ forall y, In y (x :: xs) -> Page.Math_min x xs <= y.
Proof.
  unfold Page.Math_min.
  induction xs as [|z xs IH]; intros x; simpl.
  - split; [left; reflexivity|].
    intros y [<-|[]]. apply Qle_refl.
  - destruct (Qle_bool x z) eqn:E.
    + destruct (IH x) as [Hin Hle]. split.
      * destruct Hin as [Hx|Hin]; [left; exact Hx|right; right; exact Hin].
      * intros y [<-|[<-|Hy]].
        -- apply Hle. left. reflexivity.
        -- apply Qle_trans with x; [apply Hle; left; reflexivity|].
           apply Qle_bool_iff. exact E.
        -- apply Hle. right. exact Hy.
    + destruct (IH z) as [Hin Hle].
      assert (Hzx : z <= x).
      { destruct (Qlt_le_dec z x) as [Hlt|Hge]; [apply Qlt_le_weak; exact Hlt|].
        apply Qle_bool_iff in Hge. congruence. }
      split.
      * right. exact Hin.
      * intros y [<-|[<-|Hy]].
        -- apply Qle_trans with z; [apply Hle; left; reflexivity|exact Hzx].
        -- apply Hle. left. reflexivity.
        -- apply Hle. right. exact Hy.
Qed.

End PageFacts.

(** A store with a real price comes from a lookup that found prices. *)
Lemma hasRealPrices_attach_batch
      (Number_toString : Q -> string)
      (engine_sort : list Places.TableEntry -> Places.Draws
                     -> list Places.TableEntry * nat)
      (fetchRealPricesWithAI : nat -> string -> string -> string
                               -> Places.AiResult)
      (supply : nat -> Places.Draws)
      (places : list Places.Place) (city : string) :
  Page.hasRealPrices
    (Places.attach_batch Number_toString engine_sort fetchRealPricesWithAI
       supply city 0 places) = true
  <-> lookup_found fetchRealPricesWithAI places city.
Proof.
  unfold Page.hasRealPrices, lookup_found. split.
  - intros H. apply existsb_exists in H. destruct H as [store [Hin Hreal]].
    apply attach_batch_In in Hin. destruct Hin as [k [place [Hk ->]]].
    apply attach_has_real in Hreal. destruct Hreal as [data [Hd Hne]].
    exists k, place, data. repeat split; assumption.
  - intros [k [place [data [Hk [Hd Hne]]]]].
    apply existsb_exists.
    exists (Places.attach Number_toString engine_sort fetchRealPricesWithAI
              supply city (0 + k) place).
    split; [apply attach_batch_nth; exact Hk|].
    apply attach_has_real. exists data. split; assumption.
Qed.

(** X15: the page sees a real price among the stores of
    [addRealProductsToPlaces] exactly when the price lookup of some place
    of the search returned at least one price. *)
Theorem hasRealPrices_iff_lookup_found
        (Number_toString : Q -> string)
        (engine_sort : list Places.TableEntry -> Places.Draws
                       -> list Places.TableEntry * nat)
        (fetchRealPricesWithAI : nat -> string -> string -> string
                                 -> Places.AiResult)
        (supply : nat -> Places.Draws)
        (places : list Places.Place) (city : string) :
  Page.hasRealPrices
    (Places.addRealProductsToPlaces Number_toString engine_sort
       fetchRealPricesWithAI supply places city) = true
  <-> lookup_found fetchRealPricesWithAI places city.
Proof.
  rewrite addRealProductsToPlaces_attach_batch.
  apply hasRealPrices_attach_batch.
Qed.

Lemma hasRealPrices_iff_lookup_found_witness :
  Page.hasRealPrices stores_example = true.
Proof.
  apply (hasRealPrices_iff_lookup_found toString_one_decimal
           Places.insertion_engine_sort ai_example (fun _ => draws_eighth)
           (fst (Places.getMockPlaces sao_paulo draws_half)) "São Paulo").
  exists 0%nat. eexists. eexists.
  split; [reflexivity|]. split; [reflexivity|discriminate].
Defined.

(** X16: [findBestPrice] returns null exactly when no store lists a product
    of that name; otherwise it returns the price of one of the products of
    that name, and no product of that name in any store is cheaper. *)
Theorem findBestPrice_lowest
        (searchResults : list Places.StoreWithProducts) (productName : string) :
  (Page.findBestPrice searchResults productName = None
   <-> forall p, In p (all_products searchResults) ->
                 Places.p_name p <> productName)
  /\ (forall best,
         Page.findBestPrice searchResults productName = Some best ->
         (exists p, In p (all_products searchResults)
                    /\ Places.p_name p = productName
                    /\ Places.price p = best)
         /\ forall p, In p (all_products searchResults) ->
                      Places.p_name p = productName ->
                      best <= Places.price p).
Proof.
  unfold Page.findBestPrice, all_products.
  set (same := filter (fun p => String.eqb (Places.p_name p) productName)
                      (flat_map Places.products searchResults)).
  assert (Hsame : forall p, In p same
                            <-> In p (flat_map Places.products searchResults)
                                /\ Places.p_name p = productName).
  { intros p. unfold same. rewrite filter_In, String.eqb_eq. reflexivity. }
  destruct (map Places.price same) as [|x xs] eqn:E.
  - assert (Hnil : same = []) by (destruct same; [reflexivity|discriminate E]).
    split.
    + split; [|reflexivity]. intros _ p Hin Hname.
      assert (Hp : In p same) by (apply Hsame; tauto).
      rewrite Hnil in Hp. destruct Hp.
    + intros best H. discriminate H.
  - split.
    + split; [discriminate|]. intros H. exfalso.
      destruct same as [|p rest]; [discriminate E|].
      apply (H p); apply (Hsame p); left; reflexivity.
    + intros best H. injection H as <-.
      destruct (Math_min_spec xs x) as [Hin Hle]. rewrite <- E in Hin, Hle.
      split.
      * apply in_map_iff in Hin. destruct Hin as [p [Hp Hps]].
        apply Hsame in Hps. exists p. tauto.
      * intros p Hp Hname. apply Hle. apply in_map. apply Hsame. tauto.
Qed.

Lemma findBestPrice_lowest_witness :
  exists p, In p (all_products stores_example)
            /\ Places.p_name p = "Pão de Queijo"
            /\ Places.price p = 495 # 100.
Proof.
  apply (proj2 (findBestPrice_lowest stores_example "Pão de Queijo")
           (495 # 100)).
  vm_compute. reflexivity.
Defined.

(* ================================================================== *)
(** * ai-price-scraper.ts *)

Lemma high_or_medium_trusted (price : Places.RealPriceData) :
  AiPriceScraper.high_or_medium price = true <-> trusted price.
Proof.
  unfold AiPriceScraper.high_or_medium, trusted.
  destruct (Places.rp_confidence price); split; intros H;
    try reflexivity; try tauto; try discriminate;
    destruct H as [H|H]; discriminate H.
Qed.

Section Scraper.

Variable configured : bool.
Variable store_completion :
  string -> string -> string
  -> AiPriceScraper.Completion Places.StoreWithRealPrices.
Variable now : string.

Lemma fetchRealPricesWithAI_some (storeName storeType city : string)
      (data : Places.StoreWithRealPrices) :
  snd (AiPriceScraper.fetchRealPricesWithAI configured store_completion now
         storeName storeType city) = Some data ->
  configured = true
  /\ exists raw,
       store_completion storeName storeType city = AiPriceScraper.Parsed raw
       /\ Places.prices data
          = filter AiPriceScraper.high_or_medium (Places.prices raw)
       /\ Places.rp_socialMedia data = Places.rp_socialMedia raw
       /\ Places.lastScraped data = now.
Proof.
  unfold AiPriceScraper.fetchRealPricesWithAI.
  destruct configured; [|discriminate]. cbn [negb].
  destruct (store_completion storeName storeType city) as [| | |raw];
    try discriminate.
  cbn [snd]. intros H. injection H as <-.
  split; [reflexivity|]. exists raw. repeat split.
Qed.

Lemma settled_values_spec (stores : list (string * string)) (city : string) :
  (List.length (AiPriceScraper.settled_values configured store_completion now
                  stores city) <= List.length stores)%nat
  /\ Forall (fun value => Forall trusted (Places.prices value))
            (AiPriceScraper.settled_values configured store_completion now
               stores city).
Proof.
  induction stores as [|[name type] rest [IHl IHf]]; simpl.
  - split; [lia|constructor].
  - destruct (snd (AiPriceScraper.fetchRealPricesWithAI configured
                     store_completion now name type city)) as [value|] eqn:E.
    + split; [simpl; lia|]. constructor; [|exact IHf].
      apply fetchRealPricesWithAI_some in E.
      destruct E as [_ [raw [_ [Hp _]]]]. rewrite Hp.
      apply Forall_forall. intros price Hin. apply filter_In in Hin.
      apply high_or_medium_trusted. tauto.
    + split; [lia|exact IHf].
Qed.

End Scraper.

(** X17: [fetchRealPricesWithAI] sends at most one request, and none when
    no key is configured, in which case it returns null.  When it returns
    data, the prices are those prices of the model's answer whose
    confidence is high or medium, in the order of the answer: a price of
    low confidence never passes, and none of the others is lost. *)
Theorem fetchRealPricesWithAI_filters_confidence
        (configured : bool)
        (store_completion : string -> string -> string
                            -> AiPriceScraper.Completion
                                 Places.StoreWithRealPrices)
        (now storeName storeType city : string) :
  let run :=
    AiPriceScraper.fetchRealPricesWithAI configured store_completion now
      storeName storeType city in
  (fst run <= 1)%nat
  /\ (configured = false -> run = (0%nat, None))
  /\ (forall data,
         snd run = Some data ->
         exists raw,
           store_completion storeName storeType city
           = AiPriceScraper.Parsed raw
           /\ (forall price,
                  In price (Places.prices data)
                  <-> In price (Places.prices raw) /\ trusted price)
           /\ Places.prices data
              = filter AiPriceScraper.high_or_medium (Places.prices raw)).
Proof.
  intros run. split; [|split].
  - unfold run, AiPriceScraper.fetchRealPricesWithAI.
    destruct configured; cbn [negb]; [|simpl; lia].
    destruct (store_completion storeName storeType city); simpl; lia.
  - intros ->. reflexivity.
  - intros data H. apply fetchRealPricesWithAI_some in H.
    destruct H as [_ [raw [Hraw [Hp _]]]]. exists raw.
    split; [exact Hraw|]. split; [|exact Hp].
    intros price. rewrite Hp. split.
    + intros Hin. apply filter_In in Hin. destruct Hin as [Hin Hk].
      split; [exact Hin|apply high_or_medium_trusted; exact Hk].
    + intros [Hin Ht]. apply filter_In.
      split; [exact Hin|apply high_or_medium_trusted; exact Ht].
Qed.

Lemma fetchRealPricesWithAI_filters_confidence_witness :
  AiPriceScraper.fetchRealPricesWithAI false completion_example "agora"
    "Café Aroma" "Cafeteria" "São Paulo" = (0%nat, None)
  /\ option_map (fun data => map Places.productName (Places.prices data))
       (snd (AiPriceScraper.fetchRealPricesWithAI true completion_example
               "agora" "Café Aroma" "Cafeteria" "São Paulo"))
     = Some ["Café Expresso"; "Pão de Queijo"].
Proof.
  split.
  - apply (fetchRealPricesWithAI_filters_confidence false completion_example
             "agora" "Café Aroma" "Cafeteria" "São Paulo").
    reflexivity.
  - destruct (proj2 (proj2 (fetchRealPricesWithAI_filters_confidence true
                              completion_example "agora" "Café Aroma"
                              "Cafeteria" "São Paulo"))
                    _ eq_refl) as [raw [Hraw [_ Hp]]].
    injection Hraw as <-. reflexivity.
Defined.

(** X18: [fetchMultipleStoresPrices] returns at most one entry per store,
    and none without a key; neither it nor [searchSpecificProductPrices]
    ever returns a price of low confidence. *)
Theorem scraper_lists_are_trusted
        (configured : bool)
        (store_completion : string -> string -> string
                            -> AiPriceScraper.Completion
                                 Places.StoreWithRealPrices)
        (product_completion : string -> list string -> string
                              -> AiPriceScraper.Completion
                                   (list Places.RealPriceData))
        (now : string) (stores : list (string * string))
        (productName : string) (storeNames : list string) (city : string) :
  let values :=
    AiPriceScraper.fetchMultipleStoresPrices configured store_completion now
      stores city in
  let found :=
    AiPriceScraper.searchSpecificProductPrices configured product_completion
      productName storeNames city in
  (List.length values <= List.length stores)%nat
  /\ Forall (fun value => Forall trusted (Places.prices value)) values
  /\ Forall trusted found
  /\ (configured = false -> values = [] /\ found = []).
Proof.
  intros values found. unfold values, found,
    AiPriceScraper.fetchMultipleStoresPrices,
    AiPriceScraper.searchSpecificProductPrices.
  destruct configured; cbn [negb].
  - destruct (settled_values_spec true store_completion now stores city)
      as [Hl Hf].
    split; [exact Hl|]. split; [exact Hf|]. split; [|discriminate].
    destruct (product_completion productName storeNames city) as [| | |prices];
      try constructor.
    apply Forall_forall. intros price Hin. apply filter_In in Hin.
    apply high_or_medium_trusted. tauto.
  - split; [simpl; lia|]. repeat split; constructor.
Qed.

Lemma scraper_lists_are_trusted_witness :
  AiPriceScraper.fetchMultipleStoresPrices false completion_example "agora"
    [("Café Aroma", "Cafeteria")] "São Paulo" = [].
Proof.
  apply (scraper_lists_are_trusted false completion_example
           product_completion_example "agora" [("Café Aroma", "Cafeteria")]
           "Café Expresso" ["Café Aroma"] "São Paulo").
  reflexivity.
Defined.

(** X19: with [fetchRealPricesWithAI] as the price lookup, no product that
    [addRealProductsToPlaces] attaches carries the confidence low: a real
    product carries high or medium, a mock product carries none.  Without
    a configured key the page finds no real price. *)
Theorem addRealProductsToPlaces_never_low
        (Number_toString : Q -> string)
        (engine_sort : list Places.TableEntry -> Places.Draws
                       -> list Places.TableEntry * nat)
        (configured : bool)
        (store_completion : string -> string -> string
                            -> AiPriceScraper.Completion
                                 Places.StoreWithRealPrices)
        (now : string) (supply : nat -> Places.Draws)
        (places : list Places.Place) (city : string) :
  let stores :=
    Places.addRealProductsToPlaces Number_toString engine_sort
      (AiPriceScraper.as_lookup configured store_completion now)
      supply places city in
  Forall (fun product =>
            Places.confidence product <> Some Places.low
            /\ (Places.isReal product = Some false ->
                Places.confidence product = None))
         (all_products stores)
  /\ (configured = false -> Page.hasRealPrices stores = false).
Proof.
  intros stores. split.
  - apply Forall_forall. intros product Hin.
    unfold all_products in Hin. apply in_flat_map in Hin.
    destruct Hin as [store [Hs Hp]].
    unfold stores in Hs.
    rewrite addRealProductsToPlaces_attach_batch in Hs.
    apply attach_batch_In in Hs. destruct Hs as [k [place [_ ->]]].
    unfold Places.attach, AiPriceScraper.as_lookup in Hp.
    assert (Hmock : forall d,
               In product
                  (fst (Places.generateRealisticProducts Number_toString
                          engine_sort place d)) ->
               Places.confidence product <> Some Places.low
               /\ (Places.isReal product = Some false ->
                   Places.confidence product = None)).
    { intros d Hd.
      destruct (generated_from_place Number_toString engine_sort place d
                  product Hd) as (_ & _ & _ & _ & _ & _ & Hc).
      rewrite Hc. split; [discriminate|reflexivity]. }
    destruct (snd (AiPriceScraper.fetchRealPricesWithAI configured
                     store_completion now (Places.name place)
                     (Places.type place) city)) as [data|] eqn:E;
      [|exact (Hmock _ Hp)].
    destruct (0 <? List.length (Places.prices data))%nat;
      [|exact (Hmock _ Hp)].
    cbn [Places.products Places.spread] in Hp.
    pose proof (proj1 (Forall_forall _ _)
                  (real_products_all_real Number_toString place
                     (Places.prices data) 0) product Hp)
      as [Hreal [pd [Hpd [Hc _]]]].
    apply fetchRealPricesWithAI_some in E.
    destruct E as [_ [raw [_ [Hprices _]]]]. rewrite Hprices in Hpd.
    apply filter_In in Hpd. destruct Hpd as [_ Hkeep].
    apply high_or_medium_trusted in Hkeep.
    rewrite Hc. split.
    + intros H. injection H as H. destruct Hkeep as [Hk|Hk];
        rewrite Hk in H; discriminate H.
    + rewrite Hreal. discriminate.
  - intros ->.
    destruct (Page.hasRealPrices stores) eqn:E; [|reflexivity].
    unfold stores in E. rewrite addRealProductsToPlaces_attach_batch in E.
    apply hasRealPrices_attach_batch in E.
    destruct E as [k [place [data [_ [H _]]]]]. discriminate H.
Qed.

Lemma addRealProductsToPlaces_never_low_witness :
  Page.hasRealPrices
    (Places.addRealProductsToPlaces toString_one_decimal
       Places.insertion_engine_sort
       (AiPriceScraper.as_lookup false completion_example "agora")
       (fun _ => draws_eighth)
       (fst (Places.getMockPlaces sao_paulo draws_half)) "São Paulo") = false.
Proof.
  apply (addRealProductsToPlaces_never_low toString_one_decimal
           Places.insertion_engine_sort false completion_example "agora"
           (fun _ => draws_eighth)
           (fst (Places.getMockPlaces sao_paulo draws_half)) "São Paulo").
  reflexivity.
Defined.

(* ================================================================== *)
(** * google-places.ts *)

Section Google.

Import GooglePlaces.

Lemma mapGoogleTypeToOurType_closed (googleType : string) :
  In (mapGoogleTypeToOurType googleType) google_categories.
Proof.
  unfold mapGoogleTypeToOurType, JsObject.get, google_categories.
  repeat match goal with
         | |- context [if ?b then _ else _] => destruct b
         end; simpl; tauto.
Qed.

Lemma nil_or_not {A} (l : list A) : l = [] \/ l <> [].
Proof.
  destruct l; [left; reflexivity|right; discriminate].
Qed.

Lemma get_missing {V} (obj : list (string * V)) (key : string) :
  ~ In key (map fst obj) -> JsObject.get obj key = None.
Proof.
  induction obj as [|[k v] rest IH]; simpl; intros H; [reflexivity|].
  destruct (String.eqb k key) eqn:E.
  - apply String.eqb_eq in E. exfalso. apply H. left. exact E.
  - apply IH. intros Hin. apply H. right. exact Hin.
Qed.

Lemma type_round_trip (ourType : string) :
  mapGoogleTypeToOurType (mapToGooglePlaceType ourType) = ourType
  <-> In ourType round_trip_types.
Proof.
  destruct (in_dec string_dec ourType
              ["Mercado"; "Farmácia"; "Lanchonete"; "Cafeteria"; "Padaria";
               "Restaurante"; "Loja"; "all"]) as [Hin|Hout].
  - simpl in Hin. unfold round_trip_types.
    repeat (destruct Hin as [<-|Hin];
            [vm_compute; split;
             [intros H; first [discriminate H|tauto]
             |intros H; first [reflexivity|intuition discriminate]]|]).
    destruct Hin.
  - unfold mapToGooglePlaceType. rewrite get_missing by exact Hout.
    change (mapGoogleTypeToOurType "establishment") with "Loja".
    unfold round_trip_types. split.
    + intros <-. exfalso. apply Hout. simpl. tauto.
    + intros Hin. exfalso. apply Hout. simpl in *. tauto.
Qed.

Variable apiKey : option string.
Variable nearby : Request -> Reply NearbyBody.

Lemma searchPlacesWithGoogle_places (coordinates : Geolocation.Coordinates)
      (type : string) (radius : Q) :
  snd (searchPlacesWithGoogle apiKey nearby coordinates type radius) <> [] ->
  exists key data raw,
    key_configured apiKey = Some key
    /\ nearby (NearbySearch (Geolocation.lat coordinates)
                            (Geolocation.lng coordinates) radius
                            (mapToGooglePlaceType type) key) = Json data
    /\ (status data = "OK" \/ status data = "ZERO_RESULTS")
    /\ results data = Some raw
    /\ snd (searchPlacesWithGoogle apiKey nearby coordinates type radius)
       = map (nearby_place key (mapToGooglePlaceType type)) raw.
Proof.
  unfold searchPlacesWithGoogle.
  destruct (key_configured apiKey) as [key|];
    [|intros H; exfalso; apply H; reflexivity].
  destruct (nearby _) as [|data] eqn:E;
    [intros H; exfalso; apply H; reflexivity|].
  assert (Hstatus : negb (String.eqb (status data) "OK")
                    && negb (String.eqb (status data) "ZERO_RESULTS") = false ->
                    status data = "OK" \/ status data = "ZERO_RESULTS").
  { destruct (String.eqb (status data) "OK") eqn:Eok.
    - intros _. left. apply String.eqb_eq. exact Eok.
    - destruct (String.eqb (status data) "ZERO_RESULTS") eqn:Ezero;
        [|discriminate].
      intros _. right. apply String.eqb_eq. exact Ezero. }
  destruct (negb (String.eqb (status data) "OK")
            && negb (String.eqb (status data) "ZERO_RESULTS"));
    [intros H; exfalso; apply H; reflexivity|].
  destruct (results data) as [[|x raw]|] eqn:Er;
    try (intros H; exfalso; apply H; reflexivity).
  intros _. exists key, data, (x :: raw).
  split; [reflexivity|]. split; [exact E|].
  split; [apply Hstatus; reflexivity|]. split; [exact Er|reflexivity].
Qed.

End Google.





(* ================================================================== *)
(** * page.tsx: the postal code in the search box *)

Section SearchBox.

Lemma string_length_app (a b : string) :
  String.length (a ++ b) = (String.length a + String.length b)%nat.
Proof.
  induction a as [|c a IH]; simpl; [reflexivity|]. rewrite IH. reflexivity.
Qed.

Lemma strip_non_digits_app (a b : string) :
  JsString.strip_non_digits (a ++ b)
  = JsString.strip_non_digits a ++ JsString.strip_non_digits b.
Proof.
  unfold JsString.strip_non_digits.
  induction a as [|c a IH]; simpl; [reflexivity|].
  destruct (JsString.is_digit c); simpl; rewrite IH; reflexivity.
Qed.

Lemma digits_then_spec (n : nat) :
  forall s rest,
    Page.digits_then n s = Some rest ->
    exists ds, s = ds ++ rest /\ String.length ds = n
               /\ JsString.forallb JsString.is_digit ds = true.
Proof.
  induction n as [|n IH]; intros s rest H; simpl in H.
  - injection H as <-. exists "". repeat split.
  - destruct s as [|c s]; [discriminate|].
    destruct (JsString.is_digit c) eqn:E; [|discriminate].
    destruct (IH s rest H) as [ds [-> [Hl Hd]]].
    exists (String c ds). simpl. rewrite E, Hl, Hd. repeat split.
Qed.

Lemma skip_hyphen_cases (s : string) :
  Page.skip_hyphen s = s \/ s = String "-"%char (Page.skip_hyphen s).
Proof.
  destruct s as [|c s]; [left; reflexivity|].
  destruct (Ascii.ascii_dec c "-"%char) as [->|Hc]; [right; reflexivity|].
  left. destruct c as [[] [] [] [] [] [] [] []]; try reflexivity.
  exfalso. apply Hc. reflexivity.
Qed.

Lemma isCEP_shape (s : string) :
  Page.isCEP s = true ->
  exists d5 d3,
    String.length d5 = 5%nat /\ String.length d3 = 3%nat
    /\ JsString.forallb JsString.is_digit d5 = true
    /\ JsString.forallb JsString.is_digit d3 = true
    /\ (s = d5 ++ d3 \/ s = d5 ++ "-" ++ d3).
Proof.
  unfold Page.isCEP. intros H.
  destruct (Page.digits_then 5 s) as [rest|] eqn:E5; [|discriminate].
  destruct (Page.digits_then 3 (Page.skip_hyphen rest)) as [[|c t]|] eqn:E3;
    try discriminate.
  apply digits_then_spec in E5. destruct E5 as [d5 [-> [H5 Hd5]]].
  apply digits_then_spec in E3. destruct E3 as [d3 [Hs [H3 Hd3]]].
  exists d5, d3. repeat split; try assumption.
  assert (Htail : Page.skip_hyphen rest = d3).
  { rewrite Hs. clear. induction d3; simpl; [reflexivity|]. f_equal. assumption. }
  destruct (skip_hyphen_cases rest) as [Hsame|Hhyphen].
  - left. rewrite <- Hsame, Htail. reflexivity.
  - right. rewrite Hhyphen, Htail. reflexivity.
Qed.

End SearchBox.

(** X22: every text the page takes for a postal code, five digits, an
    optional hyphen and three digits, passes the check of
    [getAddressFromCEP]: 8 digits remain, so the postal lookup is called,
    with exactly the digits the user typed.  Such a text has 8 or 9
    characters and also stops the city suggestions. *)
Theorem isCEP_reaches_lookup (s : string) :
  Page.isCEP s = true ->
  String.length (JsString.strip_non_digits s) = 8%nat
  /\ (String.length s = 8%nat \/ String.length s = 9%nat)
  /\ Page.isCEP_prefix s = true
  /\ forall viacep nominatim,
       exists rest,
         Geolocation.trace (Geolocation.getAddressFromCEP viacep nominatim s)
         = Geolocation.ViaCEP (JsString.strip_non_digits s) :: rest.
Proof.
  intros H.
  assert (H8 : String.length (JsString.strip_non_digits s) = 8%nat).
  { destruct (isCEP_shape s H) as (d5 & d3 & H5 & H3 & Hd5 & Hd3 & [->| ->]);
      rewrite !strip_non_digits_app,
        (strip_non_digits_fixes d5 Hd5), (strip_non_digits_fixes d3 Hd3);
      [|change (JsString.strip_non_digits "-") with ""];
      rewrite !string_length_app, H5, H3; reflexivity. }
  split; [exact H8|]. split; [|split].
  - destruct (isCEP_shape s H) as (d5 & d3 & H5 & H3 & _ & _ & [->| ->]);
      rewrite !string_length_app, H5, H3; [left|right]; reflexivity.
  - unfold Page.isCEP in H. unfold Page.isCEP_prefix.
    destruct (Page.digits_then 5 s) as [rest|]; [|discriminate].
    destruct (Page.digits_then 3 (Page.skip_hyphen rest)) as [[|c t]|] eqn:E3;
      try discriminate.
    apply digits_then_spec in E3. destruct E3 as [d3 [Hs [H3 Hd3]]].
    assert (Htail : Page.skip_hyphen rest = d3).
    { rewrite Hs. clear. induction d3; simpl; [reflexivity|]. f_equal. assumption. }
    rewrite Htail, Hd3, H3. reflexivity.
  - intros viacep nominatim.
    destruct (getAddressFromCEP_looks_up viacep nominatim s H8) as [rest [Ht _]].
    exists rest. exact Ht.
Qed.

Lemma isCEP_reaches_lookup_witness :
  String.length (JsString.strip_non_digits "01310-100") = 8%nat
  /\ Page.isCEP "0131-0100" = false.
Proof.
  split; [|reflexivity].
  apply (isCEP_reaches_lookup "01310-100"). reflexivity.
Defined.

(* ================================================================== *)
(** * city-autocomplete.ts *)

Section Cities.

Import CityAutocomplete.

Variable normalizeString : string -> string.
Variable municipios : Geolocation.Fetched (list IBGECity).

Lemma filter_to_option (q : string) (data : list IBGECity) :
  filter (fun city => JsString.includes (normalizeString (name city)) q)
         (map to_option data)
  = map to_option
        (filter (fun city => JsString.includes (normalizeString (nome city)) q)
                data).
Proof.
  induction data as [|city data IH]; simpl; [reflexivity|].
  destruct (JsString.includes (normalizeString (nome city)) q); simpl;
    rewrite IH; reflexivity.
Qed.

Lemma slice_to_option (n : nat) (data : list IBGECity) :
  Places.slice 0 n (map to_option data)
  = map to_option (Places.slice 0 n data).
Proof.
  unfold Places.slice. simpl skipn. apply firstn_map.
Qed.

Lemma cached_search (query : string) (data : list IBGECity) :
  municipios = Geolocation.Body data ->
  searchCitiesWithCache normalizeString municipios query
    (Some (map to_option data))
  = (0%nat, snd (searchCities normalizeString municipios query),
     Some (map to_option data)).
Proof.
  intros Hm. unfold searchCitiesWithCache, searchCities.
  destruct (too_short query); [reflexivity|].
  rewrite Hm. cbn [snd]. rewrite filter_to_option, slice_to_option.
  reflexivity.
Qed.

Lemma first_search (query : string) :
  fst (searchCitiesWithCache normalizeString municipios query None)
  = searchCities normalizeString municipios query.
Proof.
  unfold searchCitiesWithCache, searchCities.
  destruct (too_short query); [reflexivity|].
  destruct municipios as [| |data]; try reflexivity.
  cbn [fst]. rewrite filter_to_option, slice_to_option. reflexivity.
Qed.

End Cities.



(** X24: the cached search agrees with the uncached one.  Starting without
    a cache it sends the same number of requests and returns the same
    cities as [searchCities]; once a fetch has filled the cache, every
    later search sends no request, returns what [searchCities] returns on
    that list, and leaves the cache as it is; a failed fetch leaves the
    cache empty, so that the next search asks again. *)
Theorem searchCitiesWithCache_agrees
        (normalizeString : string -> string)
        (municipios : Geolocation.Fetched (list CityAutocomplete.IBGECity))
        (query : string) :
  fst (CityAutocomplete.searchCitiesWithCache normalizeString municipios
         query None)
  = CityAutocomplete.searchCities normalizeString municipios query
  /\ (forall data,
         municipios = Geolocation.Body data ->
         CityAutocomplete.searchCitiesWithCache normalizeString municipios
           query (Some (map CityAutocomplete.to_option data))
         = (0%nat,
            snd (CityAutocomplete.searchCities normalizeString municipios
                   query),
            Some (map CityAutocomplete.to_option data)))
  /\ (forall cache,
         snd (CityAutocomplete.searchCitiesWithCache normalizeString
                municipios query (Some cache)) = Some cache
         /\ fst (fst (CityAutocomplete.searchCitiesWithCache normalizeString
                        municipios query (Some cache))) = 0%nat)
  /\ ((forall data, municipios <> Geolocation.Body data) ->
      snd (CityAutocomplete.searchCitiesWithCache normalizeString municipios
             query None) = None)
  /\ (forall data,
         municipios = Geolocation.Body data ->
         CityAutocomplete.too_short query = false ->
         snd (CityAutocomplete.searchCitiesWithCache normalizeString
                municipios query None)
         = Some (map CityAutocomplete.to_option data)).
Proof.
  split; [apply first_search|].
  split; [intros data; apply cached_search|].
  split; [|split].
  - intros cache. unfold CityAutocomplete.searchCitiesWithCache.
    destruct (CityAutocomplete.too_short query); split; reflexivity.
  - intros Hfail. unfold CityAutocomplete.searchCitiesWithCache.
    destruct (CityAutocomplete.too_short query); [reflexivity|].
    destruct municipios as [| |data]; try reflexivity.
    exfalso. apply (Hfail data). reflexivity.
  - intros data Hm Hq. unfold CityAutocomplete.searchCitiesWithCache.
    rewrite Hq, Hm. reflexivity.
Qed.

Lemma searchCitiesWithCache_agrees_witness :
  snd (CityAutocomplete.searchCitiesWithCache normalize_example
         municipios_example "camp" None)
  <> None
  /\ fst (CityAutocomplete.searchCitiesWithCache normalize_example
            Geolocation.Rejected "camp" None) = (1%nat, []).
Proof.
  split.
  - rewrite (proj2 (proj2 (proj2 (proj2
               (searchCitiesWithCache_agrees normalize_example
                  municipios_example "camp")))) _ eq_refl eq_refl).
    discriminate.
  - rewrite (proj1 (searchCitiesWithCache_agrees normalize_example
                      Geolocation.Rejected "camp")).
    reflexivity.
Defined.

(* ================================================================== *)
(** * establishment-quiz.tsx: the course of the quiz *)

Lemma determineResult_some (userAnswers : list string) :
  exists r, Quiz.determineResult userAnswers = Some r
            /\ In (Quiz.type r) quiz_types.
Proof.
  unfold Quiz.determineResult. cbv zeta.
  repeat match goal with
         | |- context [if ?c then _ else _] => destruct c
         end;
    eexists; (split; [reflexivity|]); simpl; tauto.
Qed.

Lemma determined_key_some (userAnswers : list string) :
  exists key, QuizFlow.determined_key userAnswers = Some key
              /\ In key quiz_types.
Proof.
  unfold QuizFlow.determined_key.
  destruct (determineResult_some userAnswers) as [r [-> Ht]].
  exists (Quiz.type r). split; [reflexivity|exact Ht].
Qed.

Lemma determined_key_result_type (userAnswers : list string) :
  QuizFlow.determined_key userAnswers = result_type userAnswers.
Proof. reflexivity. Qed.

Lemma stored_type (images : string -> option string) (key : string) :
  In key quiz_types ->
  exists r, QuizFlow.stored images key = Some r /\ Quiz.type r = key.
Proof.
  intros Hin. unfold quiz_types in Hin. simpl in Hin.
  destruct Hin as [<-|[<-|[<-|[<-|[<-|[<-|[]]]]]]];
    eexists; (split; [reflexivity|reflexivity]).
Qed.

Lemma remove_one_Forall (P : string -> Prop) (key : string)
      (keys : list string) :
  Forall P keys -> Forall P (QuizFlow.remove_one key keys).
Proof.
  induction 1 as [|k rest Hk Hrest IH]; simpl; [constructor|].
  destruct (String.eqb k key); [exact Hrest|].
  constructor; assumption.
Qed.

Lemma existsb_eqb_In (value : string) (values : list string) :
  existsb (String.eqb value) values = true <-> In value values.
Proof.
  rewrite existsb_exists. split.
  - intros [x [Hin Heq]]. apply String.eqb_eq in Heq. subst. exact Hin.
  - intros Hin. exists value. split; [exact Hin|apply String.eqb_refl].
Qed.

Lemma invariant_initial (withGenerator : bool) :
  quiz_invariant withGenerator QuizFlow.initial.
Proof.
  unfold quiz_invariant, answers_so_far. simpl.
  repeat split; try lia; try discriminate; constructor.
Qed.

(** The states in which a question is shown. *)
Lemma open_state_cases (st : QuizFlow.State) :
  (QuizFlow.currentQuestion st < 3)%nat ->
  answers_so_far st ->
  (QuizFlow.currentQuestion st = 0%nat /\ QuizFlow.answers st = [])
  \/ (QuizFlow.currentQuestion st = 1%nat
      /\ exists a1, QuizFlow.answers st = [a1]
                    /\ In a1 ["food"; "health"; "meal"; "general"])
  \/ (QuizFlow.currentQuestion st = 2%nat
      /\ exists a1 a2,
          QuizFlow.answers st = [a1; a2]
          /\ In a1 ["food"; "health"; "meal"; "general"]
          /\ In a2 ["variety"; "specialized"; "quick"; "price"]).
Proof.
  unfold answers_so_far. intros Hlt H.
  destruct (QuizFlow.currentQuestion st) as [|[|[|n]]]; [| | |lia].
  - left. simpl in H. inversion H. split; reflexivity.
  - right; left. simpl in H.
    inversion H as [|q a qs rest Ha Hrest]; subst.
    inversion Hrest; subst.
    split; [reflexivity|]. exists a. split; [reflexivity|exact Ha].
  - right; right. simpl in H.
    inversion H as [|q a qs rest Ha Hrest]; subst.
    inversion Hrest as [|q' a' qs' rest' Ha' Hrest']; subst.
    inversion Hrest'; subst.
    split; [reflexivity|]. exists a, a'.
    split; [reflexivity|]. split; [exact Ha|exact Ha'].
Qed.

(** Under the invariant the card is shown exactly when the quiz is
    complete. *)
Lemma shows_result_complete (withGenerator : bool) (st : QuizFlow.State) :
  quiz_invariant withGenerator st ->
  QuizFlow.shows_result st = QuizFlow.isComplete st.
Proof.
  intros (_ & _ & Hc & _). unfold QuizFlow.shows_result.
  destruct (QuizFlow.isComplete st); [|reflexivity].
  destruct (Hc eq_refl) as (_ & _ & Hr).
  destruct (QuizFlow.result st); [reflexivity|contradiction].
Qed.

Lemma handleAnswer_keeps_invariant (withGenerator : bool) (value : string)
      (st : QuizFlow.State) :
  quiz_invariant withGenerator st ->
  QuizFlow.isComplete st = false ->
  In value (QuizFlow.offered st) ->
  quiz_invariant withGenerator (QuizFlow.handleAnswer withGenerator value st).
Proof.
  intros Hinv Hopen Hoffered.
  destruct Hinv as (Hlt & Hanswers & _ & Hres & Hpending & Hgen).
  specialize (Hanswers Hopen).
  destruct (open_state_cases st Hlt Hanswers)
    as [[Hq Ha]|[[Hq (a1 & Ha & H1)]|[Hq (a1 & a2 & Ha & H1 & H2)]]];
    unfold QuizFlow.offered in Hoffered; rewrite Hq in Hoffered;
    simpl in Hoffered;
    unfold QuizFlow.handleAnswer; rewrite Hq, Ha.
  - simpl. unfold quiz_invariant, answers_so_far. simpl.
    rewrite Hopen.
    split; [lia|]. split; [intros _; constructor; [exact Hoffered|constructor]|].
    split; [discriminate|]. split; [exact Hres|]. split; [exact Hpending|].
    intros Hg. specialize (Hgen Hg). rewrite Hopen in Hgen. exact Hgen.
  - simpl. unfold quiz_invariant, answers_so_far. simpl.
    rewrite Hopen.
    split; [lia|].
    split; [intros _; constructor; [exact H1|];
            constructor; [exact Hoffered|constructor]|].
    split; [discriminate|]. split; [exact Hres|]. split; [exact Hpending|].
    intros Hg. specialize (Hgen Hg). rewrite Hopen in Hgen. exact Hgen.
  - change ((2 <? List.length Quiz.quizQuestions - 1)%nat) with false.
    cbv iota.
    destruct (determined_key_some ([a1; a2] ++ [value])%list)
      as [key [Hkey Hin]].
    rewrite Hkey.
    unfold quiz_invariant, answers_so_far. simpl.
    split; [lia|]. split; [discriminate|].
    split.
    { intros _. split; [reflexivity|]. split; [|discriminate].
      unfold Quiz.quiz_answers, Quiz.quizQuestions.
      constructor; [exact H1|].
      constructor; [exact H2|].
      constructor; [exact Hoffered|constructor]. }
    split.
    { intros ref Href. injection Href as <-. exact Hin. }
    split.
    { destruct withGenerator; [constructor; assumption|exact Hpending]. }
    intros Hg. subst withGenerator. split; [apply Hgen; reflexivity|].
    simpl in Hkey. rewrite Hkey. reflexivity.
Qed.

Lemma imageSettles_keeps_invariant (withGenerator : bool) (key : string)
      (imageUrl : option string) (st : QuizFlow.State) :
  quiz_invariant withGenerator st ->
  In key (QuizFlow.pending st) ->
  quiz_invariant withGenerator (QuizFlow.imageSettles key imageUrl st).
Proof.
  intros (Hlt & Hanswers & Hcomplete & Hres & Hpending & Hgen) Hin.
  assert (Hkey : In key quiz_types).
  { rewrite Forall_forall in Hpending. apply Hpending. exact Hin. }
  assert (Hnone : withGenerator = false -> False).
  { intros Hg. destruct (Hgen Hg) as [Hp _]. rewrite Hp in Hin.
    destruct Hin. }
  unfold QuizFlow.imageSettles.
  set (url := match imageUrl with
              | Some u => if JsString.truthy u then Some u else None
              | None => None
              end).
  destruct url as [u|].
  - match goal with
    | |- context [QuizFlow.stored ?im key] =>
        destruct (stored_type im key Hkey) as [copy [Hcopy Htype]];
        rewrite Hcopy
    end.
    unfold quiz_invariant, answers_so_far. simpl.
    split; [exact Hlt|]. split; [exact Hanswers|].
    split.
    { intros Hc. destruct (Hcomplete Hc) as (Hq & Ha & _).
      split; [exact Hq|]. split; [exact Ha|discriminate]. }
    split.
    { intros ref Href. injection Href as <-. simpl. rewrite Htype.
      exact Hkey. }
    split; [apply remove_one_Forall; exact Hpending|].
    intros Hg. destruct (Hnone Hg).
  - unfold quiz_invariant, answers_so_far. simpl.
    split; [exact Hlt|]. split; [exact Hanswers|].
    split; [exact Hcomplete|]. split; [exact Hres|].
    split; [apply remove_one_Forall; exact Hpending|].
    intros Hg. destruct (Hnone Hg).
Qed.

Lemma click_keeps_invariant (withGenerator : bool) (ev : QuizFlow.Event)
      (st st' : QuizFlow.State) :
  quiz_invariant withGenerator st ->
  QuizFlow.click withGenerator ev st = Some st' ->
  quiz_invariant withGenerator st'.
Proof.
  intros Hinv Hclick.
  pose proof (shows_result_complete withGenerator st Hinv) as Hshows.
  destruct ev as [value| | |key imageUrl|key]; simpl in Hclick;
    try rewrite Hshows in Hclick.
  - destruct (QuizFlow.isComplete st) eqn:Hc; [discriminate|].
    simpl in Hclick.
    destruct (existsb (String.eqb value) (QuizFlow.offered st)) eqn:Hoff;
      [|discriminate].
    injection Hclick as <-.
    apply handleAnswer_keeps_invariant;
      [exact Hinv|exact Hc|apply existsb_eqb_In; exact Hoff].
  - destruct (QuizFlow.isComplete st) eqn:Hc; [discriminate|].
    simpl in Hclick.
    destruct (0 <? QuizFlow.currentQuestion st)%nat eqn:Hpos; [|discriminate].
    injection Hclick as <-. apply Nat.ltb_lt in Hpos.
    destruct Hinv as (Hlt & Hanswers & _ & Hres & Hpending & Hgen).
    specialize (Hanswers Hc).
    unfold quiz_invariant, answers_so_far, QuizFlow.goBack. simpl.
    rewrite Hc.
    split; [lia|].
    split.
    { intros _.
      destruct (open_state_cases st Hlt Hanswers)
        as [[Hq Ha]|[[Hq (a1 & Ha & H1)]|[Hq (a1 & a2 & Ha & H1 & H2)]]];
        rewrite Hq, Ha; [lia| |]; simpl.
      - constructor.
      - constructor; [exact H1|constructor]. }
    split; [discriminate|]. split; [exact Hres|]. split; [exact Hpending|].
    intros Hg. specialize (Hgen Hg). rewrite Hc in Hgen. exact Hgen.
  - destruct (QuizFlow.isComplete st) eqn:Hc; [|discriminate].
    injection Hclick as <-.
    destruct Hinv as (_ & _ & _ & _ & Hpending & Hgen).
    unfold quiz_invariant, answers_so_far, QuizFlow.resetQuiz. simpl.
    split; [lia|]. split; [intros _; constructor|].
    split; [discriminate|]. split; [discriminate|].
    split; [exact Hpending|].
    intros Hg. split; [apply Hgen; exact Hg|reflexivity].
  - destruct (existsb (String.eqb key) (QuizFlow.pending st)) eqn:Hp;
      [|discriminate].
    injection Hclick as <-.
    apply imageSettles_keeps_invariant;
      [exact Hinv|apply existsb_eqb_In; exact Hp].
  - destruct (existsb (String.eqb key) (QuizFlow.pending st)) eqn:Hp;
      [|discriminate].
    injection Hclick as <-.
    destruct Hinv as (Hlt & Hanswers & Hcomplete & Hres & Hpending & Hgen).
    unfold quiz_invariant, answers_so_far, QuizFlow.imageRejects. simpl.
    split; [exact Hlt|]. split; [exact Hanswers|].
    split; [exact Hcomplete|]. split; [exact Hres|].
    split; [apply remove_one_Forall; exact Hpending|].
    intros Hg. destruct (Hgen Hg) as [Hp' Hr]. rewrite Hp'. simpl.
    split; [reflexivity|exact Hr].
Qed.

Lemma clicks_keep_invariant (withGenerator : bool)
      (evs : list QuizFlow.Event) :
  forall st st',
    quiz_invariant withGenerator st ->
    QuizFlow.clicks withGenerator evs st = Some st' ->
    quiz_invariant withGenerator st'.
Proof.
  induction evs as [|ev rest IH]; intros st st' Hinv Hrun; simpl in Hrun.
  - injection Hrun as <-. exact Hinv.
  - destruct (QuizFlow.click withGenerator ev st) as [st1|] eqn:Hclick;
      [|discriminate].
    apply (IH st1 st'); [|exact Hrun].
    apply (click_keeps_invariant withGenerator ev st); assumption.
Qed.

Lemma clicks_app (withGenerator : bool) (evs evs' : list QuizFlow.Event) :
  forall st st',
    QuizFlow.clicks withGenerator evs st = Some st' ->
    QuizFlow.clicks withGenerator (evs ++ evs')%list st
    = QuizFlow.clicks withGenerator evs' st'.
Proof.
  induction evs as [|ev rest IH]; intros st st' Hrun; simpl in *.
  - injection Hrun as <-. reflexivity.
  - destruct (QuizFlow.click withGenerator ev st) as [st1|];
      [|discriminate].
    apply IH. exact Hrun.
Qed.

(** Answering the three questions from the first one completes the quiz
    with the result of these answers. *)
Lemma answer_all (withGenerator : bool) (userAnswers : list string)
      (st : QuizFlow.State) :
  Quiz.quiz_answers userAnswers ->
  QuizFlow.currentQuestion st = 0%nat ->
  QuizFlow.answers st = [] ->
  QuizFlow.isComplete st = false ->
  exists key st',
    result_type userAnswers = Some key
    /\ QuizFlow.clicks withGenerator (map QuizFlow.Answer userAnswers) st
       = Some st'
    /\ QuizFlow.answers st' = userAnswers
    /\ QuizFlow.isComplete st' = true
    /\ QuizFlow.result st' = Some (QuizFlow.Shared key)
    /\ QuizFlow.images st' = QuizFlow.images st
    /\ QuizFlow.pending st'
       = if withGenerator then key :: QuizFlow.pending st
         else QuizFlow.pending st.
Proof.
  intros Hq Hcq Hans Hopen.
  destruct (quiz_answers_cases _ Hq) as (a1 & a2 & a3 & -> & H1 & H2 & H3).
  destruct (determined_key_some [a1; a2; a3]) as [key [Hkey _]].
  exists key.
  destruct st as [cq ans ic res ig im pd]. simpl in Hcq, Hans, Hopen.
  subst cq ans ic.
  apply existsb_eqb_In in H1. apply existsb_eqb_In in H2.
  apply existsb_eqb_In in H3.
  unfold QuizFlow.clicks, map, QuizFlow.click, QuizFlow.shows_result,
    QuizFlow.offered, QuizFlow.handleAnswer.
  cbn -[existsb QuizFlow.determined_key].
  rewrite H1. cbn -[existsb QuizFlow.determined_key].
  rewrite H2. cbn -[existsb QuizFlow.determined_key].
  rewrite H3. cbn -[existsb QuizFlow.determined_key].
  rewrite Hkey.
  eexists. split; [exact Hkey|]. split; [reflexivity|].
  simpl. repeat split; reflexivity.
Qed.

(** X25: in every state the quiz reaches, by clicks and by image requests
    settling in any order, the question index is below three; while a
    question is shown, the answers are one option value of each question
    passed; while the result card is shown, the answers are one option value
    of each of the three questions, in order, and the card shows one of the
    six results.  Without an image generator the result shown is the one of
    the answers. *)
Theorem quiz_states_in_order (withGenerator : bool) (st : QuizFlow.State) :
  reachable withGenerator st ->
  (QuizFlow.currentQuestion st < 3)%nat
  /\ (QuizFlow.shows_result st = false -> answers_so_far st)
  /\ (QuizFlow.shows_result st = true ->
      Quiz.quiz_answers (QuizFlow.answers st)
      /\ exists r, QuizFlow.shown st = Some r
                   /\ In (Quiz.type r) quiz_types)
  /\ (withGenerator = false ->
      QuizFlow.shows_result st = true ->
      option_map Quiz.type (QuizFlow.shown st)
      = result_type (QuizFlow.answers st)).
Proof.
  intros [evs Hrun].
  assert (Hinv : quiz_invariant withGenerator st).
  { apply (clicks_keep_invariant withGenerator evs QuizFlow.initial);
      [apply invariant_initial|exact Hrun]. }
  pose proof (shows_result_complete withGenerator st Hinv) as Hshows.
  rewrite Hshows.
  destruct Hinv as (Hlt & Hanswers & Hcomplete & Hres & _ & Hgen).
  split; [exact Hlt|]. split; [exact Hanswers|].
  split.
  - intros Hc. destruct (Hcomplete Hc) as (_ & Ha & Hr).
    split; [exact Ha|].
    unfold QuizFlow.shown.
    destruct (QuizFlow.result st) as [[key|copy]|] eqn:Href;
      [| |contradiction].
    + destruct (stored_type (QuizFlow.images st) key (Hres _ eq_refl))
        as [r [Hstored Htype]].
      exists r. split; [exact Hstored|].
      rewrite Htype. exact (Hres _ eq_refl).
    + exists copy. split; [reflexivity|exact (Hres _ eq_refl)].
  - intros Hg Hc. destruct (Hgen Hg) as [_ Hr]. rewrite Hc in Hr.
    unfold QuizFlow.shown. rewrite Hr.
    rewrite determined_key_result_type.
    destruct (result_type (QuizFlow.answers st)) as [key|] eqn:Hkey;
      [|reflexivity].
    simpl.
    assert (Hin : In key quiz_types).
    { destruct (determined_key_some (QuizFlow.answers st)) as [k [Hk Hin]].
      rewrite determined_key_result_type, Hkey in Hk.
      injection Hk as <-. exact Hin. }
    destruct (stored_type (QuizFlow.images st) key Hin) as [r [-> Htype]].
    simpl. rewrite Htype. reflexivity.
Qed.

Lemma quiz_states_in_order_witness :
  Quiz.quiz_answers ["meal"; "quick"; "cozy"]
  /\ exists r,
      Some {| Quiz.type := "Cafeteria";
              Quiz.name := "Cafeteria/Café";
              Quiz.description := "Estabelecimentos especializados em café, bebidas quentes, doces e ambiente aconchegante.";
              Quiz.imageUrl := Some "https://images.example/cafe.png" |}
      = Some r
      /\ In (Quiz.type r) quiz_types.
Proof.
  refine (proj1 (proj2 (proj2
            (quiz_states_in_order true
               {| QuizFlow.currentQuestion := 2;
                  QuizFlow.answers := ["meal"; "quick"; "cozy"];
                  QuizFlow.isComplete := true;
                  QuizFlow.result :=
                    Some (QuizFlow.Fresh
                            {| Quiz.type := "Cafeteria";
                               Quiz.name := "Cafeteria/Café";
                               Quiz.description := "Estabelecimentos especializados em café, bebidas quentes, doces e ambiente aconchegante.";
                               Quiz.imageUrl := Some "https://images.example/cafe.png" |});
                  QuizFlow.isGeneratingImage := false;
                  QuizFlow.images := _;
                  QuizFlow.pending := [] |}
               _))) eq_refl).
  exists [QuizFlow.Answer "meal"; QuizFlow.Answer "quick";
          QuizFlow.Answer "cozy";
          QuizFlow.Image "Cafeteria" (Some "https://images.example/cafe.png")].
  reflexivity.
Defined.

(** X26: the button "Voltar" undoes the last answer: after an answer to
    the first or second question, a click on it gives back the state
    before the answer. *)
Theorem back_undoes_answer (withGenerator : bool) (value : string)
        (st st' : QuizFlow.State) :
  reachable withGenerator st ->
  (QuizFlow.currentQuestion st < 2)%nat ->
  QuizFlow.click withGenerator (QuizFlow.Answer value) st = Some st' ->
  QuizFlow.click withGenerator QuizFlow.Back st' = Some st.
Proof.
  intros [evs Hrun] Hlt Hclick.
  assert (Hinv : quiz_invariant withGenerator st).
  { apply (clicks_keep_invariant withGenerator evs QuizFlow.initial);
      [apply invariant_initial|exact Hrun]. }
  pose proof (shows_result_complete withGenerator st Hinv) as Hshows.
  simpl in Hclick. rewrite Hshows in Hclick.
  destruct (QuizFlow.isComplete st) eqn:Hc; [discriminate|].
  simpl in Hclick.
  destruct (existsb (String.eqb value) (QuizFlow.offered st));
    [|discriminate].
  injection Hclick as <-.
  unfold QuizFlow.shows_result in Hshows. rewrite Hc in Hshows.
  destruct st as [cq ans ic res ig im pd]. simpl in *. subst ic.
  unfold QuizFlow.handleAnswer. simpl.
  assert (Hb : (cq <? 2)%nat = true) by (apply Nat.ltb_lt; exact Hlt).
  rewrite Hb.
  unfold QuizFlow.shows_result, QuizFlow.goBack. simpl.
  assert (Hpos : (0 <? cq + 1)%nat = true) by (apply Nat.ltb_lt; lia).
  rewrite Hpos. simpl.
  rewrite removelast_last.
  replace (cq + 1 - 1)%nat with cq by lia.
  reflexivity.
Qed.

Lemma back_undoes_answer_witness :
  QuizFlow.click false QuizFlow.Back
    {| QuizFlow.currentQuestion := 1;
       QuizFlow.answers := ["food"];
       QuizFlow.isComplete := false;
       QuizFlow.result := None;
       QuizFlow.isGeneratingImage := false;
       QuizFlow.images := fun _ => None;
       QuizFlow.pending := [] |}
  = Some QuizFlow.initial.
Proof.
  apply (back_undoes_answer false "food" QuizFlow.initial).
  - exists []. reflexivity.
  - simpl. lia.
  - reflexivity.
Defined.

(** X27: with an image generator, the image of an earlier run of the quiz
    that arrives after a later run was completed replaces the result
    shown: for any two answer sequences of the quiz there is a reachable
    state whose card shows the result of the first while the answers held
    are the second. *)
Theorem late_image_replaces_result (first second : list string)
        (imageUrl : string) :
  Quiz.quiz_answers first ->
  Quiz.quiz_answers second ->
  JsString.truthy imageUrl = true ->
  exists st,
    reachable true st
    /\ QuizFlow.shows_result st = true
    /\ QuizFlow.answers st = second
    /\ option_map Quiz.type (QuizFlow.shown st) = result_type first
    /\ option_map Quiz.imageUrl (QuizFlow.shown st) = Some (Some imageUrl).
Proof.
  intros Hfirst Hsecond Htruthy.
  destruct (answer_all true first QuizFlow.initial Hfirst eq_refl eq_refl
              eq_refl)
    as (key1 & st1 & Hkey1 & Hrun1 & Hans1 & Hc1 & Hres1 & Him1 & Hp1).
  set (st2 := QuizFlow.resetQuiz st1).
  destruct (answer_all true second st2 Hsecond eq_refl eq_refl eq_refl)
    as (key2 & st3 & Hkey2 & Hrun2 & Hans3 & Hc3 & Hres3 & Him3 & Hp3).
  assert (Hin1 : In key1 quiz_types).
  { destruct (determined_key_some first) as [k [Hk Hin]].
    rewrite determined_key_result_type, Hkey1 in Hk.
    injection Hk as <-. exact Hin. }
  exists (QuizFlow.imageSettles key1 (Some imageUrl) st3).
  split.
  - exists (map QuizFlow.Answer first
            ++ [QuizFlow.Reset]
            ++ map QuizFlow.Answer second
            ++ [QuizFlow.Image key1 (Some imageUrl)])%list.
    rewrite (clicks_app true _ _ _ _ Hrun1).
    change (([QuizFlow.Reset] ++ ?l)%list) with (QuizFlow.Reset :: l).
    cbn [QuizFlow.clicks QuizFlow.click].
    unfold QuizFlow.shows_result at 1. rewrite Hc1, Hres1. cbn [andb].
    fold st2.
    rewrite (clicks_app true _ _ _ _ Hrun2).
    cbn [QuizFlow.clicks QuizFlow.click].
    rewrite Hp3. simpl QuizFlow.pending. rewrite Hp1.
    simpl existsb. rewrite String.eqb_refl, orb_true_l, orb_true_r.
    reflexivity.
  - unfold QuizFlow.imageSettles. rewrite Htruthy.
    match goal with
    | |- context [QuizFlow.stored ?im key1] =>
        destruct (stored_type im key1 Hin1) as [copy [Hcopy Htype]];
        rewrite Hcopy;
        pose proof Hcopy as Himage
    end.
    unfold QuizFlow.shows_result, QuizFlow.shown. simpl.
    rewrite Hc3, Hkey1, Htype.
    split; [reflexivity|]. split; [exact Hans3|].
    split; [reflexivity|].
    unfold QuizFlow.stored in Himage.
    destruct (JsObject.get Quiz.quizResults key1); [|discriminate].
    injection Himage as <-. simpl. rewrite String.eqb_refl. reflexivity.
Qed.

Lemma late_image_replaces_result_witness :
  exists st,
    reachable true st
    /\ QuizFlow.shows_result st = true
    /\ QuizFlow.answers st = ["health"; "specialized"; "professional"]
    /\ option_map Quiz.type (QuizFlow.shown st) = Some "Cafeteria"
    /\ option_map Quiz.imageUrl (QuizFlow.shown st)
       = Some (Some "https://images.example/cafe.png").
Proof.
  apply (late_image_replaces_result ["meal"; "quick"; "cozy"]
           ["health"; "specialized"; "professional"]
           "https://images.example/cafe.png").
  - simpl. unfold Quiz.quiz_answers. simpl.
    repeat (constructor; [simpl; tauto|]). constructor.
  - unfold Quiz.quiz_answers. simpl.
    repeat (constructor; [simpl; tauto|]). constructor.
  - reflexivity.
Defined.

(** X28: the decision table of the quiz is total and onto: every answer
    sequence of the quiz has a result whose type is one of the six result
    types, and each of the six is the result of some answer sequence.  A
    first answer "general" always gives Mercado. *)
Theorem quiz_results_total_and_onto :
  (forall userAnswers,
      Quiz.quiz_answers userAnswers ->
      exists category,
        result_type userAnswers = Some category /\ In category quiz_types)
  /\ (forall category,
         In category quiz_types ->
         exists userAnswers,
           Quiz.quiz_answers userAnswers
           /\ result_type userAnswers = Some category)
  /\ (forall a2 a3,
         Quiz.quiz_answers ["general"; a2; a3] ->
         result_type ["general"; a2; a3] = Some "Mercado").
Proof.
  split; [|split].
  - intros userAnswers _. unfold result_type.
    destruct (determineResult_some userAnswers) as [r [Hr Ht]].
    rewrite Hr. exists (Quiz.type r). split; [reflexivity|exact Ht].
  - intros category Hin. unfold quiz_types in Hin. simpl in Hin.
    assert (Hq : forall a b c,
               In a ["food"; "health"; "meal"; "general"] ->
               In b ["variety"; "specialized"; "quick"; "price"] ->
               In c ["large"; "professional"; "cozy"; "simple"] ->
               Quiz.quiz_answers [a; b; c]).
    { intros a b c Ha Hb Hc. unfold Quiz.quiz_answers, Quiz.quizQuestions.
      constructor; [exact Ha|].
      constructor; [exact Hb|].
      constructor; [exact Hc|constructor]. }
    destruct Hin as [<-|[<-|[<-|[<-|[<-|[<-|[]]]]]]].
    + exists ["food"; "variety"; "large"].
      split; [apply Hq; simpl; tauto|reflexivity].
    + exists ["health"; "specialized"; "professional"].
      split; [apply Hq; simpl; tauto|reflexivity].
    + exists ["meal"; "quick"; "simple"].
      split; [apply Hq; simpl; tauto|reflexivity].
    + exists ["meal"; "quick"; "cozy"].
      split; [apply Hq; simpl; tauto|reflexivity].
    + exists ["food"; "quick"; "cozy"].
      split; [apply Hq; simpl; tauto|reflexivity].
    + exists ["meal"; "specialized"; "professional"].
      split; [apply Hq; simpl; tauto|reflexivity].
  - intros a2 a3 H. apply quiz_answers_cases in H.
    destruct H as (b1 & b2 & b3 & Heq & _ & H2 & H3).
    injection Heq as <- <- <-. simpl in H2, H3.
    repeat match goal with
           | H : _ \/ _ |- _ => destruct H as [<-|H]
           | H : False |- _ => destruct H
           end; reflexivity.
Qed.

Lemma quiz_results_total_and_onto_witness :
  exists userAnswers,
    Quiz.quiz_answers userAnswers
    /\ result_type userAnswers = Some "Padaria".
Proof.
  apply (proj1 (proj2 quiz_results_total_and_onto)).
  simpl. tauto.
Defined.
